(** * Booking concurrency control of the resort backend

    A shallow embedding of [routes/bookings.py]: the reservation
    coordinator [create_booking], the update endpoint [update_booking]
    and the occupancy release endpoint [release_occupancies_endpoint],
    over an explicit model of the MongoDB collections they touch.

    Conventions.
    - A midnight [datetime] is its proleptic Gregorian ordinal (what
      [datetime.toordinal] returns), a [Z]; [timedelta(days=1)] adds 1.
    - An [ObjectId] is the number its bytes spell: 96 bits for the
      twelve bytes of 24 hexadecimal digits.
    - A [str] is the bytes of its UTF-8 form.
    - What lies outside the module (the lock manager, the capacity
      collaborator, the driver's failures, the clock) is read from an
      environment record [Env]; the theorems quantify over it.
    - Every endpoint starts with [db = get_db_or_503(request)]; the
      [World] below is that database.  A process without one answers
      503 before any line modelled here runs. *)

From Stdlib Require Import ZArith List String Ascii Bool Lia Sorted.
From Stdlib Require Import Floats.PrimFloat.
From Stdlib Require DecimalString.
Import ListNotations.

Local Open Scope string_scope.
Local Open Scope Z_scope.

(** ** Python values *)

Module Py.

(** Exceptions raised by collaborators (driver, lock manager, helpers),
    by the class the handlers of [create_booking] dispatch on:
    [pymongo.errors.DuplicateKeyError] is a subclass of
    [pymongo.errors.PyMongoError], itself a subclass of [Exception]. *)
Inductive pyexc : Type :=
| DuplicateKeyError
| PyMongoError      (* a PyMongoError that is not a DuplicateKeyError,
                       such as BulkWriteError or a network error *)
| OtherException.   (* an Exception that is not a PyMongoError *)

(** What an endpoint can raise: [fastapi.HTTPException] or an exception
    of a collaborator that no handler caught. *)
Inductive exn : Type :=
| HTTPException (status_code : Z) (detail : string)
| Raised (e : pyexc).

Definition status_of (e : exn) : option Z :=
  match e with
  | HTTPException c _ => Some c
  | Raised _ => None
  end.

(** [x or y] on optional integers: [None] and [0] are falsy. *)
Definition or_int (x : option Z) (y : option Z) : option Z :=
  match x with
  | Some v => if v =? 0 then y else Some v
  | None => y
  end.

(** [int(x or 0)]. *)
Definition int_or_0 (x : option Z) : Z :=
  match or_int x (Some 0) with
  | Some v => v
  | None => 0
  end.

(** [str(n)] for an [int]. *)
Definition str_of_int (n : Z) : string :=
  DecimalString.NilZero.string_of_int (Z.to_int n).

(** [a >= b] on [str]: lexicographic order of the code points. *)
Definition str_ge (a b : string) : bool := String.leb b a.

End Py.
Export Py.

(** ** Text *)

Module Unicode.

(** A [str] is kept as the bytes of its UTF-8 form (a lone surrogate as
    the three bytes that form gives it); the order of two such byte
    strings is the order of the code points.  [code_points] reads the
    characters back; [None] on bytes that are no [str]. *)
Definition continuation (c : ascii) : option N :=
  let n := N_of_ascii c in
  if (128 <=? n)%N && (n <? 192)%N then Some (n - 128)%N else None.

Definition at_least (least : N) (c : N) : option N :=
  if (least <=? c)%N && (c <=? 1114111)%N then Some c else None.

Fixpoint code_points (cs : list ascii) : option (list N) :=
  match cs with
  | [] => Some []
  | c :: r =>
      let n := N_of_ascii c in
      if (n <? 128)%N then option_map (cons n) (code_points r)
      else if (192 <=? n)%N && (n <? 224)%N then
        match r with
        | c1 :: r1 =>
            match continuation c1 with
            | Some a =>
                match at_least 128 ((n - 192) * 64 + a)%N, code_points r1 with
                | Some p, Some ps => Some (p :: ps)
                | _, _ => None
                end
            | None => None
            end
        | _ => None
        end
      else if (224 <=? n)%N && (n <? 240)%N then
        match r with
        | c1 :: c2 :: r2 =>
            match continuation c1, continuation c2 with
            | Some a, Some b =>
                match at_least 2048 (((n - 224) * 64 + a) * 64 + b)%N,
                      code_points r2 with
                | Some p, Some ps => Some (p :: ps)
                | _, _ => None
                end
            | _, _ => None
            end
        | _ => None
        end
      else if (240 <=? n)%N && (n <? 248)%N then
        match r with
        | c1 :: c2 :: c3 :: r3 =>
            match continuation c1, continuation c2, continuation c3 with
            | Some a, Some b, Some c' =>
                match at_least 65536 ((((n - 240) * 64 + a) * 64 + b) * 64 + c')%N,
                      code_points r3 with
                | Some p, Some ps => Some (p :: ps)
                | _, _ => None
                end
            | _, _, _ => None
            end
        | _ => None
        end
      else None
  end.

(** The characters of category Nd come in runs of ten, zero to nine;
    these are the zeros (Unicode 14.0, the database of CPython 3.11). *)
Definition decimal_zeros : list N :=
  [48; 1632; 1776; 1984; 2406; 2534; 2662; 2790; 2918; 3046; 3174; 3302;
   3430; 3558; 3664; 3792; 3872; 4160; 4240; 6112; 6160; 6470; 6608; 6784;
   6800; 6992; 7088; 7232; 7248; 42528; 43216; 43264; 43472; 43504; 43600;
   44016; 65296; 66720; 68912; 69734; 69872; 69942; 70096; 70384; 70736;
   70864; 71248; 71360; 71472; 71904; 72016; 72784; 73040; 73120; 92768;
   92864; 93008; 120782; 120792; 120802; 120812; 120822; 123200; 123632;
   125264; 130032]%N.

(** [\d] in a [str] pattern, and the value [int] gives the character:
    any decimal digit, of any script. *)
Definition decimal (c : N) : option Z :=
  match find (fun z => (z <=? c)%N && (c <? z + 10)%N) decimal_zeros with
  | Some z => Some (Z.of_N (c - z))
  | None => None
  end.

End Unicode.

(** ** Dates *)

Module Datetime.

Definition is_digit (c : ascii) : bool :=
  let n := Z.of_N (N_of_ascii c) in (48 <=? n) && (n <=? 57).

Definition digit_val (c : ascii) : Z := Z.of_N (N_of_ascii c) - 48.

Definition is_leap (y : Z) : bool :=
  (y mod 4 =? 0) && (negb (y mod 100 =? 0) || (y mod 400 =? 0)).

Definition days_in_month (y m : Z) : Z :=
  if m =? 2 then (if is_leap y then 29 else 28)
  else if (m =? 4) || (m =? 6) || (m =? 9) || (m =? 11) then 30
  else 31.

(** Days of the year before the first day of month [m]. *)
Definition days_before_month (y m : Z) : Z :=
  let base :=
    nth (Z.to_nat (m - 1))
        [0; 31; 59; 90; 120; 151; 181; 212; 243; 273; 304; 334] 0 in
  if (2 <? m) && is_leap y then base + 1 else base.

Definition days_before_year (y : Z) : Z :=
  let p := y - 1 in p * 365 + p / 4 - p / 100 + p / 400.

(** [datetime(y, m, d).toordinal()]; 0001-01-01 is day 1. *)
Definition ymd_to_ordinal (y m d : Z) : Z :=
  days_before_year y + days_before_month y m + d.

(** [datetime(y, m, d)]: [ValueError] outside the calendar. *)
Definition make_date (y m d : Z) : option Z :=
  if (1 <=? y) && (y <=? 9999) && (1 <=? m) && (m <=? 12)
     && (1 <=? d) && (d <=? days_in_month y m)
  then Some (ymd_to_ordinal y m d) else None.

(** [[0-9]] in a pattern: an ASCII digit and nothing else. *)
Definition ascii_digit (c : N) : option Z :=
  if (48 <=? c)%N && (c <=? 57)%N then Some (Z.of_N c - 48) else None.

Definition nonzero (v : option Z) : option Z :=
  match v with
  | Some x => if x =? 0 then None else Some x
  | None => None
  end.

(** The [%m] directive: [1[0-2]|0[1-9]|[1-9]]. *)
Definition parse_month (cs : list N) : option Z :=
  match cs with
  | [a] => nonzero (ascii_digit a)
  | [a; b] =>
      match ascii_digit a, ascii_digit b with
      | Some x, Some y =>
          let v := 10 * x + y in
          if (1 <=? v) && (v <=? 12) then Some v else None
      | _, _ => None
      end
  | _ => None
  end.

(** The [%d] directive: [3[0-1]|[1-2]\d|0[1-9]|[1-9]| [1-9]].  The
    second digit after a 1 or a 2 is a [\d]: any decimal digit. *)
Definition parse_day (cs : list N) : option Z :=
  match cs with
  | [a] => nonzero (ascii_digit a)
  | [a; b] =>
      if (a =? 32)%N then nonzero (ascii_digit b)
      else
        match ascii_digit a with
        | Some x =>
            if x =? 3 then
              match ascii_digit b with
              | Some y => if y <=? 1 then Some (30 + y) else None
              | None => None
              end
            else if (x =? 1) || (x =? 2) then
              match Unicode.decimal b with
              | Some y => Some (10 * x + y)
              | None => None
              end
            else if x =? 0 then nonzero (ascii_digit b)
            else None
        | None => None
        end
  | _ => None
  end.

(** Splits at the first ["-"]. *)
Fixpoint split_dash (cs : list N) : option (list N * list N) :=
  match cs with
  | [] => None
  | c :: r =>
      if (c =? 45)%N then Some ([], r)
      else match split_dash r with
           | Some (a, b) => Some (c :: a, b)
           | None => None
           end
  end.

(** [datetime.strptime(s, "%Y-%m-%d")]: the pattern
    [(\d\d\d\d)-(1[0-2]|0[1-9]|[1-9])-(3[0-1]|[1-2]\d|0[1-9]|[1-9]| [1-9])]
    matched from the start, the whole string consumed, each group read
    with [int], and the date in the calendar; [None] stands for the
    [ValueError]. *)
Definition strptime (s : string) : option Z :=
  match Unicode.code_points (list_ascii_of_string s) with
  | Some (y1 :: y2 :: y3 :: y4 :: dash :: rest) =>
      match Unicode.decimal y1, Unicode.decimal y2,
            Unicode.decimal y3, Unicode.decimal y4 with
      | Some a, Some b, Some c, Some d =>
          if (dash =? 45)%N then
            match split_dash rest with
            | Some (ms, ds) =>
                match parse_month ms, parse_day ds with
                | Some m, Some dd => make_date (1000 * a + 100 * b + 10 * c + d) m dd
                | _, _ => None
                end
            | None => None
            end
          else None
      | _, _, _, _ => None
      end
  | _ => None
  end.

End Datetime.

(** ** Documents *)

Module Bson.

(** A [bson.ObjectId], as the number its bytes spell (twelve bytes, but
    for the identifiers [of_bytes] below makes of fewer). *)
Definition ObjectId : Type := N.

Definition hex_val (c : ascii) : option N :=
  let n := N_of_ascii c in
  if (48 <=? n)%N && (n <=? 57)%N then Some (n - 48)%N
  else if (97 <=? n)%N && (n <=? 102)%N then Some (n - 87)%N
  else if (65 <=? n)%N && (n <=? 70)%N then Some (n - 55)%N
  else None.

(** [Py_ISSPACE]: the ASCII whitespace [bytes.fromhex] skips. *)
Definition is_space (c : ascii) : bool :=
  let n := N_of_ascii c in
  ((9 <=? n)%N && (n <=? 13)%N) || (n =? 32)%N.

(** [bytes.fromhex(s)]: two hexadecimal digits per byte, ASCII
    whitespace skipped before each pair; [None] for the [ValueError]
    (a character that is neither, a digit left alone, whitespace inside
    a pair, a character outside ASCII). *)
Fixpoint fromhex (cs : list ascii) : option (list N) :=
  match cs with
  | [] => Some []
  | c :: r =>
      if is_space c then fromhex r
      else
        match hex_val c, r with
        | Some top, c' :: r' =>
            match hex_val c', fromhex r' with
            | Some bot, Some bs => Some ((16 * top + bot)%N :: bs)
            | _, _ => None
            end
        | _, _ => None
        end
  end.

(** The identifier of the bytes [bs]: twelve bytes are the number they
    spell; fewer (whitespace took the place of digits) give an
    identifier equal to none of twelve bytes, and to no other short
    one. *)
Definition of_bytes (bs : list N) : ObjectId :=
  let v := fold_left (fun acc b => 256 * acc + b)%N bs 0%N in
  if Nat.eqb (List.length bs) 12 then v
  else (2 ^ 96 + 256 ^ N.of_nat (List.length bs) + v)%N.

(** [ObjectId(s)] for a [str]: [len(s) == 24] and [bytes.fromhex(s)]
    succeeds, else [InvalidId] ([None]).  A string with a character
    outside ASCII fails one test or the other. *)
Definition ObjectId_of_str (s : string) : option ObjectId :=
  if Nat.eqb (String.length s) 24
  then option_map of_bytes (fromhex (list_ascii_of_string s))
  else None.

(** [Union[str, List[str]]]: the two shapes of [accommodation_id]. *)
Inductive acc_id : Type :=
| AccStr (s : string)
| AccList (l : list string).

Fixpoint str_list_eqb (a b : list string) : bool :=
  match a, b with
  | [], [] => true
  | x :: a', y :: b' => String.eqb x y && str_list_eqb a' b'
  | _, _ => false
  end.

(** Equality match of a stored value against a query value: a string
    equals a string, an array equals the same array. *)
Definition acc_id_eqb (a b : acc_id) : bool :=
  match a, b with
  | AccStr x, AccStr y => String.eqb x y
  | AccList x, AccList y => str_list_eqb x y
  | _, _ => false
  end.

Definition is_list (a : acc_id) : bool :=
  match a with
  | AccList _ => true
  | AccStr _ => false
  end.

(** [ObjectId(x)] where [x] is an [accommodation_id]: a list is a
    [TypeError]. *)
Definition ObjectId_of_acc_id (a : acc_id) : option ObjectId :=
  match a with
  | AccStr s => ObjectId_of_str s
  | AccList _ => None
  end.

(** A stored date field: the driver stores a [str] as a BSON string and
    a [datetime] as a BSON date. *)
Inductive value : Type :=
| VStr (s : string)
| VDate (d : Z)
| VNull.

(** [{"$lt": q}] and [{"$gt": q}] for a [datetime] [q]: comparison
    operators of a query select only values of the BSON type of their
    operand, so a string field never satisfies them. *)
Definition lt_date (v : value) (q : Z) : bool :=
  match v with
  | VDate d => d <? q
  | _ => false
  end.

Definition gt_date (v : value) (q : Z) : bool :=
  match v with
  | VDate d => q <? d
  | _ => false
  end.

(** [{"$ne": s}]: also selects a document without the field. *)
Definition ne_str (v : option string) (s : string) : bool :=
  match v with
  | Some x => negb (String.eqb x s)
  | None => true
  end.

End Bson.
Export Bson.

(** The pydantic model of the POST body. *)
Module BookingCreateRequest.
Record t : Type := {
  guest_name : string;
  guest_email : string;
  guest_phone : string;
  address : string;
  city : string;
  postal_code : string;
  country : string;
  accommodation_id : acc_id;
  check_in : string;
  check_out : string;
  total_price : float;
  payment_method : option string;
  guests : option Z;
  adults : option Z;
  children : option Z
}.
End BookingCreateRequest.

(** The pydantic model of the PUT body: every field optional. *)
Module BookingUpdateRequest.
Record t : Type := {
  guest_name : option string;
  guest_email : option string;
  guest_phone : option string;
  address : option string;
  city : option string;
  postal_code : option string;
  country : option string;
  accommodation_id : option acc_id;
  check_in : option string;
  check_out : option string;
  total_price : option float;
  payment_method : option string;
  guests : option Z;
  adults : option Z;
  children : option Z
}.
End BookingUpdateRequest.

(** [booking_dict]: the Python dict [create_booking] builds and hands to
    the driver.  [allow_extra_beds] and [extra_beds_qty] are read with
    [.get]; [_id] is set by the first [insert_one]. *)
Module Dict.
Record t : Type := {
  guest_name : string;
  guest_email : string;
  guest_phone : string;
  address : string;
  city : string;
  postal_code : string;
  country : string;
  accommodation_id : acc_id;
  check_in : string;
  check_out : string;
  total_price : float;
  payment_method : option string;
  guests : option Z;
  adults : option Z;
  children : option Z;
  created_at : Z;
  user_id : option string;
  allow_extra_beds : option bool;
  extra_beds_qty : option Z;
  _id : option ObjectId
}.

Definition set_id (d : t) (i : ObjectId) : t :=
  {| guest_name := guest_name d; guest_email := guest_email d;
     guest_phone := guest_phone d; address := address d; city := city d;
     postal_code := postal_code d; country := country d;
     accommodation_id := accommodation_id d;
     check_in := check_in d; check_out := check_out d;
     total_price := total_price d; payment_method := payment_method d;
     guests := guests d; adults := adults d; children := children d;
     created_at := created_at d; user_id := user_id d;
     allow_extra_beds := allow_extra_beds d;
     extra_beds_qty := extra_beds_qty d; _id := Some i |}.
End Dict.

(** A document of the [bookings] collection.  [create_booking] writes
    the fields of [booking_dict]; [status] is written by other parts of
    the system, and older writers may have stored other shapes. *)
Module Booking.
Record doc : Type := {
  _id : ObjectId;
  guest_name : string;
  guest_email : string;
  guest_phone : string;
  address : string;
  city : string;
  postal_code : string;
  country : string;
  accommodation_id : acc_id;
  check_in : value;
  check_out : value;
  total_price : float;
  payment_method : option string;
  guests : option Z;
  adults : option Z;
  children : option Z;
  created_at : Z;
  user_id : option string;
  status : option string
}.
End Booking.

(** A document of the [occupancies] collection: one night of a booking. *)
Module Occupancy.
Record doc : Type := {
  _id : ObjectId;
  accommodation_id : acc_id;
  date : Z;
  booking_id : ObjectId;
  created_at : Z
}.
End Occupancy.

(** Documents of the capacity collaborator's collections. *)
Module Room.
Record doc : Type := {
  capacity : option Z;
  sleeps : option Z;
  extra_beds : option Z;
  extra_bedding : option Z
}.
End Room.

Module Accommodation.
Record doc : Type := {
  capacity : option Z;
  sleeps : option Z
}.
End Accommodation.

(** ** The world a request runs in *)

(** The lock key
    [f"accom:{accommodation_id}:{start.isoformat()}:{end.isoformat()}"],
    kept as its three components (the rendering is injective: the two
    timestamps have a fixed width). *)
Record LockKey : Type := {
  key_accommodation_id : acc_id;
  key_start : Z;
  key_end : Z
}.

(** Calls made to the lock manager ([resort_backend.lib.locks]). *)
Inductive LockCall : Type :=
| AcquireLock (key : LockKey) (owner : string) (ttl_seconds : Z) (timeout : float)
| ReleaseLock (key : LockKey) (owner : string).

(** The payload handed to [publish_event]. *)
Record Event : Type := {
  event : string;
  event_booking_id : ObjectId;
  event_guest_email : string
}.

Record World : Type := {
  bookings : list Booking.doc;
  occupancies : list Occupancy.doc;
  next_oid : ObjectId;           (* the ObjectId generator of the driver *)
  lock_calls : list LockCall;    (* in call order *)
  published : list Event
}.

(** [request.app.state.db_client]. *)
Record Client : Type := {
  has_start_session : bool
}.

(** What the request's surroundings decide.  A fault [Some e] makes the
    call it is attached to raise [e]. *)
Record Env : Type := {
  db_client : option Client;
  current_user_id : option string;       (* get_current_user(request).get('id') *)
  utcnow : Z;                            (* created_at of the booking *)
  occ_utcnow : nat -> Z;                 (* created_at of the i-th occupancy document *)
  uuid4_hex : string;
  (* capacity collaborator *)
  rooms_find_one : acc_id -> pyexc + option Room.doc;
  accommodations_find_one_oid : ObjectId -> pyexc + option Accommodation.doc;
  accommodations_find_one : acc_id -> pyexc + option Accommodation.doc;
  rooms_find : Accommodation.doc -> pyexc + list Room.doc;
  (* transactional path *)
  txn_start_fault : option pyexc;
  txn_insert_one_fault : option pyexc;
  txn_insert_many_fault : option pyexc;
  txn_find_one_fault : option pyexc;
  txn_commit_fault : option pyexc;
  (* lock manager *)
  acquire_lock : LockKey -> string -> Z -> float -> pyexc + option string;
  release_lock_fault : option pyexc;
  (* lock-guarded path *)
  overlap_find_one_fault : option pyexc;
  insert_one_fault : option pyexc;
  insert_many_fault : option (nat * pyexc);   (* raise after this many documents went in *)
  delete_one_fault : option pyexc;
  find_one_fault : option pyexc;
  publish_fault : option pyexc
}.

(** ** The state and error monad of a request *)

(** While [create_booking] runs, [booking_dict] is a mutable local
    shared with the driver ([insert_one] adds the [_id] key to it). *)
Record Frame : Type := {
  world : World;
  booking_dict : Dict.t
}.

Definition M (A : Type) : Type := Frame -> (exn + A) * Frame.

Definition ret {A} (a : A) : M A := fun fr => (inr a, fr).

Definition raise {A} (e : exn) : M A := fun fr => (inl e, fr).

Definition bind {A B} (c : M A) (k : A -> M B) : M B :=
  fun fr =>
    match c fr with
    | (inr a, fr') => k a fr'
    | (inl e, fr') => (inl e, fr')
    end.

Notation "x <- c ;; k" := (bind c (fun x => k))
  (at level 61, c at next level, right associativity).
Notation "c ;;; k" := (bind c (fun _ => k))
  (at level 61, right associativity).

(** [try: body / except Exception as e: handler(e)]. *)
Definition try_except {A} (body : M A) (handler : exn -> M A) : M A :=
  fun fr =>
    match body fr with
    | (inl e, fr') => handler e fr'
    | r => r
    end.

(** [try: body / finally: fin]; an exception of [fin] replaces the
    outcome of [body]. *)
Definition try_finally {A} (body : M A) (fin : M unit) : M A :=
  fun fr =>
    match body fr with
    | (r, fr') =>
        match fin fr' with
        | (inl e, fr'') => (inl e, fr'')
        | (inr _, fr'') => (r, fr'')
        end
    end.

Definition get_dict : M Dict.t := fun fr => (inr (booking_dict fr), fr).

Definition get_world : M World := fun fr => (inr (world fr), fr).

Definition put_world (w : World) : M unit :=
  fun fr => (inr tt, {| world := w; booking_dict := booking_dict fr |}).

Definition put_dict (d : Dict.t) : M unit :=
  fun fr => (inr tt, {| world := world fr; booking_dict := d |}).

(** A call that the environment may make fail before it does anything. *)
Definition faulty (f : option pyexc) : M unit :=
  match f with
  | Some e => raise (Raised e)
  | None => ret tt
  end.

(** ** The collections *)

Module Store.

Definition set_bookings (w : World) (bs : list Booking.doc) : World :=
  {| bookings := bs; occupancies := occupancies w; next_oid := next_oid w;
     lock_calls := lock_calls w; published := published w |}.

Definition set_occupancies (w : World) (os : list Occupancy.doc) : World :=
  {| bookings := bookings w; occupancies := os; next_oid := next_oid w;
     lock_calls := lock_calls w; published := published w |}.

Definition set_next_oid (w : World) (n : ObjectId) : World :=
  {| bookings := bookings w; occupancies := occupancies w; next_oid := n;
     lock_calls := lock_calls w; published := published w |}.

Definition log_lock_call (w : World) (c : LockCall) : World :=
  {| bookings := bookings w; occupancies := occupancies w; next_oid := next_oid w;
     lock_calls := lock_calls w ++ [c]; published := published w |}.

Definition log_event (w : World) (e : Event) : World :=
  {| bookings := bookings w; occupancies := occupancies w; next_oid := next_oid w;
     lock_calls := lock_calls w; published := published w ++ [e] |}.

(** The document the driver sends for [booking_dict]: each [str] a BSON
    string, no [status] key. *)
Definition to_doc (d : Dict.t) (i : ObjectId) : Booking.doc :=
  {| Booking._id := i;
     Booking.guest_name := Dict.guest_name d;
     Booking.guest_email := Dict.guest_email d;
     Booking.guest_phone := Dict.guest_phone d;
     Booking.address := Dict.address d;
     Booking.city := Dict.city d;
     Booking.postal_code := Dict.postal_code d;
     Booking.country := Dict.country d;
     Booking.accommodation_id := Dict.accommodation_id d;
     Booking.check_in := VStr (Dict.check_in d);
     Booking.check_out := VStr (Dict.check_out d);
     Booking.total_price := Dict.total_price d;
     Booking.payment_method := Dict.payment_method d;
     Booking.guests := Dict.guests d;
     Booking.adults := Dict.adults d;
     Booking.children := Dict.children d;
     Booking.created_at := Dict.created_at d;
     Booking.user_id := Dict.user_id d;
     Booking.status := None |}.

Definition has_id (i : ObjectId) (b : Booking.doc) : bool := N.eqb (Booking._id b) i.

(** [db["bookings"].insert_one(booking_dict)]: the driver gives the dict
    an [_id] when it has none, then sends it; the collection refuses an
    [_id] it already holds.  Returns [result.inserted_id]. *)
Definition insert_one (fault : option pyexc) : M ObjectId :=
  d <- get_dict ;;
  w <- get_world ;;
  i <- match Dict._id d with
       | Some i => ret i
       | None =>
           put_world (set_next_oid w (N.succ (next_oid w))) ;;;
           put_dict (Dict.set_id d (next_oid w)) ;;;
           ret (next_oid w)
       end ;;
  faulty fault ;;;
  w <- get_world ;;
  if existsb (has_id i) (bookings w)
  then raise (Raised DuplicateKeyError)
  else put_world (set_bookings w (bookings w ++ [to_doc d i])) ;;; ret i.

(** [db["bookings"].find_one(filter)]. *)
Definition find_one (fault : option pyexc) (filter : Booking.doc -> bool)
  : M (option Booking.doc) :=
  faulty fault ;;;
  w <- get_world ;;
  ret (find filter (bookings w)).

Fixpoint remove_first {A} (p : A -> bool) (l : list A) : list A :=
  match l with
  | [] => []
  | x :: r => if p x then r else x :: remove_first p r
  end.

(** [db["bookings"].delete_one({"_id": i})]. *)
Definition delete_one (fault : option pyexc) (i : ObjectId) : M unit :=
  faulty fault ;;;
  w <- get_world ;;
  put_world (set_bookings w (remove_first (has_id i) (bookings w))).

(** An occupancy document before the driver gave it an [_id]. *)
Record occ_fields : Type := {
  occ_accommodation_id : acc_id;
  occ_date : Z;
  occ_booking_id : ObjectId;
  occ_created_at : Z
}.

(** The driver numbers the documents of one [insert_many] in order. *)
Fixpoint with_ids (i : ObjectId) (docs : list occ_fields) : list Occupancy.doc :=
  match docs with
  | [] => []
  | f :: r =>
      {| Occupancy._id := i;
         Occupancy.accommodation_id := occ_accommodation_id f;
         Occupancy.date := occ_date f;
         Occupancy.booking_id := occ_booking_id f;
         Occupancy.created_at := occ_created_at f |} :: with_ids (N.succ i) r
  end.

(** [db["occupancies"].insert_many(docs, ordered=True)]: the documents
    go in one after the other; when one fails the call raises, the ones
    before it stay and the ones after it are not tried. *)
Definition insert_many (fault : option (nat * pyexc)) (docs : list occ_fields) : M unit :=
  w <- get_world ;;
  let stored := with_ids (next_oid w) docs in
  let w1 := set_next_oid w (next_oid w + N.of_nat (List.length docs))%N in
  match fault with
  | Some (k, e) =>
      put_world (set_occupancies w1 (occupancies w ++ firstn k stored)) ;;;
      raise (Raised e)
  | None =>
      put_world (set_occupancies w1 (occupancies w ++ stored))
  end.

Definition owned_by (i : ObjectId) (o : Occupancy.doc) : bool :=
  N.eqb (Occupancy.booking_id o) i.

(** [db["occupancies"].delete_many({"booking_id": i})]; returns
    [deleted_count]. *)
Definition delete_many (i : ObjectId) (w : World) : Z * World :=
  (Z.of_nat (List.length (filter (owned_by i) (occupancies w))),
   set_occupancies w (filter (fun o => negb (owned_by i o)) (occupancies w))).

(** [async with session.start_transaction(): body]: the writes of
    [body] reach the collections only when the block and the commit
    both succeed.  Identifiers the driver generated stay generated. *)
Definition abort (before after : World) : World :=
  {| bookings := bookings before; occupancies := occupancies before;
     next_oid := next_oid after; lock_calls := lock_calls after;
     published := published after |}.

Definition transaction {A} (start_fault commit_fault : option pyexc) (body : M A) : M A :=
  faulty start_fault ;;;
  w0 <- get_world ;;
  try_except
    (a <- body ;; faulty commit_fault ;;; ret a)
    (fun e => w1 <- get_world ;; put_world (abort w0 w1) ;;; raise e).

End Store.

(** ** [create_booking] *)

Module Import Coordinator.

Import Dict.

(** Lines 107-111: [accommodation_id] is made a list. *)
Definition normalize_accommodation_id (acc_ids : acc_id) : acc_id :=
  match acc_ids with
  | AccStr s => AccList [s]
  | AccList l => AccList l
  end.

(** Lines 105-125: [booking.dict()], [created_at], the normalized
    [accommodation_id], and [user_id] when the request carries a token
    of a user with an id. *)
Definition initial_dict (env : Env) (booking : BookingCreateRequest.t) : Dict.t :=
  {| guest_name := BookingCreateRequest.guest_name booking;
     guest_email := BookingCreateRequest.guest_email booking;
     guest_phone := BookingCreateRequest.guest_phone booking;
     address := BookingCreateRequest.address booking;
     city := BookingCreateRequest.city booking;
     postal_code := BookingCreateRequest.postal_code booking;
     country := BookingCreateRequest.country booking;
     accommodation_id :=
       normalize_accommodation_id (BookingCreateRequest.accommodation_id booking);
     check_in := BookingCreateRequest.check_in booking;
     check_out := BookingCreateRequest.check_out booking;
     total_price := BookingCreateRequest.total_price booking;
     payment_method := BookingCreateRequest.payment_method booking;
     guests := BookingCreateRequest.guests booking;
     adults := BookingCreateRequest.adults booking;
     children := BookingCreateRequest.children booking;
     created_at := utcnow env;
     user_id := current_user_id env;
     allow_extra_beds := None;
     extra_beds_qty := None;
     _id := None |}.

(** Lines 131-139: the guest count, from [guests] or from
    [adults + children]. *)
Definition guests_req (d : Dict.t) : option Z :=
  match guests d with
  | Some g => Some g
  | None =>
      let a := int_or_0 (adults d) in
      let c := int_or_0 (children d) in
      if 0 <? a + c then Some (a + c) else None
  end.

(** [int(r.get("capacity") or r.get("sleeps") or 0)]. *)
Definition capacity_of (capacity sleeps : option Z) : Z :=
  int_or_0 (or_int capacity sleeps).

(** Lines 157-158, for a room found directly. *)
Definition room_extra (r : Room.doc) : Z :=
  match Room.extra_beds r with
  | Some e => e
  | None =>
      match Room.extra_bedding r with
      | Some e => e
      | None => 0
      end
  end.

Definition sum_Z (l : list Z) : Z := fold_left Z.add l 0.

(** Lines 147-151: the accommodation, by [ObjectId] first and by the
    raw value when that raises. *)
Definition lookup_accommodation (env : Env) (a : acc_id)
  : pyexc + option Accommodation.doc :=
  match ObjectId_of_acc_id a with
  | Some oid =>
      match accommodations_find_one_oid env oid with
      | inr r => inr r
      | inl _ => accommodations_find_one env a
      end
  | None => accommodations_find_one env a
  end.

(** Lines 142-174: [total_cap], or the exception that leaves the [try]
    block.  [extra_available] stays unbound ([None]) when the
    accommodation has no rooms. *)
Definition resolve_capacity (env : Env) (d : Dict.t) : pyexc + Z :=
  match rooms_find_one env (accommodation_id d) with
  | inl e => inl e
  | inr room =>
      match (match room with
             | Some _ => inr None
             | None => lookup_accommodation env (accommodation_id d)
             end) with
      | inl e => inl e
      | inr acc =>
          let '(total_cap, extra_available) :=
            match room with
            | Some r =>
                (capacity_of (Room.capacity r) (Room.sleeps r), Some (room_extra r))
            | None =>
                match acc with
                | Some a =>
                    let own := capacity_of (Accommodation.capacity a) (Accommodation.sleeps a) in
                    match rooms_find env a with
                    | inr [] => (own, None)
                    | inr rooms =>
                        (sum_Z (map (fun r => capacity_of (Room.capacity r) (Room.sleeps r)) rooms),
                         Some (sum_Z (map (fun r => int_or_0 (or_int (Room.extra_beds r)
                                                                     (Room.extra_bedding r))) rooms)))
                    | inl _ => (own, Some 0)
                    end
                | None => (0, Some 0)
                end
            end in
          match allow_extra_beds d with
          | Some true =>
              match extra_available with
              | Some ea => inr (total_cap + Z.min ea (int_or_0 (extra_beds_qty d)))
              | None => inl OtherException
              end
          | _ => inr total_cap
          end
      end
  end.

Definition capacity_detail (guests_req total_cap : Z) : string :=
  "Selected accommodation does not accommodate " ++ str_of_int guests_req
  ++ " guests; capacity is " ++ str_of_int total_cap.

(** Lines 140-182: the capacity validation. *)
Definition capacity_validation (env : Env) (d : Dict.t) : exn + unit :=
  match guests_req d with
  | Some g =>
      match resolve_capacity env d with
      | inr total_cap =>
          if total_cap <? g
          then inl (HTTPException 400 (capacity_detail g total_cap))
          else inr tt
      | inl _ => inr tt
      end
  | None => inr tt
  end.

(** Lines 184-192. *)
Definition parse_dates (d : Dict.t) : exn + Z * Z :=
  match Datetime.strptime (check_in d), Datetime.strptime (check_out d) with
  | Some check_in_dt, Some check_out_dt =>
      if check_out_dt <=? check_in_dt
      then inl (HTTPException 400 "check_in must be before check_out")
      else inr (check_in_dt, check_out_dt)
  | _, _ => inl (HTTPException 400 "check_in and check_out must be in YYYY-MM-DD format")
  end.

(** Lines 126-192: everything [create_booking] checks before it touches
    the [bookings] and [occupancies] collections or the lock manager. *)
Definition pre_write_checks (env : Env) (d : Dict.t) : exn + Z * Z :=
  if str_ge (check_in d) (check_out d)
  then inl (HTTPException 400 "check_in must be before check_out")
  else
    match capacity_validation env d with
    | inl e => inl e
    | inr _ => parse_dates d
    end.

(** Lines 197-201: [while d < end_date: nights.append(d); d += 1 day]. *)
Fixpoint nights_loop (fuel : nat) (d end_date : Z) : list Z :=
  match fuel with
  | O => []
  | S fuel' =>
      if d <? end_date then d :: nights_loop fuel' (d + 1) end_date else []
  end.

Definition build_nights (start_date end_date : Z) : list Z :=
  nights_loop (Z.to_nat (end_date - start_date)) start_date end_date.

(** Lines 216-223 and 263-270: one document per night. *)
Fixpoint occ_docs_from (i : nat) (acc : acc_id) (booking_id : ObjectId)
         (stamp : nat -> Z) (nights : list Z) : list Store.occ_fields :=
  match nights with
  | [] => []
  | nd :: r =>
      {| Store.occ_accommodation_id := acc;
         Store.occ_date := nd;
         Store.occ_booking_id := booking_id;
         Store.occ_created_at := stamp i |}
      :: occ_docs_from (S i) acc booking_id stamp r
  end.

Definition occ_docs_of (env : Env) (d : Dict.t) (booking_id : ObjectId) (nights : list Z)
  : list Store.occ_fields :=
  occ_docs_from 0 (accommodation_id d) booking_id (occ_utcnow env) nights.

Definition already_booked : exn :=
  HTTPException 409 "Accommodation already booked for the selected dates".

Definition busy : exn :=
  HTTPException 409 "Accommodation is busy; try again".

(** Lines 211-226: the session and transaction blocks, before the
    handlers. *)
Definition transaction_block (env : Env) (nights : list Z) : M (option Booking.doc) :=
  Store.transaction (txn_start_fault env) (txn_commit_fault env)
    (booking_id <- Store.insert_one (txn_insert_one_fault env) ;;
     d <- get_dict ;;
     match occ_docs_of env d booking_id nights with
     | [] => ret tt
     | occ_docs =>
         Store.insert_many
           (option_map (fun e => (O, e)) (txn_insert_many_fault env)) occ_docs
     end ;;;
     Store.find_one (txn_find_one_fault env) (Store.has_id booking_id)).

(** Lines 210-234: the transactional path; [None] asks for the
    fallback. *)
Definition transactional_path (env : Env) (nights : list Z) : M (option Booking.doc) :=
  try_except
    (transaction_block env nights)
    (fun e =>
       match e with
       | Raised DuplicateKeyError => raise already_booked
       | _ => ret None
       end).

(** Lines 252-257: the filter of the overlap query. *)
Definition overlap_filter (acc : acc_id) (check_in_dt check_out_dt : Z)
           (b : Booking.doc) : bool :=
  acc_id_eqb (Booking.accommodation_id b) acc
  && ne_str (Booking.status b) "cancelled"
  && lt_date (Booking.check_in b) check_out_dt
  && gt_date (Booking.check_out b) check_in_dt.

(** Lines 206, 242-248: the lock manager is called with this key. *)
Definition lock_key_of (d : Dict.t) (start_date end_date : Z) : LockKey :=
  {| key_accommodation_id := accommodation_id d;
     key_start := start_date;
     key_end := end_date |}.

Definition ttl_seconds : Z := 30.
Definition timeout : float := 5%float.

Definition call_acquire_lock (env : Env) (key : LockKey) (owner : string)
  : M (option string) :=
  w <- get_world ;;
  put_world (Store.log_lock_call w (AcquireLock key owner ttl_seconds timeout)) ;;;
  match acquire_lock env key owner ttl_seconds timeout with
  | inr r => ret r
  | inl e => raise (Raised e)
  end.

Definition call_release_lock (env : Env) (key : LockKey) (owner : string) : M unit :=
  w <- get_world ;;
  put_world (Store.log_lock_call w (ReleaseLock key owner)) ;;;
  faulty (release_lock_fault env).

(** Lines 252-277: the body of the [try] that holds the lock. *)
Definition critical_section (env : Env) (check_in_dt check_out_dt : Z)
           (nights : list Z) : M (option Booking.doc) :=
  d <- get_dict ;;
  overlap <- Store.find_one (overlap_find_one_fault env)
               (overlap_filter (accommodation_id d) check_in_dt check_out_dt) ;;
  match overlap with
  | Some _ => raise already_booked
  | None =>
      booking_id <- Store.insert_one (insert_one_fault env) ;;
      d <- get_dict ;;
      match occ_docs_of env d booking_id nights with
      | [] => ret tt
      | occ_docs =>
          try_except
            (Store.insert_many (insert_many_fault env) occ_docs)
            (fun _ =>
               Store.delete_one (delete_one_fault env) booking_id ;;;
               raise already_booked)
      end ;;;
      Store.find_one (find_one_fault env) (Store.has_id booking_id)
  end.

(** [not lock_owner]. *)
Definition falsy_owner (lock_owner : option string) : bool :=
  match lock_owner with
  | Some s => String.eqb s ""
  | None => true
  end.

Definition owner_token (lock_owner : option string) : string :=
  match lock_owner with
  | Some s => s
  | None => ""
  end.

(** Lines 280-282: the [finally] block. *)
Definition release_quietly (env : Env) (key : LockKey) (owner : string) : M unit :=
  try_except (call_release_lock env key owner) (fun _ => ret tt).

(** Lines 240-282: the lock-guarded path. *)
Definition lock_guarded_path (env : Env) (check_in_dt check_out_dt : Z)
           (nights : list Z) : M (option Booking.doc) :=
  d <- get_dict ;;
  let lock_key := lock_key_of d check_in_dt check_out_dt in
  lock_owner <- call_acquire_lock env lock_key (uuid4_hex env) ;;
  if falsy_owner lock_owner then raise busy
  else
    try_finally
      (critical_section env check_in_dt check_out_dt nights)
      (release_quietly env lock_key (owner_token lock_owner)).

(** Lines 283-288: the event; whatever goes wrong is swallowed.  An
    [out] of [None] has no [.get]. *)
Definition notify (env : Env) (out : option Booking.doc) : M unit :=
  try_except
    (match out with
     | Some o =>
         faulty (publish_fault env) ;;;
         w <- get_world ;;
         put_world (Store.log_event w
                      {| event := "bookings.created";
                         event_booking_id := Booking._id o;
                         event_guest_email := Booking.guest_email o |})
     | None => raise (Raised OtherException)
     end)
    (fun _ => ret tt).

(** Lines 209-237: the transactional attempt when the client has
    sessions; [None] when nothing was created. *)
Definition select_path (env : Env) (nights : list Z) : M (option Booking.doc) :=
  match db_client env with
  | Some client =>
      if has_start_session client
      then transactional_path env nights
      else ret None
  | None => ret None
  end.

(** Lines 203-289: path selection, fallback and response.  The response
    is the document [serialize_doc] renders. *)
Definition reserve (env : Env) (check_in_dt check_out_dt : Z) (nights : list Z)
  : M (option Booking.doc) :=
  created <- select_path env nights ;;
  created <- match created with
             | Some _ => ret created
             | None => lock_guarded_path env check_in_dt check_out_dt nights
             end ;;
  notify env created ;;;
  ret created.

Definition create_booking (env : Env) (booking : BookingCreateRequest.t) (w : World)
  : (exn + option Booking.doc) * World :=
  let d := initial_dict env booking in
  match pre_write_checks env d with
  | inl e => (inl e, w)
  | inr (check_in_dt, check_out_dt) =>
      let '(r, fr) :=
        reserve env check_in_dt check_out_dt (build_nights check_in_dt check_out_dt)
                {| world := w; booking_dict := d |} in
      (r, world fr)
  end.

End Coordinator.

(** ** [update_booking] and [release_occupancies_endpoint] *)

Module Import Endpoints.

Definition or_keep {A} (new : option A) (old : A) : A :=
  match new with
  | Some v => v
  | None => old
  end.

Definition or_keep_opt {A} (new : option A) (old : option A) : option A :=
  match new with
  | Some v => Some v
  | None => old
  end.

(** Lines 296-302: [update_data], the fields of the request that are
    not [None], with [accommodation_id] made a list when present. *)
Definition update_data (booking : BookingUpdateRequest.t) : BookingUpdateRequest.t :=
  {| BookingUpdateRequest.guest_name := BookingUpdateRequest.guest_name booking;
     BookingUpdateRequest.guest_email := BookingUpdateRequest.guest_email booking;
     BookingUpdateRequest.guest_phone := BookingUpdateRequest.guest_phone booking;
     BookingUpdateRequest.address := BookingUpdateRequest.address booking;
     BookingUpdateRequest.city := BookingUpdateRequest.city booking;
     BookingUpdateRequest.postal_code := BookingUpdateRequest.postal_code booking;
     BookingUpdateRequest.country := BookingUpdateRequest.country booking;
     BookingUpdateRequest.accommodation_id :=
       option_map normalize_accommodation_id
                  (BookingUpdateRequest.accommodation_id booking);
     BookingUpdateRequest.check_in := BookingUpdateRequest.check_in booking;
     BookingUpdateRequest.check_out := BookingUpdateRequest.check_out booking;
     BookingUpdateRequest.total_price := BookingUpdateRequest.total_price booking;
     BookingUpdateRequest.payment_method := BookingUpdateRequest.payment_method booking;
     BookingUpdateRequest.guests := BookingUpdateRequest.guests booking;
     BookingUpdateRequest.adults := BookingUpdateRequest.adults booking;
     BookingUpdateRequest.children := BookingUpdateRequest.children booking |}.

(** [{"$set": update_data}] on one document. *)
Definition apply_set (u : BookingUpdateRequest.t) (b : Booking.doc) : Booking.doc :=
  {| Booking._id := Booking._id b;
     Booking.guest_name := or_keep (BookingUpdateRequest.guest_name u) (Booking.guest_name b);
     Booking.guest_email := or_keep (BookingUpdateRequest.guest_email u) (Booking.guest_email b);
     Booking.guest_phone := or_keep (BookingUpdateRequest.guest_phone u) (Booking.guest_phone b);
     Booking.address := or_keep (BookingUpdateRequest.address u) (Booking.address b);
     Booking.city := or_keep (BookingUpdateRequest.city u) (Booking.city b);
     Booking.postal_code := or_keep (BookingUpdateRequest.postal_code u) (Booking.postal_code b);
     Booking.country := or_keep (BookingUpdateRequest.country u) (Booking.country b);
     Booking.accommodation_id :=
       or_keep (BookingUpdateRequest.accommodation_id u) (Booking.accommodation_id b);
     Booking.check_in :=
       or_keep (option_map VStr (BookingUpdateRequest.check_in u)) (Booking.check_in b);
     Booking.check_out :=
       or_keep (option_map VStr (BookingUpdateRequest.check_out u)) (Booking.check_out b);
     Booking.total_price := or_keep (BookingUpdateRequest.total_price u) (Booking.total_price b);
     Booking.payment_method :=
       or_keep_opt (BookingUpdateRequest.payment_method u) (Booking.payment_method b);
     Booking.guests := or_keep_opt (BookingUpdateRequest.guests u) (Booking.guests b);
     Booking.adults := or_keep_opt (BookingUpdateRequest.adults u) (Booking.adults b);
     Booking.children := or_keep_opt (BookingUpdateRequest.children u) (Booking.children b);
     Booking.created_at := Booking.created_at b;
     Booking.user_id := Booking.user_id b;
     Booking.status := Booking.status b |}.

(** [update_one({"_id": i}, {"$set": u})]: the first document with that
    [_id] is rewritten. *)
Fixpoint update_first (i : ObjectId) (u : BookingUpdateRequest.t)
         (l : list Booking.doc) : list Booking.doc :=
  match l with
  | [] => []
  | b :: r =>
      if Store.has_id i b then apply_set u b :: r
      else b :: update_first i u r
  end.

(** Lines 292-313.  [update_fault] is a failure of [update_one], which
    the handler reports like an identifier that does not parse. *)
Definition update_booking (update_fault : option pyexc) (booking_id : string)
           (booking : BookingUpdateRequest.t) (w : World)
  : (exn + option Booking.doc) * World :=
  let u := update_data booking in
  match ObjectId_of_str booking_id, update_fault with
  | Some i, None =>
      if existsb (Store.has_id i) (bookings w) then
        let w' := Store.set_bookings w (update_first i u (bookings w)) in
        (inr (find (Store.has_id i) (bookings w')), w')
      else (inl (HTTPException 404 "Booking not found"), w)
  | _, _ => (inl (HTTPException 400 "Invalid booking id"), w)
  end.

(** Lines 360-369, for a caller that [admin_key_dep] let through. *)
Definition release_occupancies_endpoint (booking_id : string) (w : World)
  : (exn + Z) * World :=
  match ObjectId_of_str booking_id with
  | Some b_id =>
      let '(deleted_count, w') := Store.delete_many b_id w in
      (inr deleted_count, w')
  | None => (inl (HTTPException 400 "Invalid booking id"), w)
  end.

End Endpoints.

(** ** The error taxonomy of the specification *)

(** [ValidationError] is the response of status 400, [ConflictError]
    the response of status 409. *)
Definition ValidationError (e : exn) : Prop := status_of e = Some 400.
Definition ConflictError (e : exn) : Prop := status_of e = Some 409.

(** Check-in and check-out both parse and check-in is strictly before
    check-out. *)
Definition dates_parse_in_order (check_in check_out : string) : bool :=
  match Datetime.strptime check_in, Datetime.strptime check_out with
  | Some a, Some b => a <? b
  | _, _ => false
  end.

(** The nights a document of [occupancies] covers for resource [r]. *)
Definition lists_resource (r : string) (a : acc_id) : bool :=
  match a with
  | AccList l => existsb (String.eqb r) l
  | AccStr s => String.eqb r s
  end.

Definition occupies (r : string) (night : Z) (o : Occupancy.doc) : bool :=
  (Occupancy.date o =? night) && lists_resource r (Occupancy.accommodation_id o).

(** Every stored booking has a list for [accommodation_id]. *)
Definition stores_lists (w : World) : Prop :=
  Forall (fun b => is_list (Booking.accommodation_id b) = true) (bookings w).

(** What [reserve] does once the lock-guarded path is chosen. *)
Definition fallback (env : Env) (check_in_dt check_out_dt : Z) (nights : list Z)
  : M (option Booking.doc) :=
  created <- lock_guarded_path env check_in_dt check_out_dt nights ;;
  notify env created ;;;
  ret created.

Definition run_request {A} (c : M A) (d : Dict.t) (w : World) : (exn + A) * World :=
  let '(r, fr) := c {| world := w; booking_dict := d |} in (r, world fr).

Definition with_release_lock_fault (env : Env) (f : option pyexc) : Env :=
  {| db_client := db_client env; current_user_id := current_user_id env;
     utcnow := utcnow env; occ_utcnow := occ_utcnow env; uuid4_hex := uuid4_hex env;
     rooms_find_one := rooms_find_one env;
     accommodations_find_one_oid := accommodations_find_one_oid env;
     accommodations_find_one := accommodations_find_one env;
     rooms_find := rooms_find env;
     txn_start_fault := txn_start_fault env;
     txn_insert_one_fault := txn_insert_one_fault env;
     txn_insert_many_fault := txn_insert_many_fault env;
     txn_find_one_fault := txn_find_one_fault env;
     txn_commit_fault := txn_commit_fault env;
     acquire_lock := acquire_lock env;
     release_lock_fault := f;
     overlap_find_one_fault := overlap_find_one_fault env;
     insert_one_fault := insert_one_fault env;
     insert_many_fault := insert_many_fault env;
     delete_one_fault := delete_one_fault env;
     find_one_fault := find_one_fault env;
     publish_fault := publish_fault env |}.

(** ** Summaries of what a step did to the world *)

(** No call to the lock manager and no event. *)
Definition quiet (w w' : World) : Prop :=
  lock_calls w' = lock_calls w /\ published w' = published w.

(** Neither collection changed. *)
Definition wrote_nothing (w w' : World) : Prop :=
  bookings w' = bookings w /\ occupancies w' = occupancies w.

(** Two states of [booking_dict] that differ at most in [_id]. *)
Definition same_fields (d d' : Dict.t) : Prop :=
  forall i, Store.to_doc d' i = Store.to_doc d i.

(** The booking [i] of [d] and its occupancy documents were appended. *)
Definition wrote_reservation (env : Env) (nights : list Z) (d : Dict.t)
           (w w' : World) (i : ObjectId) : Prop :=
  bookings w' = (bookings w ++ [Store.to_doc d i])%list
  /\ exists n, occupancies w'
               = (occupancies w ++ Store.with_ids n (occ_docs_of env d i nights))%list.

(** ** Tactics for running the monad *)

Ltac msimpl H :=
  cbv beta iota zeta delta
    [reserve select_path transactional_path transaction_block
     lock_guarded_path critical_section notify release_quietly
     call_release_lock call_acquire_lock Store.transaction Store.insert_one
     Store.insert_many Store.find_one Store.delete_one try_except
     try_finally bind ret raise faulty get_dict get_world put_world
     put_dict] in H;
  cbn [fst snd world booking_dict] in H.

Ltac mstep H :=
  match type of H with
  | context [match ?x with _ => _ end] =>
      lazymatch x with
      | context [match _ with _ => _ end] => fail
      | _ => let E := fresh "E" in destruct x eqn:E
      end
  end; msimpl H.

Ltac mrun H := msimpl H; repeat (mstep H); try discriminate H.

Ltac mcore H :=
  cbv beta iota zeta delta
    [try_except try_finally bind ret raise faulty get_dict get_world put_world
     put_dict] in H;
  cbn [fst snd world booking_dict] in H.

Ltac wsimpl :=
  cbn [world booking_dict bookings occupancies lock_calls published next_oid
       Store.set_bookings Store.set_occupancies Store.set_next_oid
       Store.log_lock_call Store.log_event Store.abort
       Dict.accommodation_id Dict.set_id Dict._id] in *.

(** ** Histories of writes *)

(** A write to [bookings] through one of the two endpoints. *)
Inductive write_request : Type :=
| Create (env : Env) (booking : BookingCreateRequest.t)
| Update (update_fault : option pyexc) (booking_id : string)
         (booking : BookingUpdateRequest.t).

Definition apply_write (w : World) (q : write_request) : World :=
  match q with
  | Create env booking => snd (create_booking env booking w)
  | Update fault booking_id booking => snd (update_booking fault booking_id booking w)
  end.

Definition run_writes (w : World) (qs : list write_request) : World :=
  fold_left apply_write qs w.

(** ** Sample requests and environments *)

Module Sample.

Definition request (acc : acc_id) (check_in check_out : string) (guests : option Z)
  : BookingCreateRequest.t :=
  {| BookingCreateRequest.guest_name := "Asha";
     BookingCreateRequest.guest_email := "asha@example.org";
     BookingCreateRequest.guest_phone := "555-0100";
     BookingCreateRequest.address := "1 Hill Road";
     BookingCreateRequest.city := "Pune";
     BookingCreateRequest.postal_code := "411001";
     BookingCreateRequest.country := "IN";
     BookingCreateRequest.accommodation_id := acc;
     BookingCreateRequest.check_in := check_in;
     BookingCreateRequest.check_out := check_out;
     BookingCreateRequest.total_price := 100%float;
     BookingCreateRequest.payment_method := None;
     BookingCreateRequest.guests := guests;
     BookingCreateRequest.adults := None;
     BookingCreateRequest.children := None |}.

(** A free lock and no failure other than the ones given: [room] is
    what the capacity collaborator answers, [txn_insert_many] and
    [insert_many_at] the failures of the two occupancy inserts. *)
Definition env (client : option Client) (room : pyexc + option Room.doc)
           (txn_insert_many : option pyexc)
           (insert_many_at : option (nat * pyexc)) : Env :=
  {| db_client := client;
     current_user_id := None;
     utcnow := 1700000000;
     occ_utcnow := fun _ => 1700000000;
     uuid4_hex := "0f8fad5bd9cb469fa16570867728950e";
     rooms_find_one := fun _ => room;
     accommodations_find_one_oid := fun _ => inr None;
     accommodations_find_one := fun _ => inr None;
     rooms_find := fun _ => inr [];
     txn_start_fault := None;
     txn_insert_one_fault := None;
     txn_insert_many_fault := txn_insert_many;
     txn_find_one_fault := None;
     txn_commit_fault := None;
     acquire_lock := fun _ owner _ _ => inr (Some owner);
     release_lock_fault := None;
     overlap_find_one_fault := None;
     insert_one_fault := None;
     insert_many_fault := insert_many_at;
     delete_one_fault := None;
     find_one_fault := None;
     publish_fault := None |}.

Definition lock_env : Env := env None (inr None) None None.

Definition txn_env (fault : option pyexc) : Env :=
  env (Some {| has_start_session := true |}) (inr None) fault None.

(** The lock is held by someone else for the whole acquisition window. *)
Definition busy_env : Env :=
  {| db_client := None; current_user_id := None;
     utcnow := 1700000000; occ_utcnow := fun _ => 1700000000;
     uuid4_hex := "0f8fad5bd9cb469fa16570867728950e";
     rooms_find_one := fun _ => inr None;
     accommodations_find_one_oid := fun _ => inr None;
     accommodations_find_one := fun _ => inr None;
     rooms_find := fun _ => inr [];
     txn_start_fault := None; txn_insert_one_fault := None;
     txn_insert_many_fault := None; txn_find_one_fault := None;
     txn_commit_fault := None;
     acquire_lock := fun _ _ _ _ => inr None;
     release_lock_fault := None;
     overlap_find_one_fault := None; insert_one_fault := None;
     insert_many_fault := None; delete_one_fault := None;
     find_one_fault := None; publish_fault := None |}.

Definition room_of_4 : Room.doc :=
  {| Room.capacity := Some 4; Room.sleeps := None;
     Room.extra_beds := None; Room.extra_bedding := None |}.

Definition empty_world : World :=
  {| bookings := []; occupancies := []; next_oid := 1%N;
     lock_calls := []; published := [] |}.

(** A first booking of resource R for the nights of 1 and 2 March 2024,
    and the world after [create_booking] made it. *)
Definition first_request : BookingCreateRequest.t :=
  request (AccStr "R") "2024-03-01" "2024-03-03" None.

Definition first_doc : Booking.doc :=
  Store.to_doc (initial_dict lock_env first_request) 1%N.

Definition world_after_first : World :=
  snd (create_booking lock_env first_request empty_world).

(** A second request for R, for the nights of 2 and 3 March 2024. *)
Definition second_request : BookingCreateRequest.t :=
  request (AccStr "R") "2024-03-02" "2024-03-04" None.

(** A request for R, for the nights of 29 February and 1 March 2024. *)
Definition earlier_request : BookingCreateRequest.t :=
  request (AccStr "R") "2024-02-29" "2024-03-02" None.

(** The second occupancy document of an [insert_many] is refused. *)
Definition second_night_taken_env : Env :=
  env None (inr None) None (Some (1%nat, PyMongoError)).

(** A client with sessions; both occupancy inserts are refused at their
    first document, the way [insert_many] reports it (BulkWriteError). *)
Definition bulk_write_error_env : Env :=
  env (Some {| has_start_session := true |}) (inr None)
      (Some PyMongoError) (Some (0%nat, PyMongoError)).

End Sample.

(** * The rest of the code *)

(** ** The other endpoints of [routes/bookings.py] *)

Module Import Lookups.

(** Lines 53-58.  [serialize_doc] renders; the documents are what is
    returned. *)
Definition get_all_bookings (w : World) : list Booking.doc := bookings w.

(** The first lookup of lines 67-71 and 88-94: by [ObjectId], [None]
    when the identifier is not one or the query raises. *)
Definition find_by_object_id (find_fault : option pyexc) (booking_id : string)
           (w : World) : option Booking.doc :=
  match ObjectId_of_str booking_id, find_fault with
  | Some obj_id, None => find (Store.has_id obj_id) (bookings w)
  | _, _ => None
  end.

(** Lines 61-79.  [by_id_field] answers [find_one({"id": booking_id})]:
    no document that [create_booking] writes has an [id] key, so what
    this query finds is a document of an older writer, and the answer is
    the environment's. *)
Definition get_booking (find_fault : option pyexc)
           (by_id_field : string -> pyexc + option Booking.doc)
           (booking_id : string) (w : World) : exn + Booking.doc :=
  match find_by_object_id find_fault booking_id w with
  | Some booking => inr booking
  | None =>
      match by_id_field booking_id with
      | inr (Some booking) => inr booking
      | inr None => inl (HTTPException 404 "Booking not found")
      | inl _ => inl (HTTPException 400 "Invalid booking id")
      end
  end.

(** Lines 82-99. *)
Definition get_booking_by_query (find_fault : option pyexc)
           (by_id_field : string -> pyexc + option Booking.doc)
           (booking_id : string) (w : World) : exn + Booking.doc :=
  if String.eqb booking_id "" then inl (HTTPException 404 "Booking not found")
  else
    match find_by_object_id find_fault booking_id w with
    | Some booking => inr booking
    | None =>
        match by_id_field booking_id with
        | inr (Some booking) => inr booking
        | inr None => inl (HTTPException 404 "Booking not found")
        | inl e => inl (Raised e)
        end
    end.

(** Lines 339-344. *)
Definition get_guest_bookings (guest_email : string) (w : World) : list Booking.doc :=
  filter (fun b => String.eqb (Booking.guest_email b) guest_email) (bookings w).

(** Removes the first [k] elements that satisfy [p]. *)
Fixpoint remove_first_n {A} (p : A -> bool) (k : nat) (l : list A) : list A :=
  match k, l with
  | O, _ => l
  | _, [] => []
  | S k', x :: r => if p x then remove_first_n p k' r else x :: remove_first_n p k r
  end.

(** Lines 327-332: [delete_many] on the occupancies of the booking,
    whose failure is swallowed; a failing call may have removed some of
    them (the first [k]) before it raised. *)
Definition cleanup_occupancies (cleanup_fault : option (nat * pyexc)) (b_id : ObjectId)
           (w : World) : World :=
  match cleanup_fault with
  | Some (k, _) =>
      Store.set_occupancies w (remove_first_n (Store.owned_by b_id) k (occupancies w))
  | None => snd (Store.delete_many b_id w)
  end.

Definition deleted_message : string := "Booking deleted successfully".

(** Lines 316-336. *)
Definition delete_booking (find_fault : option pyexc)
           (cleanup_fault : option (nat * pyexc)) (delete_fault : option pyexc)
           (booking_id : string) (w : World) : (exn + string) * World :=
  match ObjectId_of_str booking_id with
  | None => (inl (HTTPException 400 "Invalid booking id"), w)
  | Some b_id =>
      match find_fault with
      | Some e => (inl (Raised e), w)
      | None =>
          match find (Store.has_id b_id) (bookings w) with
          | None => (inl (HTTPException 404 "Booking not found"), w)
          | Some _ =>
              let w1 := cleanup_occupancies cleanup_fault b_id w in
              match delete_fault with
              | Some e => (inl (Raised e), w1)
              | None =>
                  if existsb (Store.has_id b_id) (bookings w1)
                  then (inr deleted_message,
                        Store.set_bookings w1
                          (Store.remove_first (Store.has_id b_id) (bookings w1)))
                  else (inl (HTTPException 404 "Booking not found"), w1)
              end
          end
      end
  end.

End Lookups.

(** ** The routes of the bookings router *)

Module Router.

Inductive method : Type := GET | POST | PUT | DELETE.

(** A piece of a route path: a literal, or a path parameter, which
    matches one non-empty piece without a slash. *)
Inductive piece : Type :=
| Lit (s : string)
| Param.

Inductive handler : Type :=
| Get_all_bookings
| Get_booking
| Get_booking_by_query
| Create_booking
| Update_booking
| Delete_booking
| Get_guest_bookings
| My_bookings
| Release_occupancies_endpoint.

(** The decorators of [routes/bookings.py], in the order of the file:
    the order in which the framework tries them. *)
Definition routes : list (method * list piece * handler) :=
  [ (GET, [], Get_all_bookings);
    (GET, [Param], Get_booking);
    (GET, [Lit "by-id"], Get_booking_by_query);
    (POST, [], Create_booking);
    (PUT, [Param], Update_booking);
    (DELETE, [Param], Delete_booking);
    (GET, [Lit "guest"; Param], Get_guest_bookings);
    (GET, [Lit "me"], My_bookings);
    (POST, [Param; Lit "release"], Release_occupancies_endpoint) ].

Definition method_eqb (a b : method) : bool :=
  match a, b with
  | GET, GET | POST, POST | PUT, PUT | DELETE, DELETE => true
  | _, _ => false
  end.

Definition piece_matches (p : piece) (s : string) : bool :=
  match p with
  | Lit l => String.eqb l s
  | Param => negb (String.eqb s "")
  end.

(** A request path under the router's prefix, cut at its slashes. *)
Fixpoint path_matches (ps : list piece) (path : list string) : bool :=
  match ps, path with
  | [], [] => true
  | p :: ps', s :: path' => piece_matches p s && path_matches ps' path'
  | _, _ => false
  end.

Inductive outcome : Type :=
| Handled (h : handler)
| MethodNotAllowed
| NotFound.

(** The first route whose path and method both match handles the
    request; a path that only matches routes of other methods is
    answered 405, a path that matches none 404. *)
Fixpoint dispatch_in (rs : list (method * list piece * handler)) (m : method)
         (path : list string) (partial : bool) : outcome :=
  match rs with
  | [] => if partial then MethodNotAllowed else NotFound
  | (rm, ps, h) :: rs' =>
      if path_matches ps path then
        if method_eqb rm m then Handled h
        else dispatch_in rs' m path true
      else dispatch_in rs' m path partial
  end.

Definition dispatch (m : method) (path : list string) : outcome :=
  dispatch_in routes m path false.

End Router.

(** ** [get_all_cottages] of [routes/cottages.py] *)

Module Cottage.
(** A serialized cottage; [key] is [str(c.get("_id") or c.get("id"))],
    [available] the key of that name, which the availability filter
    sets. *)
Record doc : Type := {
  key : string;
  name : string;
  available : option bool
}.

(** [c['available'] = True]. *)
Definition set_available (c : doc) : doc :=
  {| key := key c; name := name c; available := Some true |}.
End Cottage.

Module Import Availability.

(** [{"$lt": q}] and [{"$gt": q}] for a [str] [q]: only a stored string
    is compared, in the order of its code points. *)
Definition lt_str (v : value) (q : string) : bool :=
  match v with
  | VStr s => String.ltb s q
  | _ => false
  end.

Definition gt_str (v : value) (q : string) : bool :=
  match v with
  | VStr s => String.ltb q s
  | _ => false
  end.

(** Lines 34-41 of cottages.py: the filter of the bookings query. *)
Definition overlaps_range (availableStart availableEnd : string) (b : Booking.doc)
  : bool :=
  lt_str (Booking.check_in b) availableEnd
  && gt_str (Booking.check_out b) availableStart.

(** Lines 43-49: the identifiers one booking contributes to
    [booked_ids]. *)
Definition booked_ids_of (b : Booking.doc) : list string :=
  match Booking.accommodation_id b with
  | AccList l => l
  | AccStr s => if String.eqb s "" then [] else [s]
  end.

Definition booked_ids (availableStart availableEnd : string) (w : World) : list string :=
  flat_map booked_ids_of
           (filter (overlaps_range availableStart availableEnd) (bookings w)).

Definition failed_to_fetch : exn := HTTPException 500 "Failed to fetch cottages".

(** [not x] for an optional query parameter. *)
Definition missing (x : option string) : bool :=
  match x with
  | Some s => String.eqb s ""
  | None => true
  end.

(** Lines 11-57 of cottages.py.  [cottages] is what
    [db["cottages"].find()] gives, serialized; every exception raised
    inside the [try], the 400 of line 30 included, leaves as the 500 of
    line 57. *)
Definition get_all_cottages (cottages : pyexc + list Cottage.doc)
           (bookings_fault : option pyexc)
           (availableStart availableEnd : option string) (w : World)
  : exn + list Cottage.doc :=
  match cottages with
  | inl _ => inl failed_to_fetch
  | inr out =>
      if missing availableStart || missing availableEnd then inr out
      else
        let start_text := match availableStart with Some s => s | None => "" end in
        let end_text := match availableEnd with Some s => s | None => "" end in
        match Datetime.strptime start_text, Datetime.strptime end_text with
        | Some _, Some _ =>
            match bookings_fault with
            | Some _ => inl failed_to_fetch
            | None =>
                let booked := booked_ids start_text end_text w in
                inr (map Cottage.set_available
                       (filter (fun c => negb (existsb (String.eqb (Cottage.key c)) booked))
                               out))
            end
        | _, _ => inl failed_to_fetch
        end
  end.

End Availability.

(** ** Dates written with leading zeros *)

(** Ten characters, each a digit or a dash: with [strptime] accepting
    it, the text is YYYY-MM-DD with every field zero-padded. *)
Definition zero_padded (s : string) : bool :=
  Nat.eqb (String.length s) 10
  && forallb (fun c => Datetime.is_digit c || Ascii.eqb c "-"%char)
             (list_ascii_of_string s).

(** No occupancy of the world belongs to booking [i]. *)
Definition owns_nothing (i : ObjectId) (w : World) : Prop :=
  forall o, In o (occupancies w) -> Occupancy.booking_id o <> i.

(** A date of the calendar that [datetime] accepts. *)
Definition valid_date (y m d : Z) : Prop :=
  1 <= y <= 9999 /\ 1 <= m <= 12 /\ 1 <= d <= Datetime.days_in_month y m.

(** The text [s] is YYYY-MM-DD, every field zero-padded, and spells the
    year [y], the month [m] and the day [d]. *)
Record padded (s : string) (y m d : Z) : Prop := {
  padded_text :
    exists y1 y2 y3 y4 m1 m2 d1 d2,
      s = String y1 (String y2 (String y3 (String y4 (String "-"
            (String m1 (String m2 (String "-" (String d1 (String d2 "")))))))))
      /\ Forall (fun c => Datetime.is_digit c = true) [y1; y2; y3; y4; m1; m2; d1; d2]
      /\ y = 1000 * Datetime.digit_val y1 + 100 * Datetime.digit_val y2
              + 10 * Datetime.digit_val y3 + Datetime.digit_val y4
      /\ m = 10 * Datetime.digit_val m1 + Datetime.digit_val m2
      /\ d = 10 * Datetime.digit_val d1 + Datetime.digit_val d2
}.

(** ** Summaries of what the other endpoints see *)

(** The response of a successful step: the document of [d] under an
    identifier that no booking of [w] had. *)
Definition fresh_response (d : Dict.t) (w : World) (created : option Booking.doc) : Prop :=
  exists i, created = Some (Store.to_doc d i)
            /\ existsb (Store.has_id i) (bookings w) = false.

(** The collection's index on [_id]: no two bookings share one. *)
Definition unique_ids (w : World) : Prop := NoDup (map Booking._id (bookings w)).

(** The [bookings] collection is what it was, or that with one document
    of [d] appended under an identifier no booking had. *)
Definition appended_at_most (d : Dict.t) (w w' : World) : Prop :=
  bookings w' = bookings w
  \/ exists i, existsb (Store.has_id i) (bookings w) = false
               /\ bookings w' = (bookings w ++ [Store.to_doc d i])%list.

(** The event [create_booking] publishes for the booking [b]. *)
Definition created_event (b : Booking.doc) : Event :=
  {| event := "bookings.created";
     event_booking_id := Booking._id b;
     event_guest_email := Booking.guest_email b |}.

(** The driver raises nowhere on the transactional path. *)
Definition transaction_goes_through (env : Env) : Prop :=
  txn_start_fault env = None /\ txn_insert_one_fault env = None
  /\ txn_insert_many_fault env = None /\ txn_find_one_fault env = None
  /\ txn_commit_fault env = None.

(** The driver raises nowhere on the lock-guarded path. *)
Definition lock_path_goes_through (env : Env) : Prop :=
  overlap_find_one_fault env = None /\ insert_one_fault env = None
  /\ insert_many_fault env = None /\ find_one_fault env = None.

(** The client has no sessions to offer: line 209 is false. *)
Definition no_sessions (env : Env) : bool :=
  match db_client env with
  | Some client => negb (has_start_session client)
  | None => true
  end.

(** The identifier the driver will generate next is not in use. *)
Definition next_oid_unused (w : World) : Prop :=
  existsb (Store.has_id (next_oid w)) (bookings w) = false.

(** ** More sample data *)

Module Fixtures.

(** The identifier of the first booking of [Sample.world_after_first],
    as the 24 hexadecimal digits a client sends. *)
Definition first_id : string := "000000000000000000000001".

(** A PUT body that changes the guest count and nothing else. *)
Definition three_guests : BookingUpdateRequest.t :=
  {| BookingUpdateRequest.guest_name := None;
     BookingUpdateRequest.guest_email := None;
     BookingUpdateRequest.guest_phone := None;
     BookingUpdateRequest.address := None;
     BookingUpdateRequest.city := None;
     BookingUpdateRequest.postal_code := None;
     BookingUpdateRequest.country := None;
     BookingUpdateRequest.accommodation_id := None;
     BookingUpdateRequest.check_in := None;
     BookingUpdateRequest.check_out := None;
     BookingUpdateRequest.total_price := None;
     BookingUpdateRequest.payment_method := None;
     BookingUpdateRequest.guests := Some 3;
     BookingUpdateRequest.adults := None;
     BookingUpdateRequest.children := None |}.

(** No document has an [id] field. *)
Definition no_id_field : string -> pyexc + option Booking.doc := fun _ => inr None.

Definition world_after_update : World :=
  snd (update_booking None first_id three_guests Sample.world_after_first).

Definition world_after_delete : World :=
  snd (delete_booking None None None first_id Sample.world_after_first).

(** A booking of R for the nights of 1 and 2 March 2024 that an older
    writer stored with its dates as dates. *)
Definition dated_doc : Booking.doc :=
  {| Booking._id := 100%N;
     Booking.guest_name := "Ravi";
     Booking.guest_email := "ravi@example.org";
     Booking.guest_phone := "555-0101";
     Booking.address := "2 Hill Road";
     Booking.city := "Pune";
     Booking.postal_code := "411001";
     Booking.country := "IN";
     Booking.accommodation_id := AccList ["R"];
     Booking.check_in := VDate 738946;
     Booking.check_out := VDate 738948;
     Booking.total_price := 100%float;
     Booking.payment_method := None;
     Booking.guests := None;
     Booking.adults := None;
     Booking.children := None;
     Booking.created_at := 1690000000;
     Booking.user_id := None;
     Booking.status := Some "confirmed" |}.

Definition dated_world : World :=
  {| bookings := [dated_doc]; occupancies := []; next_oid := 1%N;
     lock_calls := []; published := [] |}.

(** A room of four with two extra beds. *)
Definition room_with_extra_beds : Room.doc :=
  {| Room.capacity := Some 4; Room.sleeps := None;
     Room.extra_beds := Some 2; Room.extra_bedding := None |}.

Definition river : Cottage.doc :=
  {| Cottage.key := "R"; Cottage.name := "River"; Cottage.available := None |}.
Definition hill : Cottage.doc :=
  {| Cottage.key := "H"; Cottage.name := "Hill"; Cottage.available := None |}.

End Fixtures.

(** * Properties *)

Local Open Scope list_scope.

(** ** The model computes *)

Example strptime_2024_03_01 : Datetime.strptime "2024-03-01" = Some 738946.
Proof. reflexivity. Qed.

Example strptime_short_fields : Datetime.strptime "2024-3-1" = Some 738946.
Proof. reflexivity. Qed.

Example strptime_not_a_date :
  Datetime.strptime "2023-02-29" = None
  /\ Datetime.strptime "03/01/2024" = None
  /\ Datetime.strptime "0000-01-01" = None
  /\ Datetime.strptime "2024-03-011" = None.
Proof. repeat split; reflexivity. Qed.

(** A decimal digit of any script is a digit to [strptime], where the
    pattern has [\d]: in the year, and after a 1 or a 2 in the day. *)
Example strptime_digits_of_other_scripts :
  Datetime.strptime "２０２４-03-01" = Some 738946
  /\ Datetime.strptime "2024-03-1٥" = Some 738960
  /\ Datetime.strptime "2024-０3-01" = None
  /\ Datetime.strptime "2024-03-０1" = None.
Proof. repeat split; vm_compute; reflexivity. Qed.

(** [ObjectId] takes 24 characters of hexadecimal digits, and also 24
    characters in which whitespace stands between the pairs. *)
Example ObjectId_of_str_examples :
  ObjectId_of_str "000000000000000000000001" = Some 1%N
  /\ ObjectId_of_str "0000000000000000000000FF" = Some 255%N
  /\ ObjectId_of_str "abc" = None
  /\ ObjectId_of_str "00000000000000000000000g" = None
  /\ ObjectId_of_str "0 0000000000000000000000" = None
  /\ (exists i, ObjectId_of_str "00 00 00 00 00 00 00 00 " = Some i
                 /\ (2 ^ 96 <= i)%N).
Proof.
  repeat split; try (vm_compute; reflexivity).
  eexists. split; [vm_compute; reflexivity|]. vm_compute. discriminate.
Qed.

Example str_of_int_examples :
  str_of_int 6 = "6" /\ str_of_int 0 = "0" /\ str_of_int (-3) = "-3".
Proof. repeat split; reflexivity. Qed.

Example build_nights_three :
  build_nights 738946 738949 = [738946; 738947; 738948].
Proof. reflexivity. Qed.

(** ** Nights *)

Section Nights.

Lemma nights_loop_bounds fuel : forall d end_date x,
  In x (nights_loop fuel d end_date) -> d <= x < end_date.
Proof.
  induction fuel as [|fuel IH]; intros d end_date x; simpl.
  - intros [].
  - destruct (Z.ltb_spec d end_date) as [Hlt|Hge]; simpl.
    + intros [<- | Hin]; [lia|]. apply IH in Hin. lia.
    + intros [].
Qed.

Lemma nights_loop_complete fuel : forall d end_date x,
  (Z.to_nat (end_date - d) <= fuel)%nat ->
  d <= x < end_date -> In x (nights_loop fuel d end_date).
Proof.
  induction fuel as [|fuel IH]; intros d end_date x Hfuel Hx; simpl.
  - lia.
  - destruct (Z.ltb_spec d end_date) as [Hlt|Hge]; [|lia].
    destruct (Z.eq_dec x d) as [->|Hne]; [now left|right].
    apply IH; lia.
Qed.

Lemma nights_loop_sorted fuel : forall d end_date,
  Sorted.StronglySorted Z.lt (nights_loop fuel d end_date).
Proof.
  induction fuel as [|fuel IH]; intros d end_date; simpl.
  - constructor.
  - destruct (d <? end_date); constructor.
    + apply IH.
    + apply Forall_forall. intros x Hin.
      apply nights_loop_bounds in Hin. lia.
Qed.

(** The loop stops because its condition fails, not for want of fuel. *)
Lemma nights_loop_fuel fuel : forall d end_date,
  (Z.to_nat (end_date - d) <= fuel)%nat ->
  nights_loop fuel d end_date = build_nights d end_date.
Proof.
  unfold build_nights.
  induction fuel as [|fuel IH]; intros d end_date Hfuel.
  - replace (Z.to_nat (end_date - d)) with O by lia. reflexivity.
  - simpl. destruct (Z.ltb_spec d end_date) as [Hlt|Hge].
    + replace (Z.to_nat (end_date - d)) with (S (Z.to_nat (end_date - (d + 1)))) by lia.
      simpl. destruct (Z.ltb_spec d end_date); [|lia].
      f_equal. apply IH. lia.
    + replace (Z.to_nat (end_date - d)) with O by lia. reflexivity.
Qed.

Lemma build_nights_In start_date end_date x :
  In x (build_nights start_date end_date) <-> start_date <= x < end_date.
Proof.
  split.
  - apply nights_loop_bounds.
  - apply nights_loop_complete. lia.
Qed.

Lemma build_nights_sorted start_date end_date :
  Sorted.StronglySorted Z.lt (build_nights start_date end_date).
Proof. apply nights_loop_sorted. Qed.

Lemma sorted_lt_NoDup (l : list Z) :
  Sorted.StronglySorted Z.lt l -> NoDup l.
Proof.
  induction 1 as [|x l Hs IH Hall]; constructor; auto.
  intros Hin. rewrite Forall_forall in Hall. specialize (Hall x Hin). lia.
Qed.

Lemma build_nights_NoDup start_date end_date :
  NoDup (build_nights start_date end_date).
Proof. apply sorted_lt_NoDup, build_nights_sorted. Qed.

Lemma count_once (l : list Z) (x : Z) :
  NoDup l -> In x l -> List.length (filter (fun y => y =? x) l) = 1%nat.
Proof.
  induction 1 as [|y l Hnin Hnd IH]; simpl; [intros []|].
  intros [->|Hin].
  - rewrite Z.eqb_refl. simpl. f_equal.
    assert (Hnone : forall l', ~ In x l' -> filter (fun y => y =? x) l' = []).
    { induction l' as [|z l' IHl']; simpl; auto.
      intros Hn. destruct (Z.eqb_spec z x) as [->|_].
      - exfalso. apply Hn. now left.
      - apply IHl'. intros H'. apply Hn. now right. }
    now rewrite Hnone.
  - destruct (Z.eqb_spec y x) as [->|_]; [contradiction|]. now apply IH.
Qed.

Lemma nights_loop_length fuel : forall d end_date,
  (Z.to_nat (end_date - d) <= fuel)%nat ->
  List.length (nights_loop fuel d end_date) = Z.to_nat (end_date - d).
Proof.
  induction fuel as [|fuel IH]; intros d end_date Hfuel; simpl; [lia|].
  destruct (Z.ltb_spec d end_date) as [Hlt|Hge]; simpl; [|lia].
  rewrite IH by lia. lia.
Qed.

Lemma build_nights_length start_date end_date :
  List.length (build_nights start_date end_date) = Z.to_nat (end_date - start_date).
Proof. apply nights_loop_length. lia. Qed.

End Nights.

(** ** Checks before any write *)

Section PreWriteChecks.

Variable env : Env.

Lemma capacity_validation_rejects d e :
  capacity_validation env d = inl e ->
  exists g cap,
    guests_req d = Some g /\ resolve_capacity env d = inr cap /\ cap < g
    /\ e = HTTPException 400 (capacity_detail g cap).
Proof.
  unfold capacity_validation.
  destruct (guests_req d) as [g|]; [|discriminate].
  destruct (resolve_capacity env d) as [p|cap]; [discriminate|].
  destruct (Z.ltb_spec cap g); [|discriminate].
  intros [= <-]. exists g, cap. auto.
Qed.

Lemma capacity_validation_exceeded d g cap :
  guests_req d = Some g -> resolve_capacity env d = inr cap -> cap < g ->
  capacity_validation env d = inl (HTTPException 400 (capacity_detail g cap)).
Proof.
  intros Hg Hc Hlt. unfold capacity_validation. rewrite Hg, Hc.
  destruct (Z.ltb_spec cap g); [reflexivity|lia].
Qed.

Lemma capacity_validation_skipped d p :
  resolve_capacity env d = inl p -> capacity_validation env d = inr tt.
Proof.
  intros Hc. unfold capacity_validation. rewrite Hc.
  now destruct (guests_req d).
Qed.

Lemma parse_dates_ok d ci co :
  parse_dates d = inr (ci, co) ->
  Datetime.strptime (Dict.check_in d) = Some ci
  /\ Datetime.strptime (Dict.check_out d) = Some co /\ ci < co.
Proof.
  unfold parse_dates.
  destruct (Datetime.strptime (Dict.check_in d)) as [a|]; [|discriminate].
  destruct (Datetime.strptime (Dict.check_out d)) as [b|]; [|discriminate].
  destruct (Z.leb_spec b a); [discriminate|].
  intros [= <- <-]. auto.
Qed.

Lemma parse_dates_error d e :
  parse_dates d = inl e -> ValidationError e.
Proof.
  unfold parse_dates.
  destruct (Datetime.strptime (Dict.check_in d));
    destruct (Datetime.strptime (Dict.check_out d));
    try (intros [= <-]; reflexivity).
  destruct (_ <=? _); [intros [= <-]; reflexivity|discriminate].
Qed.

Lemma parse_dates_invalid d :
  dates_parse_in_order (Dict.check_in d) (Dict.check_out d) = false ->
  exists e, parse_dates d = inl e.
Proof.
  unfold dates_parse_in_order, parse_dates.
  destruct (Datetime.strptime (Dict.check_in d)) as [a|]; [|eauto].
  destruct (Datetime.strptime (Dict.check_out d)) as [b|]; [|eauto].
  intros Hlt. destruct (Z.leb_spec b a); [eauto|].
  apply Z.ltb_ge in Hlt. lia.
Qed.

Lemma pre_write_checks_error d e :
  pre_write_checks env d = inl e -> ValidationError e.
Proof.
  unfold pre_write_checks.
  destruct (str_ge _ _); [intros [= <-]; reflexivity|].
  destruct (capacity_validation env d) as [e'|[]] eqn:Hcap.
  - intros [= <-]. apply capacity_validation_rejects in Hcap.
    destruct Hcap as (g & cap & _ & _ & _ & ->). reflexivity.
  - apply parse_dates_error.
Qed.

Lemma pre_write_checks_ok d ci co :
  pre_write_checks env d = inr (ci, co) ->
  str_ge (Dict.check_in d) (Dict.check_out d) = false
  /\ capacity_validation env d = inr tt
  /\ parse_dates d = inr (ci, co).
Proof.
  unfold pre_write_checks.
  destruct (str_ge _ _); [discriminate|].
  destruct (capacity_validation env d) as [e'|[]]; [discriminate|].
  auto.
Qed.

End PreWriteChecks.

(** C6. A request whose check-in or check-out does not parse as
    YYYY-MM-DD ([strptime] with [%Y-%m-%d] raises), or whose check-in is
    not strictly before its check-out,
    is rejected with a ValidationError (status 400), and the world is
    the one the request found: no booking, no occupancy, no call to the
    lock manager. *)
Theorem C6_invalid_dates_rejected_without_effect
        (env : Env) (booking : BookingCreateRequest.t) (w : World) :
  dates_parse_in_order (BookingCreateRequest.check_in booking)
                       (BookingCreateRequest.check_out booking) = false ->
  exists e, create_booking env booking w = (inl e, w) /\ ValidationError e.
Proof.
  intros Hbad. unfold create_booking.
  destruct (pre_write_checks env (initial_dict env booking)) as [e|[ci co]] eqn:Hpre.
  - exists e. split; [reflexivity|]. eapply pre_write_checks_error; eauto.
  - exfalso. apply pre_write_checks_ok in Hpre. destruct Hpre as (_ & _ & Hparse).
    destruct (parse_dates_invalid (initial_dict env booking)) as [e He].
    + exact Hbad.
    + congruence.
Qed.

Lemma C6_witness :
  exists e,
    create_booking Sample.lock_env
      (Sample.request (AccStr "R") "2024-03-05" "2024-03-05" None)
      Sample.world_after_first
    = (inl e, Sample.world_after_first) /\ ValidationError e.
Proof.
  apply (C6_invalid_dates_rejected_without_effect Sample.lock_env
           (Sample.request (AccStr "R") "2024-03-05" "2024-03-05" None)
           Sample.world_after_first).
  reflexivity.
Defined.

(** C3, the claim as stated fails: six guests for a room of four are
    turned away with status 400, the status of a ValidationError, and
    not with a ConflictError.  The same happens when the lookups find
    neither a room nor an accommodation: the capacity is then 0. *)
Lemma C3_counterexample :
  let env := Sample.env None (inr (Some Sample.room_of_4)) None None in
  let booking := Sample.request (AccStr "R") "2024-03-01" "2024-03-03" (Some 6) in
  guests_req (initial_dict env booking) = Some 6
  /\ resolve_capacity env (initial_dict env booking) = inr 4
  /\ create_booking env booking Sample.empty_world
     = (inl (HTTPException 400
               "Selected accommodation does not accommodate 6 guests; capacity is 4"),
        Sample.empty_world)
  /\ ~ (exists e w', create_booking env booking Sample.empty_world = (inl e, w')
                     /\ ConflictError e)
  /\ resolve_capacity Sample.lock_env (initial_dict Sample.lock_env booking) = inr 0
  /\ create_booking Sample.lock_env booking Sample.empty_world
     = (inl (HTTPException 400
               "Selected accommodation does not accommodate 6 guests; capacity is 0"),
        Sample.empty_world).
Proof.
  cbv zeta. split; [reflexivity|]. split; [reflexivity|]. split; [reflexivity|].
  split; [|split; reflexivity].
  intros (e & w' & Hrun & Hconf).
  vm_compute in Hrun. injection Hrun as <- _. discriminate Hconf.
Qed.

(** C3, amended. A request whose guest count exceeds the capacity the
    lookups resolve is rejected with status 400 (ValidationError, not
    ConflictError) and leaves the world untouched; when a lookup raises,
    the capacity check passes and a request with valid dates goes on to
    the reservation. *)
Theorem C3_capacity_exceeded_is_status_400
        (env : Env) (booking : BookingCreateRequest.t) (w : World) :
  let d := initial_dict env booking in
  (forall g cap,
      guests_req d = Some g -> resolve_capacity env d = inr cap -> cap < g ->
      exists e,
        create_booking env booking w = (inl e, w)
        /\ ValidationError e /\ ~ ConflictError e
        /\ (str_ge (Dict.check_in d) (Dict.check_out d) = false ->
            e = HTTPException 400 (capacity_detail g cap)))
  /\ (forall p, resolve_capacity env d = inl p ->
        capacity_validation env d = inr tt
        /\ forall ci co,
             str_ge (Dict.check_in d) (Dict.check_out d) = false ->
             parse_dates d = inr (ci, co) ->
             create_booking env booking w
             = run_request (reserve env ci co (build_nights ci co)) d w).
Proof.
  cbv zeta. split.
  - intros g cap Hg Hc Hlt. unfold create_booking, pre_write_checks.
    destruct (str_ge _ _).
    + eexists. split; [reflexivity|]. repeat split; try discriminate.
    + rewrite (capacity_validation_exceeded env _ g cap Hg Hc Hlt).
      eexists. split; [reflexivity|]. repeat split; try discriminate.
  - intros p Hp. split; [eapply capacity_validation_skipped; eauto|].
    intros ci co Hord Hparse. unfold create_booking, pre_write_checks.
    rewrite Hord, (capacity_validation_skipped env _ p Hp), Hparse.
    reflexivity.
Qed.

Lemma C3_witness :
  let env := Sample.env None (inr (Some Sample.room_of_4)) None None in
  let booking := Sample.request (AccStr "R") "2024-03-01" "2024-03-03" (Some 6) in
  exists e,
    create_booking env booking Sample.world_after_first
    = (inl e, Sample.world_after_first)
    /\ ValidationError e /\ ~ ConflictError e
    /\ (str_ge "2024-03-01" "2024-03-03" = false ->
        e = HTTPException 400 (capacity_detail 6 4)).
Proof.
  cbv zeta.
  apply (proj1 (C3_capacity_exceeded_is_status_400
                  (Sample.env None (inr (Some Sample.room_of_4)) None None)
                  (Sample.request (AccStr "R") "2024-03-01" "2024-03-03" (Some 6))
                  Sample.world_after_first) 6 4).
  - reflexivity.
  - reflexivity.
  - lia.
Defined.

(** ** What each step does to the world *)

Section Steps.

Lemma find_fresh {A} (p : A -> bool) l x :
  existsb p l = false -> p x = true -> find p (l ++ [x]) = Some x.
Proof.
  intros Hl Hx. induction l as [|y l IH]; simpl in *.
  - now rewrite Hx.
  - apply orb_false_iff in Hl. destruct Hl as [-> Hl]. auto.
Qed.

Lemma has_id_to_doc d i : Store.has_id i (Store.to_doc d i) = true.
Proof. apply N.eqb_refl. Qed.

Lemma remove_first_In {A} (p : A -> bool) l x :
  In x (Store.remove_first p l) -> In x l.
Proof.
  induction l as [|y l IH]; simpl; auto.
  destruct (p y); simpl; intuition.
Qed.

Lemma occ_docs_of_set_id env d j i nights :
  occ_docs_of env (Dict.set_id d j) i nights = occ_docs_of env d i nights.
Proof. reflexivity. Qed.

Lemma same_fields_acc d d' :
  same_fields d d' -> Dict.accommodation_id d' = Dict.accommodation_id d.
Proof. intros H. exact (f_equal Booking.accommodation_id (H 0%N)). Qed.

Lemma same_fields_occ_docs env d d' i nights :
  same_fields d d' -> occ_docs_of env d' i nights = occ_docs_of env d i nights.
Proof. intros H. unfold occ_docs_of. now rewrite (same_fields_acc _ _ H). Qed.

Lemma wrote_reservation_same_fields env nights d d' w w' i :
  same_fields d d' -> wrote_reservation env nights d' w w' i ->
  wrote_reservation env nights d w w' i.
Proof.
  intros Hs [Hb [n Ho]]. split.
  - now rewrite Hb, (Hs i).
  - exists n. now rewrite Ho, (same_fields_occ_docs env d d' i nights Hs).
Qed.

Ltac in_bookings :=
  let b := fresh "b" in
  let Hb := fresh "Hb" in
  intros b Hb; try apply remove_first_In in Hb;
  try (apply in_app_iff in Hb; destruct Hb as [Hb|[<-|[]]]); eauto.

Ltac use_occ_docs :=
  repeat match goal with
         | E : occ_docs_of _ (Dict.set_id _ _) _ _ = _ |- _ =>
             rewrite occ_docs_of_set_id in E
         end;
  try match goal with
      | E : occ_docs_of _ _ _ _ = _ |- _ => rewrite E
      end.

Ltac reservation_written :=
  eexists; split; [try f_equal; apply find_fresh; auto using has_id_to_doc|];
  split; [reflexivity|]; use_occ_docs;
  first [eexists; reflexivity | exists 0%N; cbn; now rewrite app_nil_r].

Lemma critical_section_effect env ci co nights fr r fr' :
  critical_section env ci co nights fr = (r, fr') ->
  quiet (world fr) (world fr')
  /\ same_fields (booking_dict fr) (booking_dict fr')
  /\ (forall b, In b (bookings (world fr')) ->
        In b (bookings (world fr)) \/ exists i, b = Store.to_doc (booking_dict fr) i)
  /\ match r with
     | inr created =>
         exists i, created = Some (Store.to_doc (booking_dict fr) i)
                   /\ wrote_reservation env nights (booking_dict fr) (world fr) (world fr') i
     | inl _ => True
     end.
Proof.
  intros H. unfold quiet, same_fields, wrote_reservation in *. mrun H.
  all: injection H as <- <-; wsimpl.
  all: repeat split; auto; try in_bookings.
  all: reservation_written.
Qed.

(** An overlap found by the re-check ends the critical section with the
    conflict response and without a write. *)
Lemma critical_section_overlap env ci co nights fr b :
  overlap_find_one_fault env = None ->
  find (overlap_filter (Dict.accommodation_id (booking_dict fr)) ci co)
       (bookings (world fr)) = Some b ->
  critical_section env ci co nights fr = (inl already_booked, fr).
Proof.
  intros Hf Hb. unfold critical_section, Store.find_one.
  cbv beta iota zeta delta [bind ret raise faulty get_dict get_world].
  now rewrite Hf, Hb.
Qed.

Lemma release_quietly_effect env key owner fr :
  release_quietly env key owner fr
  = (inr tt, {| world := Store.log_lock_call (world fr) (ReleaseLock key owner);
                booking_dict := booking_dict fr |}).
Proof.
  unfold release_quietly, call_release_lock.
  cbv beta iota zeta delta [try_except bind ret raise faulty get_world put_world].
  now destruct (release_lock_fault env).
Qed.

Lemma lock_guarded_path_effect env ci co nights fr r fr' :
  lock_guarded_path env ci co nights fr = (r, fr') ->
  let key := lock_key_of (booking_dict fr) ci co in
  let call := AcquireLock key (uuid4_hex env) 30 5%float in
  published (world fr') = published (world fr)
  /\ same_fields (booking_dict fr) (booking_dict fr')
  /\ (forall b, In b (bookings (world fr')) ->
        In b (bookings (world fr)) \/ exists i, b = Store.to_doc (booking_dict fr) i)
  /\ match acquire_lock env key (uuid4_hex env) 30 5%float with
     | inl p =>
         r = inl (Raised p) /\ wrote_nothing (world fr) (world fr')
         /\ lock_calls (world fr') = lock_calls (world fr) ++ [call]
     | inr lock_owner =>
         if falsy_owner lock_owner
         then r = inl busy /\ wrote_nothing (world fr) (world fr')
              /\ lock_calls (world fr') = lock_calls (world fr) ++ [call]
         else lock_calls (world fr')
              = lock_calls (world fr) ++ [call; ReleaseLock key (owner_token lock_owner)]
              /\ match r with
                 | inr created =>
                     exists i, created = Some (Store.to_doc (booking_dict fr) i)
                               /\ wrote_reservation env nights (booking_dict fr)
                                                    (world fr) (world fr') i
                 | inl _ => True
                 end
     end.
Proof.
  intros H. cbv zeta. unfold lock_guarded_path, call_acquire_lock in H.
  change ttl_seconds with 30 in H. change timeout with 5%float in H. mcore H.
  destruct (acquire_lock env _ (uuid4_hex env) 30 5%float) as [p|lock_owner]; mcore H.
  - injection H as <- <-. unfold wrote_nothing, same_fields. wsimpl. repeat split; auto.
  - destruct (falsy_owner lock_owner); mcore H.
    + injection H as <- <-. unfold wrote_nothing, same_fields. wsimpl. repeat split; auto.
    + destruct (critical_section _ _ _ _ _) as [r1 fr1] eqn:Hcs in H.
      rewrite release_quietly_effect in H. injection H as <- <-.
      apply critical_section_effect in Hcs.
      destruct Hcs as ((Hl & Hp) & Hres & Hin & Hr).
      unfold wrote_reservation in *. wsimpl.
      repeat split; auto.
      rewrite Hl. wsimpl. now rewrite <- app_assoc.
Qed.

Lemma transaction_block_effect env nights fr r fr' :
  transaction_block env nights fr = (r, fr') ->
  quiet (world fr) (world fr')
  /\ same_fields (booking_dict fr) (booking_dict fr')
  /\ match r with
     | inr created =>
         exists i, created = Some (Store.to_doc (booking_dict fr) i)
                   /\ wrote_reservation env nights (booking_dict fr) (world fr) (world fr') i
     | inl e => wrote_nothing (world fr) (world fr') /\ exists p, e = Raised p
     end.
Proof.
  intros H. unfold quiet, same_fields, wrote_reservation, wrote_nothing in *. mrun H.
  all: injection H as <- <-; wsimpl.
  all: repeat split; eauto.
  all: reservation_written.
Qed.

Lemma transactional_path_effect env nights fr r fr' :
  transactional_path env nights fr = (r, fr') ->
  quiet (world fr) (world fr')
  /\ same_fields (booking_dict fr) (booking_dict fr')
  /\ match r with
     | inr (Some b) =>
         exists i, b = Store.to_doc (booking_dict fr) i
                   /\ wrote_reservation env nights (booking_dict fr) (world fr) (world fr') i
     | inr None => wrote_nothing (world fr) (world fr')
     | inl e => e = already_booked /\ wrote_nothing (world fr) (world fr')
     end.
Proof.
  unfold transactional_path, try_except. intros H.
  destruct (transaction_block env nights fr) as [r1 fr1] eqn:Hblock.
  apply transaction_block_effect in Hblock. destruct Hblock as (Hq & Hf & Hr).
  destruct r1 as [e|created].
  - destruct Hr as (Hw & p & ->).
    destruct p; injection H as <- <-; auto.
  - injection H as <- <-. destruct Hr as (i & -> & Hw). eauto 6.
Qed.

Lemma select_path_effect env nights fr r fr' :
  select_path env nights fr = (r, fr') ->
  quiet (world fr) (world fr')
  /\ same_fields (booking_dict fr) (booking_dict fr')
  /\ match r with
     | inr (Some b) =>
         exists i, b = Store.to_doc (booking_dict fr) i
                   /\ wrote_reservation env nights (booking_dict fr) (world fr) (world fr') i
     | inr None => wrote_nothing (world fr) (world fr')
     | inl e => e = already_booked /\ wrote_nothing (world fr) (world fr')
     end.
Proof.
  unfold select_path. intros H.
  assert (Hret : ret None fr = (r, fr') ->
                 quiet (world fr) (world fr')
                 /\ same_fields (booking_dict fr) (booking_dict fr')
                 /\ match r with
                    | inr (Some b) =>
                        exists i, b = Store.to_doc (booking_dict fr) i
                                  /\ wrote_reservation env nights (booking_dict fr)
                                                       (world fr) (world fr') i
                    | inr None => wrote_nothing (world fr) (world fr')
                    | inl e => e = already_booked /\ wrote_nothing (world fr) (world fr')
                    end).
  { intros [= <- <-]. unfold quiet, same_fields, wrote_nothing. auto. }
  destruct (db_client env) as [client|]; [|auto].
  destruct (has_start_session client); [|auto].
  now apply transactional_path_effect.
Qed.

Lemma notify_effect env out fr :
  exists w', notify env out fr = (inr tt, {| world := w'; booking_dict := booking_dict fr |})
             /\ wrote_nothing (world fr) w' /\ lock_calls w' = lock_calls (world fr).
Proof.
  unfold notify, wrote_nothing.
  cbv beta iota zeta delta [try_except bind ret raise faulty get_world put_world].
  destruct fr as [w d]. wsimpl.
  destruct out as [o|]; [destruct (publish_fault env)|].
  all: eexists; split; [reflexivity|]; wsimpl; auto.
Qed.

(** [reserve], by the outcome of path selection. *)
Lemma reserve_select env ci co nights fr :
  reserve env ci co nights fr
  = match select_path env nights fr with
    | (inl e, fr1) => (inl e, fr1)
    | (inr (Some b), fr1) =>
        let '(_, fr2) := notify env (Some b) fr1 in (inr (Some b), fr2)
    | (inr None, fr1) => fallback env ci co nights fr1
    end.
Proof.
  unfold reserve, fallback. cbv beta iota zeta delta [bind ret].
  destruct (select_path env nights fr) as [[e|[b|]] fr1]; try reflexivity.
  destruct (notify_effect env (Some b) fr1) as (w' & -> & _). reflexivity.
Qed.

Lemma fallback_lock env ci co nights fr :
  fallback env ci co nights fr
  = match lock_guarded_path env ci co nights fr with
    | (inl e, fr1) => (inl e, fr1)
    | (inr created, fr1) =>
        let '(_, fr2) := notify env created fr1 in (inr created, fr2)
    end.
Proof.
  unfold fallback. cbv beta iota zeta delta [bind ret].
  destruct (lock_guarded_path env ci co nights fr) as [[e|created] fr1]; try reflexivity.
  destruct (notify_effect env created fr1) as (w' & -> & _). reflexivity.
Qed.

End Steps.

(** ** The reservation as a whole *)

Section Reservation.

Variable env : Env.

Lemma wrote_reservation_before nights d w0 w1 w2 i :
  wrote_nothing w0 w1 -> wrote_reservation env nights d w1 w2 i ->
  wrote_reservation env nights d w0 w2 i.
Proof.
  unfold wrote_nothing, wrote_reservation.
  intros [Hb Ho] [-> [n ->]]. rewrite Hb, Ho. eauto.
Qed.

Lemma wrote_reservation_after nights d w0 w1 w2 i :
  wrote_reservation env nights d w0 w1 i -> wrote_nothing w1 w2 ->
  wrote_reservation env nights d w0 w2 i.
Proof.
  unfold wrote_nothing, wrote_reservation.
  intros [Hb [n Ho]] [-> ->]. eauto.
Qed.

Lemma lock_guarded_path_success ci co nights fr created fr' :
  lock_guarded_path env ci co nights fr = (inr created, fr') ->
  exists i, created = Some (Store.to_doc (booking_dict fr) i)
            /\ wrote_reservation env nights (booking_dict fr) (world fr) (world fr') i.
Proof.
  intros H. apply lock_guarded_path_effect in H. cbv zeta in H.
  destruct H as (_ & _ & _ & H).
  destruct (acquire_lock env _ _ _ _) as [p|lock_owner].
  - destruct H as [H _]. discriminate H.
  - destruct (falsy_owner lock_owner).
    + destruct H as [H _]. discriminate H.
    + apply H.
Qed.

Lemma reserve_effect ci co nights fr r fr' :
  reserve env ci co nights fr = (r, fr') ->
  (forall b, In b (bookings (world fr')) ->
     In b (bookings (world fr)) \/ exists i, b = Store.to_doc (booking_dict fr) i)
  /\ match r with
     | inr created =>
         exists i, created = Some (Store.to_doc (booking_dict fr) i)
                   /\ wrote_reservation env nights (booking_dict fr) (world fr) (world fr') i
     | inl _ => True
     end.
Proof.
  rewrite reserve_select.
  destruct (select_path env nights fr) as [[e|[b|]] fr1] eqn:Hsel;
    apply select_path_effect in Hsel; destruct Hsel as (_ & Hsame & Hsel).
  - intros [= <- <-]. destruct Hsel as [_ [Hb _]]. rewrite Hb. auto.
  - destruct (notify_effect env (Some b) fr1) as (w2 & -> & Hn & _).
    intros [= <- <-]. destruct Hsel as (i & -> & Hw). cbn [world].
    pose proof (wrote_reservation_after _ _ _ _ _ _ Hw Hn) as Hw'.
    split; [|eauto].
    intros b Hb. destruct Hw' as [Hbk _]. rewrite Hbk in Hb.
    apply in_app_iff in Hb. destruct Hb as [Hb|[<-|[]]]; eauto.
  - rewrite fallback_lock.
    destruct (lock_guarded_path env ci co nights fr1) as [[e|created] fr2] eqn:Hlock.
    + intros [= <- <-]. split; [|exact I].
      apply lock_guarded_path_effect in Hlock. cbv zeta in Hlock.
      destruct Hlock as (_ & _ & Hin & _).
      intros b Hb. destruct (Hin b Hb) as [Hold|[i ->]].
      * left. destruct Hsel as [<- _]. exact Hold.
      * right. exists i. apply Hsame.
    + destruct (notify_effect env created fr2) as (w3 & -> & Hn & _).
      intros [= <- <-]. cbn [world].
      apply lock_guarded_path_success in Hlock. destruct Hlock as (i & -> & Hw).
      apply (wrote_reservation_same_fields _ _ _ _ _ _ _ Hsame) in Hw.
      pose proof (wrote_reservation_after _ _ _ _ _ _
                    (wrote_reservation_before _ _ _ _ _ _ Hsel Hw) Hn) as Hw'.
      split.
      * intros b Hb. destruct Hw' as [Hbk _]. rewrite Hbk in Hb.
        apply in_app_iff in Hb. destruct Hb as [Hb|[<-|[]]]; eauto.
      * exists i. split; [now rewrite (Hsame i)|exact Hw'].
Qed.

End Reservation.

(** ** Occupancy documents *)

Section OccupancyDocs.

Variables (acc : acc_id) (booking_id : ObjectId) (stamp : nat -> Z).

Lemma with_ids_dates nights : forall n k,
  map Occupancy.date (Store.with_ids n (occ_docs_from k acc booking_id stamp nights))
  = nights.
Proof.
  induction nights as [|nd nights IH]; intros n k; simpl; [reflexivity|].
  now rewrite IH.
Qed.

Lemma with_ids_owner nights : forall n k,
  Forall (fun o => Occupancy.booking_id o = booking_id
                   /\ Occupancy.accommodation_id o = acc)
         (Store.with_ids n (occ_docs_from k acc booking_id stamp nights)).
Proof.
  induction nights as [|nd nights IH]; intros n k; simpl; constructor; auto.
Qed.

Lemma with_ids_occupies r night nights : forall n k,
  lists_resource r acc = true ->
  List.length (filter (occupies r night)
                 (Store.with_ids n (occ_docs_from k acc booking_id stamp nights)))
  = List.length (filter (fun y => y =? night) nights).
Proof.
  induction nights as [|nd nights IH]; intros n k Hr; simpl; [reflexivity|].
  unfold occupies at 1. cbn [Occupancy.date Occupancy.accommodation_id].
  rewrite Hr, andb_true_r.
  destruct (nd =? night); simpl; rewrite IH; auto.
Qed.

End OccupancyDocs.

(** C4, the claim as stated fails: a booking of two resources for two
    nights gets two occupancy documents, one per night, each holding the
    list of both resources, and not one document per resource and
    night, which would be four. *)
Lemma C4_counterexample :
  let booking := Sample.request (AccList ["R1"; "R2"]) "2024-03-01" "2024-03-03" None in
  let r := create_booking Sample.lock_env booking Sample.empty_world in
  (exists b, fst r = inr (Some b)
             /\ Booking.accommodation_id b = AccList ["R1"; "R2"])
  /\ build_nights 738946 738948 = [738946; 738947]
  /\ List.length (occupancies (snd r)) = 2%nat
  /\ List.length (occupancies (snd r)) <> (2 * 2)%nat
  /\ map Occupancy.date (occupancies (snd r)) = [738946; 738947]
  /\ Forall (fun o => Occupancy.accommodation_id o = AccList ["R1"; "R2"])
            (occupancies (snd r)).
Proof.
  cbv zeta.
  split; [eexists; split; vm_compute; reflexivity|].
  split; [reflexivity|].
  split; [vm_compute; reflexivity|].
  split; [vm_compute; discriminate|].
  split; [vm_compute; reflexivity|].
  vm_compute. repeat constructor.
Qed.

(** C4, amended. A successful reservation appends to [occupancies] one
    document per night of [check_in, check_out), whatever the number of
    resources: the nights are the dates [d] with
    [check_in <= d < check_out], each once and in increasing order;
    there are as many documents as nights, they carry the nights in
    that order, all belong to the new booking, and each holds the whole
    resource list of the booking, so that a resource of the booking is
    covered on each night by exactly one document, which it shares with
    the other resources. *)
Theorem C4_one_occupancy_per_night
        (env : Env) (booking : BookingCreateRequest.t) (w w' : World)
        (created : option Booking.doc) :
  create_booking env booking w = (inr created, w') ->
  let acc := normalize_accommodation_id (BookingCreateRequest.accommodation_id booking) in
  exists check_in_dt check_out_dt booking_id new,
    Datetime.strptime (BookingCreateRequest.check_in booking) = Some check_in_dt
    /\ Datetime.strptime (BookingCreateRequest.check_out booking) = Some check_out_dt
    /\ check_in_dt < check_out_dt
    /\ (forall d, In d (build_nights check_in_dt check_out_dt)
                  <-> check_in_dt <= d < check_out_dt)
    /\ NoDup (build_nights check_in_dt check_out_dt)
    /\ StronglySorted Z.lt (build_nights check_in_dt check_out_dt)
    /\ occupancies w' = occupancies w ++ new
    /\ map Occupancy.date new = build_nights check_in_dt check_out_dt
    /\ List.length new = Z.to_nat (check_out_dt - check_in_dt)
    /\ Forall (fun o => Occupancy.booking_id o = booking_id
                        /\ Occupancy.accommodation_id o = acc) new
    /\ (exists b, created = Some b /\ Booking._id b = booking_id)
    /\ forall r d,
         lists_resource r acc = true -> check_in_dt <= d < check_out_dt ->
         List.length (filter (occupies r d) new) = 1%nat.
Proof.
  intros H acc. unfold create_booking in H.
  destruct (pre_write_checks env (initial_dict env booking)) as [e|[ci co]] eqn:Hpre;
    [discriminate|].
  apply pre_write_checks_ok in Hpre. destruct Hpre as (_ & _ & Hparse).
  apply parse_dates_ok in Hparse. destruct Hparse as (Hci & Hco & Hlt).
  destruct (reserve env ci co (build_nights ci co) _) as [r fr] eqn:Hres.
  injection H as -> <-.
  apply reserve_effect in Hres. destruct Hres as (_ & i & -> & _ & n & Hocc).
  cbn [world booking_dict] in Hocc. unfold occ_docs_of in Hocc.
  exists ci, co, i. eexists.
  split; [exact Hci|]. split; [exact Hco|]. split; [exact Hlt|].
  split; [intros d; apply build_nights_In|].
  split; [apply build_nights_NoDup|].
  split; [apply build_nights_sorted|].
  split; [exact Hocc|].
  split; [apply with_ids_dates|].
  split.
  { rewrite <- build_nights_length.
    rewrite <- (with_ids_dates acc i (occ_utcnow env) (build_nights ci co) n 0%nat)
      at 2.
    symmetry. apply length_map. }
  split; [apply with_ids_owner|].
  split; [eexists; split; reflexivity|].
  intros r d Hr Hd. rewrite with_ids_occupies by exact Hr.
  apply count_once; [apply build_nights_NoDup|now apply build_nights_In].
Qed.

Lemma C4_witness :
  exists new,
    occupancies Sample.world_after_first = occupancies Sample.empty_world ++ new
    /\ map Occupancy.date new = [738946; 738947]
    /\ List.length new = 2%nat.
Proof.
  destruct (C4_one_occupancy_per_night Sample.lock_env Sample.first_request
              Sample.empty_world Sample.world_after_first (Some Sample.first_doc))
    as (ci & co & i & new & Hci & Hco & _ & _ & _ & _ & Hocc & Hdates & Hlen & _).
  - vm_compute. reflexivity.
  - exists new. split; [exact Hocc|].
    vm_compute in Hci. vm_compute in Hco.
    injection Hci as <-. injection Hco as <-. split; [exact Hdates|exact Hlen].
Defined.

(** ** The two paths *)

Section Paths.

Variable env : Env.

Lemma fallback_effect ci co nights fr r fr' :
  fallback env ci co nights fr = (r, fr') ->
  let key := lock_key_of (booking_dict fr) ci co in
  let call := AcquireLock key (uuid4_hex env) 30 5%float in
  match acquire_lock env key (uuid4_hex env) 30 5%float with
  | inl p =>
      r = inl (Raised p) /\ wrote_nothing (world fr) (world fr')
      /\ lock_calls (world fr') = lock_calls (world fr) ++ [call]
  | inr lock_owner =>
      if falsy_owner lock_owner
      then r = inl busy /\ wrote_nothing (world fr) (world fr')
           /\ lock_calls (world fr') = lock_calls (world fr) ++ [call]
      else lock_calls (world fr')
           = lock_calls (world fr) ++ [call; ReleaseLock key (owner_token lock_owner)]
  end.
Proof.
  rewrite fallback_lock. cbv zeta.
  destruct (lock_guarded_path env ci co nights fr) as [[e|created] fr1] eqn:Hlock;
    apply lock_guarded_path_effect in Hlock; cbv zeta in Hlock;
    destruct Hlock as (_ & _ & _ & Hlock).
  - intros [= <- <-].
    destruct (acquire_lock env _ _ _ _) as [p|lock_owner]; [exact Hlock|].
    destruct (falsy_owner lock_owner); [exact Hlock|apply Hlock].
  - destruct (notify_effect env created fr1) as (w2 & -> & Hn & Hl).
    intros [= <- <-]. cbn [world].
    destruct (acquire_lock env _ _ _ _) as [p|lock_owner].
    + destruct Hlock as [Hr _]. discriminate Hr.
    + destruct (falsy_owner lock_owner).
      * destruct Hlock as [Hr _]. discriminate Hr.
      * rewrite Hl. apply Hlock.
Qed.

(** Once path selection has created nothing, [create_booking] is the
    lock-guarded path run from where the attempt left the world. *)
Lemma create_booking_fallback booking w ci co fr1 :
  pre_write_checks env (initial_dict env booking) = inr (ci, co) ->
  select_path env (build_nights ci co)
              {| world := w; booking_dict := initial_dict env booking |}
  = (inr None, fr1) ->
  create_booking env booking w
  = (let '(r, fr) := fallback env ci co (build_nights ci co) fr1 in (r, world fr))
  /\ wrote_nothing w (world fr1) /\ quiet w (world fr1)
  /\ lock_key_of (booking_dict fr1) ci co
     = {| key_accommodation_id :=
            normalize_accommodation_id (BookingCreateRequest.accommodation_id booking);
          key_start := ci; key_end := co |}.
Proof.
  intros Hpre Hsel. unfold create_booking. rewrite Hpre, reserve_select, Hsel.
  apply select_path_effect in Hsel. destruct Hsel as (Hq & Hs & Hw).
  repeat split; try apply Hw; try apply Hq.
  unfold lock_key_of. now rewrite (same_fields_acc _ _ Hs).
Qed.

Lemma lock_guarded_path_release_fault f ci co nights fr :
  lock_guarded_path (with_release_lock_fault env f) ci co nights fr
  = lock_guarded_path env ci co nights fr.
Proof.
  unfold lock_guarded_path. cbv beta iota zeta delta [bind get_dict try_finally raise].
  change (call_acquire_lock (with_release_lock_fault env f))
    with (call_acquire_lock env).
  change (uuid4_hex (with_release_lock_fault env f)) with (uuid4_hex env).
  destruct (call_acquire_lock env _ _ _) as [[e|lock_owner] fr1]; [reflexivity|].
  destruct (falsy_owner lock_owner); [reflexivity|].
  change (critical_section (with_release_lock_fault env f))
    with (critical_section env).
  destruct (critical_section env ci co nights fr1) as [r fr2].
  now rewrite !release_quietly_effect.
Qed.

Lemma reserve_release_fault f ci co nights fr :
  reserve (with_release_lock_fault env f) ci co nights fr
  = reserve env ci co nights fr.
Proof.
  rewrite !reserve_select.
  change (select_path (with_release_lock_fault env f)) with (select_path env).
  destruct (select_path env nights fr) as [[e|[b|]] fr1]; try reflexivity.
  rewrite !fallback_lock, lock_guarded_path_release_fault.
  reflexivity.
Qed.

End Paths.

(** What the handlers of lines 227-234 do with what the transaction
    block raises: on DuplicateKeyError the transaction is aborted
    (nothing it wrote remains, the lock manager is not called) and
    [create_booking] raises the ConflictError "already booked"; on
    anything else the error is not surfaced, nothing was created, and
    the outcome of [create_booking] is the outcome of the lock-guarded
    path. *)
Lemma transaction_error_dispatch
        (env : Env) (booking : BookingCreateRequest.t) (w : World)
        (client : Client) (ci co : Z) (e : exn) (fr1 : Frame) :
  db_client env = Some client ->
  has_start_session client = true ->
  pre_write_checks env (initial_dict env booking) = inr (ci, co) ->
  transaction_block env (build_nights ci co)
                    {| world := w; booking_dict := initial_dict env booking |}
  = (inl e, fr1) ->
  wrote_nothing w (world fr1) /\ quiet w (world fr1)
  /\ (e = Raised DuplicateKeyError ->
      create_booking env booking w = (inl already_booked, world fr1)
      /\ ConflictError already_booked)
  /\ (e <> Raised DuplicateKeyError ->
      select_path env (build_nights ci co)
                  {| world := w; booking_dict := initial_dict env booking |}
      = (inr None, fr1)
      /\ create_booking env booking w
         = (let '(r, fr) := fallback env ci co (build_nights ci co) fr1 in
            (r, world fr))).
Proof.
  intros Hclient Hsession Hpre Hblock.
  pose proof (transaction_block_effect _ _ _ _ _ Hblock) as (Hq & _ & Hw & _).
  cbn [world] in Hq, Hw.
  assert (Hsel : select_path env (build_nights ci co)
                   {| world := w; booking_dict := initial_dict env booking |}
                 = match e with
                   | Raised DuplicateKeyError => (inl already_booked, fr1)
                   | _ => (inr None, fr1)
                   end).
  { unfold select_path. rewrite Hclient, Hsession.
    unfold transactional_path, try_except. rewrite Hblock.
    destruct e as [c s|[| |]]; reflexivity. }
  split; [exact Hw|]. split; [exact Hq|]. split.
  - intros ->. split; [|reflexivity].
    unfold create_booking. now rewrite Hpre, reserve_select, Hsel.
  - intros Hne.
    assert (Hnone : select_path env (build_nights ci co)
                      {| world := w; booking_dict := initial_dict env booking |}
                    = (inr None, fr1)).
    { rewrite Hsel. destruct e as [c s|[| |]]; try reflexivity. now elim Hne. }
    split; [exact Hnone|].
    now apply create_booking_fallback.
Qed.

(** A duplicate key that the driver reports as a BulkWriteError takes
    the fallback branch; the lock-guarded path then meets it again and
    answers with the same ConflictError, after asking for the lock. *)
Example bulk_write_error_takes_the_fallback :
  let r := create_booking Sample.bulk_write_error_env Sample.second_request
                          Sample.world_after_first in
  fst r = inl already_booked
  /\ wrote_nothing Sample.world_after_first (snd r)
  /\ List.length (lock_calls (snd r))
     = S (S (List.length (lock_calls Sample.world_after_first))).
Proof. cbv zeta. repeat split; vm_compute; reflexivity. Qed.

(** C5, at a failing input. The store holds the booking of R for the
    nights of 1 and 2 March 2024; a request for the nights of
    29 February and 1 March arrives with a client that has sessions.
    The occupancy of 1 March is refused for its duplicate key, which
    [insert_many] reports as a BulkWriteError, a PyMongoError that is
    not a DuplicateKeyError, in the transaction and again under the
    lock.  The transaction is aborted, but the handler of
    DuplicateKeyError is not the one taken: the transactional path
    raises nothing and asks for the fallback, [create_booking] takes the
    lock and inserts again, and the ConflictError the caller gets is
    that of the lock-guarded path, which leaves the occupancy of
    29 February behind. *)
Theorem C5_duplicate_occupancy_takes_the_fallback :
  let env := Sample.env (Some {| has_start_session := true |}) (inr None)
                        (Some PyMongoError) (Some (1%nat, PyMongoError)) in
  let w := Sample.world_after_first in
  let fr := {| world := w; booking_dict := initial_dict env Sample.earlier_request |} in
  let r := create_booking env Sample.earlier_request w in
  txn_insert_many_fault env = Some PyMongoError
  /\ PyMongoError <> DuplicateKeyError
  /\ pre_write_checks env (initial_dict env Sample.earlier_request)
     = inr (738945, 738947)
  /\ fst (transaction_block env (build_nights 738945 738947) fr)
     = inl (Raised PyMongoError)
  /\ fst (transactional_path env (build_nights 738945 738947) fr) = inr None
  /\ wrote_nothing w (world (snd (transactional_path env (build_nights 738945 738947) fr)))
  /\ fst r = inl already_booked
  /\ lock_calls (snd r)
     = lock_calls w
       ++ [AcquireLock {| key_accommodation_id := AccList ["R"];
                          key_start := 738945; key_end := 738947 |}
                       "0f8fad5bd9cb469fa16570867728950e" 30 5%float;
           ReleaseLock {| key_accommodation_id := AccList ["R"];
                          key_start := 738945; key_end := 738947 |}
                       "0f8fad5bd9cb469fa16570867728950e"]
  /\ bookings (snd r) = bookings w
  /\ exists o, occupancies (snd r) = occupancies w ++ [o]
               /\ Occupancy.date o = 738945
               /\ existsb (Store.has_id (Occupancy.booking_id o)) (bookings (snd r))
                  = false.
Proof.
  cbv zeta.
  split; [reflexivity|]. split; [discriminate|].
  split; [vm_compute; reflexivity|].
  split; [vm_compute; reflexivity|].
  split; [vm_compute; reflexivity|].
  split; [split; vm_compute; reflexivity|].
  split; [vm_compute; reflexivity|].
  split; [vm_compute; reflexivity|].
  split; [vm_compute; reflexivity|].
  eexists. split; [vm_compute; reflexivity|].
  split; vm_compute; reflexivity.
Qed.

(** C7. On the lock-guarded path the first thing [create_booking] does
    is ask the lock manager for the key made of the resource list and
    the date range, with a TTL of 30 seconds and a timeout of 5 seconds;
    when the lock manager answers that the lock was not acquired, the
    request ends with the ConflictError "busy", no booking and no
    occupancy is written, and nothing else is asked of the lock
    manager. *)
Theorem C7_lock_requested_and_busy_is_conflict
        (env : Env) (booking : BookingCreateRequest.t) (w w' : World)
        (ci co : Z) (fr1 : Frame) (r : exn + option Booking.doc) :
  let key :=
    {| key_accommodation_id :=
         normalize_accommodation_id (BookingCreateRequest.accommodation_id booking);
       key_start := ci; key_end := co |} in
  let call := AcquireLock key (uuid4_hex env) 30 5%float in
  pre_write_checks env (initial_dict env booking) = inr (ci, co) ->
  select_path env (build_nights ci co)
              {| world := w; booking_dict := initial_dict env booking |}
  = (inr None, fr1) ->
  create_booking env booking w = (r, w') ->
  (exists rest, lock_calls w' = lock_calls w ++ call :: rest)
  /\ forall lock_owner,
       acquire_lock env key (uuid4_hex env) 30 5%float = inr lock_owner ->
       falsy_owner lock_owner = true ->
       r = inl busy /\ ConflictError busy /\ wrote_nothing w w'
       /\ lock_calls w' = lock_calls w ++ [call].
Proof.
  intros key call Hpre Hsel Hrun.
  destruct (create_booking_fallback env booking w ci co fr1 Hpre Hsel)
    as (Hcb & Hw & (Hl & _) & Hkey).
  rewrite Hcb in Hrun.
  destruct (fallback env ci co (build_nights ci co) fr1) as [r2 fr2] eqn:Hfb.
  injection Hrun as <- <-.
  apply fallback_effect in Hfb. cbv zeta in Hfb. rewrite Hkey, Hl in Hfb.
  fold key in Hfb. fold call in Hfb.
  split.
  - destruct (acquire_lock env key (uuid4_hex env) 30 5%float) as [p|lock_owner].
    + exists []. apply Hfb.
    + destruct (falsy_owner lock_owner).
      * exists []. apply Hfb.
      * eexists. exact Hfb.
  - intros lock_owner Hacq Hfalsy. rewrite Hacq, Hfalsy in Hfb.
    destruct Hfb as (-> & Hw2 & Hl2).
    repeat split; try reflexivity; try exact Hl2.
    + destruct Hw as [Hb _]. destruct Hw2 as [Hb2 _]. congruence.
    + destruct Hw as [_ Ho]. destruct Hw2 as [_ Ho2]. congruence.
Qed.

Lemma C7_witness :
  let call :=
    AcquireLock {| key_accommodation_id := AccList ["R"];
                   key_start := 738947; key_end := 738949 |}
                "0f8fad5bd9cb469fa16570867728950e" 30 5%float in
  let w' := Store.log_lock_call Sample.world_after_first call in
  create_booking Sample.busy_env Sample.second_request Sample.world_after_first
  = (inl busy, w')
  /\ ConflictError busy
  /\ wrote_nothing Sample.world_after_first w'
  /\ lock_calls w' = lock_calls Sample.world_after_first ++ [call].
Proof.
  cbv zeta. split; [vm_compute; reflexivity|].
  refine (proj2 (proj2
            (C7_lock_requested_and_busy_is_conflict
               Sample.busy_env Sample.second_request Sample.world_after_first _
               738947 738949
               {| world := Sample.world_after_first;
                  booking_dict := initial_dict Sample.busy_env Sample.second_request |}
               (inl busy) _ _ _) None _ _)).
  - vm_compute. reflexivity.
  - reflexivity.
  - vm_compute. reflexivity.
  - reflexivity.
  - reflexivity.
Defined.

(** C8. Once the lock is acquired, whatever way the critical section
    ends (success, overlap conflict, failed occupancy insert, any error
    of the store), what [create_booking] asked of the lock manager is
    the acquisition followed by exactly one release of that key by the
    owner the acquisition returned; and whether that release raises
    changes neither the response nor the world. *)
Theorem C8_lock_released_on_every_exit
        (env : Env) (booking : BookingCreateRequest.t) (w : World)
        (ci co : Z) (fr1 : Frame) (lock_owner : option string) :
  let key :=
    {| key_accommodation_id :=
         normalize_accommodation_id (BookingCreateRequest.accommodation_id booking);
       key_start := ci; key_end := co |} in
  let call := AcquireLock key (uuid4_hex env) 30 5%float in
  pre_write_checks env (initial_dict env booking) = inr (ci, co) ->
  select_path env (build_nights ci co)
              {| world := w; booking_dict := initial_dict env booking |}
  = (inr None, fr1) ->
  acquire_lock env key (uuid4_hex env) 30 5%float = inr lock_owner ->
  falsy_owner lock_owner = false ->
  (forall r w', create_booking env booking w = (r, w') ->
     lock_calls w' = lock_calls w ++ [call; ReleaseLock key (owner_token lock_owner)])
  /\ (forall f, create_booking (with_release_lock_fault env f) booking w
                = create_booking env booking w).
Proof.
  intros key call Hpre Hsel Hacq Hfalsy. split.
  - intros r w' Hrun.
    destruct (create_booking_fallback env booking w ci co fr1 Hpre Hsel)
      as (Hcb & _ & (Hl & _) & Hkey).
    rewrite Hcb in Hrun.
    destruct (fallback env ci co (build_nights ci co) fr1) as [r2 fr2] eqn:Hfb.
    injection Hrun as <- <-.
    apply fallback_effect in Hfb. cbv zeta in Hfb. rewrite Hkey, Hl in Hfb.
    fold key in Hfb. fold call in Hfb.
    now rewrite Hacq, Hfalsy in Hfb.
  - intros f. unfold create_booking.
    change (initial_dict (with_release_lock_fault env f) booking)
      with (initial_dict env booking).
    change (pre_write_checks (with_release_lock_fault env f))
      with (pre_write_checks env).
    destruct (pre_write_checks env (initial_dict env booking)) as [e|[a b]];
      [reflexivity|].
    now rewrite reserve_release_fault.
Qed.

Lemma C8_witness :
  create_booking (with_release_lock_fault Sample.lock_env (Some PyMongoError))
                 Sample.second_request Sample.world_after_first
  = create_booking Sample.lock_env Sample.second_request Sample.world_after_first.
Proof.
  refine (proj2 (C8_lock_released_on_every_exit
                   Sample.lock_env Sample.second_request Sample.world_after_first
                   738947 738949
                   {| world := Sample.world_after_first;
                      booking_dict := initial_dict Sample.lock_env Sample.second_request |}
                   (Some "0f8fad5bd9cb469fa16570867728950e") _ _ _ _)
                (Some PyMongoError)).
  - vm_compute. reflexivity.
  - reflexivity.
  - reflexivity.
  - reflexivity.
Defined.

(** ** The overlap re-check *)

Section Overlap.

Lemma str_list_eqb_eq a : forall b, str_list_eqb a b = true <-> a = b.
Proof.
  induction a as [|x a IH]; intros [|y b]; simpl; split; try easy.
  - intros H. apply andb_true_iff in H. destruct H as [Hx Hr].
    apply String.eqb_eq in Hx. apply IH in Hr. now subst.
  - intros [= -> ->]. apply andb_true_iff. split.
    + apply String.eqb_refl.
    + now apply IH.
Qed.

Lemma acc_id_eqb_eq a b : acc_id_eqb a b = true <-> a = b.
Proof.
  destruct a as [x|x], b as [y|y]; simpl; split; try easy.
  - intros H. apply String.eqb_eq in H. now subst.
  - intros [= ->]. apply String.eqb_refl.
  - intros H. apply str_list_eqb_eq in H. now subst.
  - intros [= ->]. now apply str_list_eqb_eq.
Qed.

(** On a booking whose dates are stored as dates the filter is the
    half-open overlap test of the specification. *)
Lemma overlap_filter_on_dates acc check_in_dt check_out_dt b existing_in existing_out :
  Booking.check_in b = VDate existing_in ->
  Booking.check_out b = VDate existing_out ->
  overlap_filter acc check_in_dt check_out_dt b = true
  <-> Booking.accommodation_id b = acc
      /\ Booking.status b <> Some "cancelled"
      /\ existing_in < check_out_dt /\ existing_out > check_in_dt.
Proof.
  intros Hin Hout. unfold overlap_filter. rewrite Hin, Hout. simpl.
  rewrite !andb_true_iff, acc_id_eqb_eq, !Z.ltb_lt.
  assert (Hne : ne_str (Booking.status b) "cancelled" = true
                <-> Booking.status b <> Some "cancelled").
  { unfold ne_str. destruct (Booking.status b) as [s|]; [|easy].
    rewrite negb_true_iff. split.
    - intros H [= ->]. now rewrite String.eqb_refl in H.
    - intros H. apply String.eqb_neq. congruence. }
  rewrite Hne. intuition lia.
Qed.

(** On a booking whose dates are stored as strings, as [create_booking]
    stores them, the filter never holds. *)
Lemma overlap_filter_on_strings acc check_in_dt check_out_dt b s :
  Booking.check_in b = VStr s ->
  overlap_filter acc check_in_dt check_out_dt b = false.
Proof.
  intros Hin. unfold overlap_filter. rewrite Hin. simpl.
  now rewrite andb_false_r.
Qed.

Lemma overlap_filter_stored_booking acc check_in_dt check_out_dt d i :
  overlap_filter acc check_in_dt check_out_dt (Store.to_doc d i) = false.
Proof. now apply overlap_filter_on_strings with (s := Dict.check_in d). Qed.

End Overlap.

(** C1, at a failing input. The store holds the booking of R for the
    nights of 1 and 2 March 2024 that [create_booking] wrote, not
    cancelled; a request for R for the nights of 2 and 3 March arrives
    on the lock-guarded path.  The re-check finds no overlap (its
    filter holds of no document [create_booking] stores), and
    [create_booking] goes on to insert a second booking and occupancy
    documents for a night that is already taken. *)
Theorem C1_recheck_misses_booking_written_by_create_booking :
  let w := Sample.world_after_first in
  let r := create_booking Sample.lock_env Sample.second_request w in
  bookings w = [Sample.first_doc]
  /\ Booking.accommodation_id Sample.first_doc = AccList ["R"]
  /\ Booking.status Sample.first_doc <> Some "cancelled"
  /\ Booking.check_in Sample.first_doc = VStr "2024-03-01"
  /\ Booking.check_out Sample.first_doc = VStr "2024-03-03"
  /\ Datetime.strptime "2024-03-01" = Some 738946
  /\ Datetime.strptime "2024-03-03" = Some 738948
  /\ pre_write_checks Sample.lock_env
       (initial_dict Sample.lock_env Sample.second_request) = inr (738947, 738949)
  /\ 738946 < 738949 /\ 738948 > 738947
  /\ find (overlap_filter (AccList ["R"]) 738947 738949) (bookings w) = None
  /\ (forall acc check_in_dt check_out_dt d i,
        overlap_filter acc check_in_dt check_out_dt (Store.to_doc d i) = false)
  /\ (exists b, fst r = inr (Some b) /\ Booking._id b = 4%N
                /\ bookings (snd r) = [Sample.first_doc; b])
  /\ List.length (filter (occupies "R" 738947) (occupancies (snd r))) = 2%nat.
Proof.
  cbv zeta.
  split; [reflexivity|]. split; [reflexivity|]. split; [discriminate|].
  split; [reflexivity|]. split; [reflexivity|].
  split; [reflexivity|]. split; [reflexivity|].
  split; [vm_compute; reflexivity|].
  split; [lia|]. split; [lia|].
  split; [vm_compute; reflexivity|].
  split; [intros acc check_in_dt check_out_dt d i;
          apply overlap_filter_stored_booking|].
  split; [|vm_compute; reflexivity].
  eexists. split; [vm_compute; reflexivity|].
  split; vm_compute; reflexivity.
Qed.

(** C2, at a failing input. The request is for the nights of
    29 February and 1 March 2024; the occupancy document of the first
    night goes in and the one of the second night is refused.
    [create_booking] deletes the booking it had inserted and raises the
    ConflictError, and the occupancy document of 29 February stays,
    owned by a booking that no longer exists. *)
Theorem C2_failed_occupancy_insert_leaves_an_occupancy :
  let w := Sample.world_after_first in
  let r := create_booking Sample.second_night_taken_env Sample.earlier_request w in
  insert_many_fault Sample.second_night_taken_env = Some (1%nat, PyMongoError)
  /\ fst r = inl already_booked
  /\ bookings (snd r) = bookings w
  /\ existsb (Store.has_id 4%N) (bookings (snd r)) = false
  /\ exists o, occupancies (snd r) = occupancies w ++ [o]
               /\ Occupancy.booking_id o = 4%N
               /\ Occupancy.date o = 738945
               /\ Datetime.strptime "2024-02-29" = Some 738945.
Proof.
  cbv zeta.
  split; [reflexivity|].
  split; [vm_compute; reflexivity|].
  split; [vm_compute; reflexivity|].
  split; [vm_compute; reflexivity|].
  eexists. split; [vm_compute; reflexivity|].
  repeat split.
Qed.

(** What the rollback of lines 274-276 does achieve: when the refused
    document is the first one, nothing of the request remains. *)
Lemma rollback_when_first_document_refused :
  let env := Sample.env None (inr None) None (Some (0%nat, PyMongoError)) in
  create_booking env Sample.second_request Sample.world_after_first
  = (inl already_booked,
     Store.log_lock_call
       (Store.log_lock_call
          (Store.set_next_oid Sample.world_after_first 7%N)
          (AcquireLock {| key_accommodation_id := AccList ["R"];
                          key_start := 738947; key_end := 738949 |}
                       "0f8fad5bd9cb469fa16570867728950e" 30 5%float))
       (ReleaseLock {| key_accommodation_id := AccList ["R"];
                       key_start := 738947; key_end := 738949 |}
                    "0f8fad5bd9cb469fa16570867728950e")).
Proof. vm_compute. reflexivity. Qed.

(** ** Releasing occupancies *)

Section Release.

Lemma set_occupancies_same w : Store.set_occupancies w (occupancies w) = w.
Proof. now destruct w. Qed.

Lemma filter_none {A} (p : A -> bool) l :
  filter p l = [] -> filter (fun x => negb (p x)) l = l.
Proof.
  induction l as [|x l IH]; simpl; [reflexivity|].
  destruct (p x); [discriminate|]. simpl. intros H. now rewrite IH.
Qed.

Lemma filter_kept_none {A} (p : A -> bool) l :
  filter p (filter (fun x => negb (p x)) l) = [].
Proof.
  induction l as [|x l IH]; simpl; [reflexivity|].
  destruct (p x) eqn:Hp; simpl; [exact IH|]. now rewrite Hp.
Qed.

Lemma release_nothing_owned booking_id b_id w :
  ObjectId_of_str booking_id = Some b_id ->
  filter (Store.owned_by b_id) (occupancies w) = [] ->
  release_occupancies_endpoint booking_id w = (inr 0, w).
Proof.
  intros Hid Hnone. unfold release_occupancies_endpoint, Store.delete_many.
  rewrite Hid, Hnone, (filter_none _ _ Hnone), set_occupancies_same.
  reflexivity.
Qed.

End Release.

(** C9, amended. For a booking identifier that is an ObjectId, the
    release endpoint succeeds, reports how many occupancy documents the
    booking owned and removes exactly those, leaving the other
    occupancies and the bookings as they were; a second call right
    after, and any call made when the booking owns no occupancy,
    succeeds, reports 0 and changes nothing.  An identifier that is not
    an ObjectId is rejected with status 400 and nothing is released. *)
Theorem C9_release_is_idempotent (booking_id : string) (w : World) :
  (forall b_id,
      ObjectId_of_str booking_id = Some b_id ->
      exists w1,
        release_occupancies_endpoint booking_id w
        = (inr (Z.of_nat (List.length (filter (Store.owned_by b_id) (occupancies w)))),
           w1)
        /\ (forall o, In o (occupancies w1)
                      <-> In o (occupancies w) /\ Occupancy.booking_id o <> b_id)
        /\ bookings w1 = bookings w
        /\ release_occupancies_endpoint booking_id w1 = (inr 0, w1)
        /\ (filter (Store.owned_by b_id) (occupancies w) = [] ->
            release_occupancies_endpoint booking_id w = (inr 0, w)))
  /\ (ObjectId_of_str booking_id = None ->
      release_occupancies_endpoint booking_id w
      = (inl (HTTPException 400 "Invalid booking id"), w)).
Proof.
  split.
  - intros b_id Hid.
    exists (Store.set_occupancies w
              (filter (fun o => negb (Store.owned_by b_id o)) (occupancies w))).
    split; [|split; [|split; [|split]]].
    + unfold release_occupancies_endpoint, Store.delete_many. now rewrite Hid.
    + intros o. cbn [occupancies Store.set_occupancies].
      rewrite filter_In, negb_true_iff. unfold Store.owned_by.
      now rewrite N.eqb_neq.
    + reflexivity.
    + apply (release_nothing_owned booking_id b_id); [exact Hid|].
      cbn [occupancies Store.set_occupancies]. apply filter_kept_none.
    + now apply (release_nothing_owned booking_id b_id).
  - intros Hid. unfold release_occupancies_endpoint. now rewrite Hid.
Qed.

Lemma C9_witness :
  exists w1,
    release_occupancies_endpoint "000000000000000000000001" Sample.world_after_first
    = (inr 2, w1)
    /\ release_occupancies_endpoint "000000000000000000000001" w1 = (inr 0, w1).
Proof.
  destruct (proj1 (C9_release_is_idempotent "000000000000000000000001"
                     Sample.world_after_first) 1%N)
    as (w1 & H1 & _ & _ & H2 & _).
  - reflexivity.
  - exists w1. split; [exact H1|exact H2].
Defined.

(** C9, the claim as stated fails: the identifier "abc", under which
    [get_booking] would look a booking up by its [id] field, is turned
    away by the release endpoint with status 400. *)
Lemma C9_counterexample :
  release_occupancies_endpoint "abc" Sample.world_after_first
  = (inl (HTTPException 400 "Invalid booking id"), Sample.world_after_first)
  /\ ~ (exists released w',
          release_occupancies_endpoint "abc" Sample.world_after_first
          = (inr released, w')).
Proof.
  split; [reflexivity|].
  intros (released & w' & H). vm_compute in H. discriminate H.
Qed.

(** An identifier in which whitespace stands between the pairs of digits
    is an ObjectId, of fewer than twelve bytes: it owns nothing, and the
    release succeeds. *)
Example release_of_a_spaced_identifier :
  release_occupancies_endpoint "00 00 00 00 00 00 00 00 " Sample.world_after_first
  = (inr 0, Sample.world_after_first).
Proof. vm_compute. reflexivity. Qed.

(** ** [accommodation_id] is stored as a list *)

Section Normalization.

Lemma normalize_is_list a : is_list (normalize_accommodation_id a) = true.
Proof. now destruct a. Qed.

Lemma update_first_In i u l b :
  In b (update_first i u l) ->
  In b l \/ exists b0, In b0 l /\ b = apply_set u b0.
Proof.
  induction l as [|x l IH]; simpl; [intros []|].
  destruct (Store.has_id i x); simpl.
  - intros [<-|Hb]; eauto.
  - intros [<-|Hb]; [auto|]. destruct (IH Hb) as [?|(b0 & ? & ?)]; eauto.
Qed.

Lemma create_booking_bookings env booking w r w' b :
  create_booking env booking w = (r, w') ->
  In b (bookings w') ->
  In b (bookings w)
  \/ Booking.accommodation_id b
     = normalize_accommodation_id (BookingCreateRequest.accommodation_id booking).
Proof.
  unfold create_booking.
  destruct (pre_write_checks env (initial_dict env booking)) as [e|[ci co]].
  - intros [= <- <-]. auto.
  - destruct (reserve env ci co (build_nights ci co) _) as [r1 fr] eqn:Hres.
    intros [= <- <-] Hb.
    apply reserve_effect in Hres. destruct Hres as [Hin _].
    destruct (Hin b Hb) as [Hold|[i ->]]; auto.
Qed.

Lemma update_booking_bookings fault booking_id booking w r w' b :
  update_booking fault booking_id booking w = (r, w') ->
  In b (bookings w') ->
  In b (bookings w)
  \/ exists b0,
       In b0 (bookings w)
       /\ Booking.accommodation_id b
          = match BookingUpdateRequest.accommodation_id booking with
            | Some a => normalize_accommodation_id a
            | None => Booking.accommodation_id b0
            end.
Proof.
  unfold update_booking.
  destruct (ObjectId_of_str booking_id) as [i|]; [|intros [= <- <-]; auto].
  destruct fault; [intros [= <- <-]; auto|].
  destruct (existsb (Store.has_id i) (bookings w)); [|intros [= <- <-]; auto].
  intros [= <- <-] Hb. cbn [bookings Store.set_bookings] in Hb.
  apply update_first_In in Hb. destruct Hb as [Hold|(b0 & Hb0 & ->)]; [auto|].
  right. exists b0. split; [exact Hb0|].
  cbn [apply_set Booking.accommodation_id update_data
       BookingUpdateRequest.accommodation_id].
  now destruct (BookingUpdateRequest.accommodation_id booking).
Qed.

End Normalization.

(** C10. [accommodation_id] is stored as a list: a single string is
    wrapped into a one-element list; every booking in the collection
    after [create_booking] was there before or carries the normalized
    list of the request; every booking in the collection after
    [update_booking] was there before or is an older one whose
    [accommodation_id] is the normalized list of the request (or its
    own, when the request has none); so a collection in which every
    [accommodation_id] is a list stays so under both, and under any
    history of the two. *)
Theorem C10_accommodation_id_is_stored_as_a_list :
  (forall s, normalize_accommodation_id (AccStr s) = AccList [s])
  /\ (forall env booking w r w' b,
        create_booking env booking w = (r, w') ->
        In b (bookings w') ->
        In b (bookings w)
        \/ (Booking.accommodation_id b
            = normalize_accommodation_id (BookingCreateRequest.accommodation_id booking)
            /\ is_list (Booking.accommodation_id b) = true))
  /\ (forall fault booking_id booking w r w' b a,
        update_booking fault booking_id booking w = (r, w') ->
        BookingUpdateRequest.accommodation_id booking = Some a ->
        In b (bookings w') ->
        In b (bookings w)
        \/ (Booking.accommodation_id b = normalize_accommodation_id a
            /\ is_list (Booking.accommodation_id b) = true))
  /\ (forall env booking w r w',
        stores_lists w -> create_booking env booking w = (r, w') -> stores_lists w')
  /\ (forall fault booking_id booking w r w',
        stores_lists w -> update_booking fault booking_id booking w = (r, w') ->
        stores_lists w')
  /\ (forall w qs, stores_lists w -> stores_lists (run_writes w qs)).
Proof.
  assert (Hcreate : forall env booking w r w',
             stores_lists w -> create_booking env booking w = (r, w') ->
             stores_lists w').
  { intros env booking w r w' Hw Hrun. unfold stores_lists in *.
    rewrite Forall_forall in *. intros b Hb.
    destruct (create_booking_bookings _ _ _ _ _ _ Hrun Hb) as [Hold|Hnew]; [auto|].
    rewrite Hnew. apply normalize_is_list. }
  assert (Hupdate : forall fault booking_id booking w r w',
             stores_lists w -> update_booking fault booking_id booking w = (r, w') ->
             stores_lists w').
  { intros fault booking_id booking w r w' Hw Hrun. unfold stores_lists in *.
    rewrite Forall_forall in *. intros b Hb.
    destruct (update_booking_bookings _ _ _ _ _ _ _ Hrun Hb)
      as [Hold|(b0 & Hb0 & Hnew)]; [auto|].
    rewrite Hnew.
    destruct (BookingUpdateRequest.accommodation_id booking);
      [apply normalize_is_list|auto]. }
  split; [reflexivity|]. split; [|split; [|split; [|split]]].
  - intros env booking w r w' b Hrun Hb.
    destruct (create_booking_bookings _ _ _ _ _ _ Hrun Hb) as [Hold|Hnew]; [auto|].
    right. split; [exact Hnew|]. rewrite Hnew. apply normalize_is_list.
  - intros fault booking_id booking w r w' b a Hrun Ha Hb.
    destruct (update_booking_bookings _ _ _ _ _ _ _ Hrun Hb) as [Hold|(b0 & _ & Hnew)];
      [auto|].
    rewrite Ha in Hnew. right. split; [exact Hnew|].
    rewrite Hnew. apply normalize_is_list.
  - exact Hcreate.
  - exact Hupdate.
  - intros w qs. revert w. unfold run_writes.
    induction qs as [|q qs IH]; intros w Hw; simpl; [exact Hw|].
    apply IH. destruct q as [env booking|fault booking_id booking]; simpl.
    + eapply Hcreate; [exact Hw|apply surjective_pairing].
    + eapply Hupdate; [exact Hw|apply surjective_pairing].
Qed.

Lemma C10_witness : stores_lists Sample.world_after_first.
Proof.
  refine (proj1 (proj2 (proj2 (proj2 C10_accommodation_id_is_stored_as_a_list)))
                Sample.lock_env Sample.first_request Sample.empty_world
                (inr (Some Sample.first_doc)) Sample.world_after_first _ _).
  - constructor.
  - vm_compute. reflexivity.
Defined.

(** * Properties of the rest of the code *)

(** ** Routing *)

Section Routing.

Import Router.

Lemma dispatch_single_piece s :
  s <> "" -> dispatch GET [s] = Handled Get_booking.
Proof.
  intros Hs. unfold dispatch, routes.
  cbn [dispatch_in path_matches piece_matches method_eqb andb negb].
  destruct (String.eqb_spec s ""); [contradiction|]. reflexivity.
Qed.

Ltac route_simpl :=
  cbn [dispatch_in path_matches piece_matches method_eqb andb negb].

Ltac route_cases :=
  route_simpl;
  repeat match goal with
         | |- context [String.eqb ?x ?y] =>
             destruct (String.eqb_spec x y); subst; route_simpl
         end.

Lemma dispatch_never_reaches m path :
  dispatch m path <> Handled Get_booking_by_query
  /\ dispatch m path <> Handled My_bookings.
Proof.
  split; unfold dispatch, routes;
    destruct m; destruct path as [|a [|b [|c r]]]; route_cases;
    try discriminate; congruence.
Qed.

End Routing.

(** X1. Two handlers of the bookings router are never reached: the
    routes are tried in the order of the file, and [/{booking_id}],
    declared before [/by-id] and [/me], matches both paths.  No request
    is dispatched to [get_booking_by_query] or to [my_bookings]; a GET
    of one non-empty piece, [by-id] and [me] included, goes to
    [get_booking]. *)
Theorem X1_by_id_and_me_are_shadowed (m : Router.method) (path : list string) :
  Router.dispatch m path <> Router.Handled Router.Get_booking_by_query
  /\ Router.dispatch m path <> Router.Handled Router.My_bookings
  /\ Router.dispatch Router.GET ["by-id"] = Router.Handled Router.Get_booking
  /\ Router.dispatch Router.GET ["me"] = Router.Handled Router.Get_booking
  /\ (forall s, s <> "" ->
        Router.dispatch Router.GET [s] = Router.Handled Router.Get_booking).
Proof.
  destruct (dispatch_never_reaches m path) as [H1 H2].
  split; [exact H1|]. split; [exact H2|].
  split; [reflexivity|]. split; [reflexivity|].
  apply dispatch_single_piece.
Qed.

(** ** Looking a booking up *)

(** X2. [get_booking] fails in two ways only: 404 when the fallback
    query on the [id] field finds nothing, 400 when that query raises.
    An identifier that is not an ObjectId is therefore answered 404, not
    400, and a failure of the query on [_id] is never reported. *)
Theorem X2_get_booking_errors
        (find_fault : option pyexc) (by_id_field : string -> pyexc + option Booking.doc)
        (booking_id : string) (w : World) (e : exn) :
  get_booking find_fault by_id_field booking_id w = inl e ->
  find_by_object_id find_fault booking_id w = None
  /\ (e = HTTPException 404 "Booking not found" /\ by_id_field booking_id = inr None
      \/ e = HTTPException 400 "Invalid booking id"
         /\ exists p, by_id_field booking_id = inl p).
Proof.
  unfold get_booking.
  destruct (find_by_object_id find_fault booking_id w); [discriminate|].
  destruct (by_id_field booking_id) as [p|[b|]]; intros [= <-]; eauto.
Qed.

Lemma X2_witness :
  find_by_object_id None "me" Sample.world_after_first = None
  /\ (HTTPException 404 "Booking not found" = HTTPException 404 "Booking not found"
      /\ Fixtures.no_id_field "me" = inr None
      \/ HTTPException 404 "Booking not found" = HTTPException 400 "Invalid booking id"
         /\ exists p, Fixtures.no_id_field "me" = inl p).
Proof.
  apply (X2_get_booking_errors None Fixtures.no_id_field "me" Sample.world_after_first
           (HTTPException 404 "Booking not found")).
  reflexivity.
Defined.

(** X3. For an identifier that is not empty, and as long as the
    fallback query does not raise, [get_booking_by_query] answers what
    [get_booking] answers. *)
Theorem X3_lookups_agree
        (find_fault : option pyexc) (by_id_field : string -> pyexc + option Booking.doc)
        (booking_id : string) (w : World) :
  booking_id <> "" ->
  (forall p, by_id_field booking_id <> inl p) ->
  get_booking_by_query find_fault by_id_field booking_id w
  = get_booking find_fault by_id_field booking_id w.
Proof.
  intros Hne Hok. unfold get_booking_by_query, get_booking.
  destruct (String.eqb_spec booking_id ""); [contradiction|].
  destruct (find_by_object_id find_fault booking_id w); [reflexivity|].
  destruct (by_id_field booking_id) as [p|[b|]]; try reflexivity.
  now elim (Hok p).
Qed.

Lemma X3_witness :
  get_booking_by_query None Fixtures.no_id_field Fixtures.first_id
                       Sample.world_after_first
  = get_booking None Fixtures.no_id_field Fixtures.first_id Sample.world_after_first.
Proof.
  apply (X3_lookups_agree None Fixtures.no_id_field Fixtures.first_id
           Sample.world_after_first).
  - discriminate.
  - intros p. discriminate.
Defined.

(** ** [update_booking] and [delete_booking] *)

Section UpdateProps.

Lemma update_first_length i u l :
  List.length (update_first i u l) = List.length l.
Proof.
  induction l as [|b l IH]; simpl; [reflexivity|].
  destruct (Store.has_id i b); simpl; auto.
Qed.

Lemma has_id_apply_set i u b :
  Store.has_id i (apply_set u b) = Store.has_id i b.
Proof. reflexivity. Qed.

Lemma find_update_first i u l :
  find (Store.has_id i) (update_first i u l)
  = option_map (apply_set u) (find (Store.has_id i) l).
Proof.
  induction l as [|b l IH]; simpl; [reflexivity|].
  destruct (Store.has_id i b) eqn:Hb; simpl.
  - now rewrite has_id_apply_set, Hb.
  - now rewrite Hb.
Qed.

Lemma or_keep_idem {A} (x : option A) (y : A) : or_keep x (or_keep x y) = or_keep x y.
Proof. now destruct x. Qed.

Lemma or_keep_opt_idem {A} (x y : option A) :
  or_keep_opt x (or_keep_opt x y) = or_keep_opt x y.
Proof. now destruct x. Qed.

Lemma apply_set_idem u b : apply_set u (apply_set u b) = apply_set u b.
Proof.
  unfold apply_set.
  cbn [Booking._id Booking.guest_name Booking.guest_email Booking.guest_phone
       Booking.address Booking.city Booking.postal_code Booking.country
       Booking.accommodation_id Booking.check_in Booking.check_out
       Booking.total_price Booking.payment_method Booking.guests Booking.adults
       Booking.children Booking.created_at Booking.user_id Booking.status].
  now rewrite !or_keep_idem, !or_keep_opt_idem.
Qed.

Lemma update_first_idem i u l :
  update_first i u (update_first i u l) = update_first i u l.
Proof.
  induction l as [|b l IH]; simpl; [reflexivity|].
  destruct (Store.has_id i b) eqn:Hb; simpl.
  - now rewrite has_id_apply_set, Hb, apply_set_idem.
  - now rewrite Hb, IH.
Qed.

Lemma update_data_idem booking : update_data (update_data booking) = update_data booking.
Proof.
  unfold update_data. simpl.
  destruct (BookingUpdateRequest.accommodation_id booking) as [[s|l]|]; reflexivity.
Qed.

Lemma existsb_update_first i j u l :
  existsb (Store.has_id j) (update_first i u l) = existsb (Store.has_id j) l.
Proof.
  induction l as [|b l IH]; simpl; [reflexivity|].
  destruct (Store.has_id i b); simpl; [reflexivity|now rewrite IH].
Qed.

End UpdateProps.


Lemma update_first_keeps i u l b :
  In b l -> Booking._id b <> i -> In b (update_first i u l).
Proof.
  intros Hin Hne. induction l as [|x l IH]; simpl; [destruct Hin|].
  destruct Hin as [->|Hin].
  - replace (Store.has_id i b) with false; [now left|].
    symmetry. unfold Store.has_id. now apply N.eqb_neq.
  - destruct (Store.has_id i x); simpl; auto.
Qed.

(** X4. What [update_booking] answers and does.  An identifier that is
    not an ObjectId, or an update that raises, is answered 400; an
    ObjectId no booking has, 404; both leave the world as it was.
    Otherwise the response is the booking with the fields of the body
    that are not [None] overwritten, that document is what the
    identifier now finds, the number of bookings is unchanged, the
    bookings of other identifiers stay, and [occupancies] is untouched:
    the nights of a booking whose dates change are not moved. *)
Theorem X4_update_booking_outcome
        (fault : option pyexc) (booking_id : string)
        (booking : BookingUpdateRequest.t) (w : World) :
  (ObjectId_of_str booking_id = None \/ fault <> None ->
   update_booking fault booking_id booking w
   = (inl (HTTPException 400 "Invalid booking id"), w))
  /\ (forall i, ObjectId_of_str booking_id = Some i -> fault = None ->
        find (Store.has_id i) (bookings w) = None ->
        update_booking fault booking_id booking w
        = (inl (HTTPException 404 "Booking not found"), w))
  /\ (forall i b, ObjectId_of_str booking_id = Some i -> fault = None ->
        find (Store.has_id i) (bookings w) = Some b ->
        exists w',
          update_booking fault booking_id booking w
          = (inr (Some (apply_set (update_data booking) b)), w')
          /\ find (Store.has_id i) (bookings w')
             = Some (apply_set (update_data booking) b)
          /\ List.length (bookings w') = List.length (bookings w)
          /\ (forall b', In b' (bookings w) -> Booking._id b' <> i ->
                         In b' (bookings w'))
          /\ occupancies w' = occupancies w).
Proof.
  unfold update_booking. split; [|split].
  - intros [Hid|Hfault].
    + now rewrite Hid.
    + destruct (ObjectId_of_str booking_id); [|reflexivity].
      destruct fault; [reflexivity|now elim Hfault].
  - intros i Hid -> Hfind. rewrite Hid.
    destruct (existsb (Store.has_id i) (bookings w)) eqn:Hex; [|reflexivity].
    exfalso. apply existsb_exists in Hex. destruct Hex as (x & Hx & Hhas).
    rewrite (find_none _ _ Hfind x Hx) in Hhas. discriminate.
  - intros i b Hid -> Hfind. rewrite Hid.
    assert (Hex : existsb (Store.has_id i) (bookings w) = true).
    { apply find_some in Hfind. apply existsb_exists. exists b. exact Hfind. }
    rewrite Hex. cbn [bookings occupancies Store.set_bookings].
    rewrite find_update_first, Hfind. eexists. split; [reflexivity|].
    cbn [bookings occupancies Store.set_bookings option_map].
    rewrite find_update_first, Hfind.
    split; [reflexivity|]. split; [apply update_first_length|].
    split; [|reflexivity].
    intros b' Hin Hne. now apply update_first_keeps.
Qed.

Lemma X4_witness :
  exists w',
    update_booking None Fixtures.first_id Fixtures.three_guests
                   Sample.world_after_first
    = (inr (Some (apply_set (update_data Fixtures.three_guests) Sample.first_doc)), w')
    /\ find (Store.has_id 1%N) (bookings w')
       = Some (apply_set (update_data Fixtures.three_guests) Sample.first_doc)
    /\ List.length (bookings w') = List.length (bookings Sample.world_after_first)
    /\ (forall b', In b' (bookings Sample.world_after_first) ->
                   Booking._id b' <> 1%N -> In b' (bookings w'))
    /\ occupancies w' = occupancies Sample.world_after_first.
Proof.
  apply (proj2 (proj2 (X4_update_booking_outcome None Fixtures.first_id
                         Fixtures.three_guests Sample.world_after_first))
           1%N Sample.first_doc).
  - reflexivity.
  - reflexivity.
  - reflexivity.
Defined.

(** X5. [update_booking] is idempotent: the same request sent again
    gets the same answer and leaves the world as the first one left
    it. *)
Theorem X5_update_booking_is_idempotent
        (fault : option pyexc) (booking_id : string)
        (booking : BookingUpdateRequest.t) (w w' : World)
        (r : exn + option Booking.doc) :
  update_booking fault booking_id booking w = (r, w') ->
  update_booking fault booking_id booking w' = (r, w').
Proof.
  unfold update_booking.
  destruct (ObjectId_of_str booking_id) as [i|]; [|intros [= <- <-]; reflexivity].
  destruct fault as [p|]; [intros [= <- <-]; reflexivity|].
  destruct (existsb (Store.has_id i) (bookings w)) eqn:Hex.
  - intros [= <- <-]. cbn [bookings Store.set_bookings].
    rewrite existsb_update_first, Hex, update_first_idem. reflexivity.
  - intros [= <- <-]. now rewrite Hex.
Qed.

Lemma X5_witness :
  update_booking None Fixtures.first_id Fixtures.three_guests
                 Fixtures.world_after_update
  = (fst (update_booking None Fixtures.first_id Fixtures.three_guests
            Sample.world_after_first),
     Fixtures.world_after_update).
Proof.
  apply (X5_update_booking_is_idempotent None Fixtures.first_id Fixtures.three_guests
           Sample.world_after_first).
  reflexivity.
Defined.

Section Delete.

Lemma remove_first_n_In {A} (p : A -> bool) k : forall l x,
  In x (remove_first_n p k l) -> In x l.
Proof.
  induction k as [|k IH]; intros l x; [destruct l; auto|].
  induction l as [|y l IHl]; simpl; [auto|].
  destruct (p y); simpl.
  - intros H. right. now apply IH.
  - intros [<-|H]; auto.
Qed.

Lemma remove_first_n_keeps {A} (p : A -> bool) k : forall l x,
  p x = false -> In x l -> In x (remove_first_n p k l).
Proof.
  induction k as [|k IH]; intros l x Hp; [destruct l; auto|].
  induction l as [|y l IHl]; simpl; [auto|].
  intros [<-|H].
  - rewrite Hp. now left.
  - destruct (p y); simpl; auto.
Qed.

Lemma cleanup_keeps_bookings f i w : bookings (cleanup_occupancies f i w) = bookings w.
Proof. destruct f as [[k e]|]; reflexivity. Qed.

Lemma remove_first_keeps {A} (p : A -> bool) l x :
  p x = false -> In x l -> In x (Store.remove_first p l).
Proof.
  intros Hp. induction l as [|y l IH]; simpl; [auto|].
  intros [<-|H].
  - rewrite Hp. now left.
  - destruct (p y); simpl; auto.
Qed.

Lemma remove_first_length {A} (p : A -> bool) l :
  existsb p l = true -> S (List.length (Store.remove_first p l)) = List.length l.
Proof.
  induction l as [|y l IH]; simpl; [discriminate|].
  destruct (p y); simpl; [reflexivity|]. intros H. now rewrite IH.
Qed.

End Delete.

(** X6. What [delete_booking] answers and does.  An identifier that is
    not an ObjectId is answered 400 and an ObjectId no booking has 404,
    both without effect.  When the booking is found and the delete goes
    through, the answer is the success message, exactly one booking is
    gone, every booking of another identifier stays, no occupancy is
    added, the occupancies of other bookings stay, and when the cleanup
    did not fail no occupancy of the deleted booking is left. *)
Theorem X6_delete_booking_outcome
        (find_fault : option pyexc) (cleanup_fault : option (nat * pyexc))
        (delete_fault : option pyexc) (booking_id : string) (w w' : World)
        (r : exn + string) :
  delete_booking find_fault cleanup_fault delete_fault booking_id w = (r, w') ->
  (ObjectId_of_str booking_id = None ->
   r = inl (HTTPException 400 "Invalid booking id") /\ w' = w)
  /\ (forall i, ObjectId_of_str booking_id = Some i -> find_fault = None ->
        find (Store.has_id i) (bookings w) = None ->
        r = inl (HTTPException 404 "Booking not found") /\ w' = w)
  /\ (forall i b, ObjectId_of_str booking_id = Some i -> find_fault = None ->
        find (Store.has_id i) (bookings w) = Some b -> delete_fault = None ->
        r = inr deleted_message
        /\ bookings w' = Store.remove_first (Store.has_id i) (bookings w)
        /\ S (List.length (bookings w')) = List.length (bookings w)
        /\ (forall b', In b' (bookings w) -> Booking._id b' <> i -> In b' (bookings w'))
        /\ (forall o, In o (occupancies w') -> In o (occupancies w))
        /\ (forall o, In o (occupancies w) -> Occupancy.booking_id o <> i ->
                      In o (occupancies w'))
        /\ (cleanup_fault = None ->
            forall o, In o (occupancies w') -> Occupancy.booking_id o <> i)).
Proof.
  unfold delete_booking. intros H. split; [|split].
  - intros Hid. rewrite Hid in H. injection H as <- <-. auto.
  - intros i Hid -> Hfind. rewrite Hid, Hfind in H. injection H as <- <-. auto.
  - intros i b Hid -> Hfind ->. rewrite Hid, Hfind in H.
    rewrite cleanup_keeps_bookings in H.
    assert (Hex : existsb (Store.has_id i) (bookings w) = true).
    { apply find_some in Hfind. apply existsb_exists. exists b. exact Hfind. }
    rewrite Hex in H. injection H as <- <-.
    cbn [bookings occupancies Store.set_bookings].
    rewrite ?cleanup_keeps_bookings.
    split; [reflexivity|]. split; [reflexivity|].
    split; [now apply remove_first_length|].
    split.
    { intros b' Hin Hne. apply remove_first_keeps; [|exact Hin].
      unfold Store.has_id. now apply N.eqb_neq. }
    unfold cleanup_occupancies, Store.delete_many.
    destruct cleanup_fault as [[k e]|]; cbn [snd occupancies Store.set_occupancies].
    + split; [intros o; apply remove_first_n_In|].
      split; [|discriminate].
      intros o Hin Hne. apply remove_first_n_keeps; [|exact Hin].
      unfold Store.owned_by. now apply N.eqb_neq.
    + split; [intros o Ho; apply filter_In in Ho; tauto|].
      split.
      * intros o Hin Hne. apply filter_In. split; [exact Hin|].
        unfold Store.owned_by. apply negb_true_iff. now apply N.eqb_neq.
      * intros _ o Ho. apply filter_In in Ho. destruct Ho as [_ Ho].
        unfold Store.owned_by in Ho. apply negb_true_iff in Ho. now apply N.eqb_neq.
Qed.

Lemma X6_witness :
  (ObjectId_of_str Fixtures.first_id = None ->
   @inr exn string deleted_message = inl (HTTPException 400 "Invalid booking id")
   /\ Fixtures.world_after_delete = Sample.world_after_first)
  /\ (forall i, ObjectId_of_str Fixtures.first_id = Some i -> @None pyexc = None ->
        find (Store.has_id i) (bookings Sample.world_after_first) = None ->
        @inr exn string deleted_message = inl (HTTPException 404 "Booking not found")
        /\ Fixtures.world_after_delete = Sample.world_after_first)
  /\ (forall i b, ObjectId_of_str Fixtures.first_id = Some i -> @None pyexc = None ->
        find (Store.has_id i) (bookings Sample.world_after_first) = Some b ->
        @None pyexc = None ->
        @inr exn string deleted_message = inr deleted_message
        /\ bookings Fixtures.world_after_delete
           = Store.remove_first (Store.has_id i) (bookings Sample.world_after_first)
        /\ S (List.length (bookings Fixtures.world_after_delete))
           = List.length (bookings Sample.world_after_first)
        /\ (forall b', In b' (bookings Sample.world_after_first) ->
                       Booking._id b' <> i -> In b' (bookings Fixtures.world_after_delete))
        /\ (forall o, In o (occupancies Fixtures.world_after_delete) ->
                      In o (occupancies Sample.world_after_first))
        /\ (forall o, In o (occupancies Sample.world_after_first) ->
                      Occupancy.booking_id o <> i ->
                      In o (occupancies Fixtures.world_after_delete))
        /\ (@None (nat * pyexc) = None ->
            forall o, In o (occupancies Fixtures.world_after_delete) ->
                      Occupancy.booking_id o <> i)).
Proof.
  apply (X6_delete_booking_outcome None None None Fixtures.first_id
           Sample.world_after_first Fixtures.world_after_delete (inr deleted_message)).
  reflexivity.
Defined.

(** ** What [create_booking] leaves in the collections *)

Section Appends.

Lemma remove_first_fresh {A} (p : A -> bool) l x :
  existsb p l = false -> p x = true -> Store.remove_first p (l ++ [x]) = l.
Proof.
  intros Hl Hx. induction l as [|y l IH]; simpl in *.
  - now rewrite Hx.
  - apply orb_false_iff in Hl. destruct Hl as [-> Hl]. now rewrite IH.
Qed.

Lemma appended_at_most_refl d w : appended_at_most d w w.
Proof. now left. Qed.

Ltac grown :=
  first [ exists []; now rewrite app_nil_r | eexists; reflexivity ].

Ltac at_most :=
  first [ left; reflexivity
        | left; apply remove_first_fresh; auto using has_id_to_doc
        | right; eexists; split; [eassumption|reflexivity] ].

Lemma critical_section_appends env ci co nights fr r fr' :
  critical_section env ci co nights fr = (r, fr') ->
  (exists l, occupancies (world fr') = occupancies (world fr) ++ l)
  /\ appended_at_most (booking_dict fr) (world fr) (world fr')
  /\ published (world fr') = published (world fr)
  /\ match r with
     | inr created => fresh_response (booking_dict fr) (world fr) created
     | inl (HTTPException c dt) =>
         HTTPException c dt = already_booked
         /\ bookings (world fr') = bookings (world fr)
     | inl (Raised _) => True
     end.
Proof.
  intros H. unfold fresh_response, appended_at_most. mrun H.
  all: injection H as <- <-; wsimpl.
  all: split; [grown|]; split; [at_most|]; split; [reflexivity|].
  all: try exact I.
  all: try (split; [reflexivity|]; first [reflexivity | apply remove_first_fresh; auto using has_id_to_doc]).
  all: eexists; split; [try f_equal; apply find_fresh; auto using has_id_to_doc|]; assumption.
Qed.


Lemma same_fields_fresh d d' w created :
  same_fields d d' -> fresh_response d' w created -> fresh_response d w created.
Proof. intros Hs (i & -> & Hf). exists i. now rewrite (Hs i). Qed.

Lemma same_fields_appended d d' w w' :
  same_fields d d' -> appended_at_most d' w w' -> appended_at_most d w w'.
Proof.
  intros Hs [H|(i & Hf & H)]; [now left|right].
  exists i. now rewrite <- (Hs i).
Qed.

Lemma wrote_reservation_appended env nights d w w' i :
  existsb (Store.has_id i) (bookings w) = false ->
  wrote_reservation env nights d w w' i ->
  (exists l, occupancies w' = occupancies w ++ l) /\ appended_at_most d w w'.
Proof.
  intros Hf (Hb & n & Ho). split; [eauto|]. right. eauto.
Qed.

Lemma wrote_nothing_appended d w w' :
  wrote_nothing w w' ->
  (exists l, occupancies w' = occupancies w ++ l) /\ appended_at_most d w w'.
Proof.
  intros (Hb & Ho). split; [exists []; now rewrite app_nil_r|now left].
Qed.

Lemma lock_guarded_path_appends env ci co nights fr r fr' :
  lock_guarded_path env ci co nights fr = (r, fr') ->
  (exists l, occupancies (world fr') = occupancies (world fr) ++ l)
  /\ appended_at_most (booking_dict fr) (world fr) (world fr')
  /\ match r with
     | inr created => fresh_response (booking_dict fr) (world fr) created
     | inl (HTTPException c dt) =>
         ConflictError (HTTPException c dt)
         /\ bookings (world fr') = bookings (world fr)
     | inl (Raised _) => True
     end.
Proof.
  intros H. unfold lock_guarded_path, call_acquire_lock in H. mcore H.
  destruct (acquire_lock env _ (uuid4_hex env) ttl_seconds timeout)
    as [p|lock_owner]; mcore H.
  - injection H as <- <-. wsimpl.
    split; [grown|]. split; [now left|exact I].
  - destruct (falsy_owner lock_owner); mcore H.
    + injection H as <- <-. wsimpl.
      split; [grown|]. split; [now left|]. split; reflexivity.
    + destruct (critical_section _ _ _ _ _) as [r1 fr1] eqn:Hcs in H.
      rewrite release_quietly_effect in H. injection H as <- <-.
      apply critical_section_appends in Hcs.
      destruct Hcs as (Ho & Hb & _ & Hr). wsimpl.
      split; [exact Ho|]. split; [exact Hb|].
      destruct r1 as [[c dt| p]|created]; auto.
      destruct Hr as [-> Hr]. split; [reflexivity|exact Hr].
Qed.

(** The transaction either wrote the reservation under a fresh
    identifier or wrote nothing. *)
Lemma transaction_block_fresh env nights fr created fr' :
  transaction_block env nights fr = (inr created, fr') ->
  fresh_response (booking_dict fr) (world fr) created.
Proof.
  intros H. unfold fresh_response. mrun H.
  all: injection H as <- <-; wsimpl.
  all: eexists; split; [try f_equal; apply find_fresh; auto using has_id_to_doc|]; assumption.
Qed.

Lemma select_path_fresh env nights fr b fr' :
  select_path env nights fr = (inr (Some b), fr') ->
  fresh_response (booking_dict fr) (world fr) (Some b).
Proof.
  unfold select_path.
  destruct (db_client env) as [client|]; [|discriminate].
  destruct (has_start_session client); [|discriminate].
  unfold transactional_path, try_except.
  destruct (transaction_block env nights fr) as [[e|c] fr0] eqn:Hblock.
  - destruct e as [? ?|[| |]]; discriminate.
  - intros [= -> <-]. now apply transaction_block_fresh in Hblock.
Qed.

Lemma fresh_wrote_reservation env nights d w w' created i :
  fresh_response d w created -> created = Some (Store.to_doc d i) ->
  wrote_reservation env nights d w w' i ->
  (exists l, occupancies w' = occupancies w ++ l) /\ appended_at_most d w w'.
Proof.
  intros (j & Hj & Hf) Hc Hw. apply wrote_reservation_appended with (env := env) (nights := nights) (i := i); [|exact Hw].
  rewrite Hc in Hj.
  assert (i = j)
    by (apply (f_equal (option_map Booking._id)) in Hj; cbn in Hj; congruence).
  now subst j.
Qed.

Lemma reserve_appends env ci co nights fr r fr' :
  reserve env ci co nights fr = (r, fr') ->
  (exists l, occupancies (world fr') = occupancies (world fr) ++ l)
  /\ appended_at_most (booking_dict fr) (world fr) (world fr')
  /\ match r with
     | inr created => fresh_response (booking_dict fr) (world fr) created
     | inl (HTTPException c dt) =>
         ConflictError (HTTPException c dt)
         /\ bookings (world fr') = bookings (world fr)
     | inl (Raised _) => True
     end.
Proof.
  rewrite reserve_select.
  destruct (select_path env nights fr) as [[e|[b|]] fr1] eqn:Hsel.
  - apply select_path_effect in Hsel. destruct Hsel as (_ & _ & -> & Hw).
    intros [= <- <-].
    destruct (wrote_nothing_appended (booking_dict fr) _ _ Hw) as [Ho Hb].
    split; [exact Ho|]. split; [exact Hb|]. split; [reflexivity|apply Hw].
  - pose proof (select_path_fresh _ _ _ _ _ Hsel) as Hfresh.
    apply select_path_effect in Hsel. destruct Hsel as (_ & _ & i & Hb & Hw).
    destruct (notify_effect env (Some b) fr1) as (w2 & -> & Hn & _).
    intros [= <- <-]. cbn [world].
    pose proof (wrote_reservation_after _ _ _ _ _ _ _ Hw Hn) as Hw'.
    destruct (fresh_wrote_reservation _ _ _ _ _ _ _ Hfresh (f_equal Some Hb) Hw')
      as [Ho Hbk].
    auto.
  - apply select_path_effect in Hsel. destruct Hsel as (_ & Hsame & Hwn).
    rewrite fallback_lock.
    destruct (lock_guarded_path env ci co nights fr1) as [[e|created] fr2] eqn:Hlock;
      apply lock_guarded_path_appends in Hlock; destruct Hlock as (Ho & Hb & Hr).
    + intros [= <- <-]. destruct Hwn as [Hbk Hoc].
      rewrite Hoc in Ho. split; [exact Ho|].
      split.
      * apply (same_fields_appended _ _ _ _ Hsame).
        unfold appended_at_most in *. now rewrite Hbk in Hb.
      * destruct e as [c dt|p]; [|exact I]. now rewrite <- Hbk.
    + destruct (notify_effect env created fr2) as (w3 & -> & (Hnb & Hno) & _).
      intros [= <- <-]. cbn [world]. destruct Hwn as [Hbk Hoc].
      rewrite Hoc in Ho. rewrite Hno. split; [exact Ho|].
      split.
      * apply (same_fields_appended _ _ _ _ Hsame).
        unfold appended_at_most in *. now rewrite Hnb, <- Hbk.
      * apply (same_fields_fresh _ _ _ _ Hsame).
        unfold fresh_response in *. now rewrite <- Hbk.
Qed.

End Appends.


Section CreateBooking.

(** A successful [create_booking]: what it returns and what it wrote. *)
Lemma create_booking_success env booking w created w' :
  create_booking env booking w = (inr created, w') ->
  exists ci co i,
    pre_write_checks env (initial_dict env booking) = inr (ci, co)
    /\ created = Some (Store.to_doc (initial_dict env booking) i)
    /\ existsb (Store.has_id i) (bookings w) = false
    /\ wrote_reservation env (build_nights ci co) (initial_dict env booking) w w' i.
Proof.
  unfold create_booking.
  destruct (pre_write_checks env (initial_dict env booking)) as [e|[ci co]] eqn:Hpre;
    [discriminate|].
  destruct (reserve env ci co (build_nights ci co) _) as [r fr] eqn:Hres.
  intros [= -> <-]. exists ci, co.
  pose proof (reserve_effect env _ _ _ _ _ _ Hres) as (_ & i & Hc & Hw).
  pose proof (reserve_appends env _ _ _ _ _ _ Hres) as (_ & _ & j & Hj & Hfresh).
  cbn [world booking_dict] in *.
  exists i. split; [reflexivity|]. split; [exact Hc|]. split; [|exact Hw].
  rewrite Hc in Hj.
  assert (i = j)
    by (apply (f_equal (option_map Booking._id)) in Hj; cbn in Hj; congruence).
  now subst j.
Qed.

Lemma create_booking_appends env booking w r w' :
  create_booking env booking w = (r, w') ->
  (exists l, occupancies w' = occupancies w ++ l)
  /\ appended_at_most (initial_dict env booking) w w'
  /\ match r with
     | inl (HTTPException c dt) =>
         bookings w' = bookings w /\ (c = 400 /\ w' = w \/ c = 409)
     | _ => True
     end.
Proof.
  unfold create_booking.
  destruct (pre_write_checks env (initial_dict env booking)) as [e|[ci co]] eqn:Hpre.
  - intros [= <- <-]. split; [exists []; now rewrite app_nil_r|].
    split; [now left|].
    apply pre_write_checks_error in Hpre. destruct e as [c dt|p]; [|exact I].
    split; [reflexivity|]. left. split; [|reflexivity].
    unfold ValidationError in Hpre. cbn in Hpre. congruence.
  - destruct (reserve env ci co (build_nights ci co) _) as [r0 fr] eqn:Hres.
    intros [= <- <-].
    apply reserve_appends in Hres. cbn [world booking_dict] in Hres.
    destruct Hres as (Ho & Hb & Hr).
    split; [exact Ho|]. split; [exact Hb|].
    destruct r0 as [[c dt|p]|created]; auto.
    destruct Hr as [Hc Hbk]. split; [exact Hbk|]. right.
    unfold ConflictError in Hc. cbn in Hc. congruence.
Qed.

Lemma notify_published env out fr :
  notify env out fr
  = (inr tt, {| world := match out, publish_fault env with
                         | Some o, None => Store.log_event (world fr) (created_event o)
                         | _, _ => world fr
                         end;
                booking_dict := booking_dict fr |}).
Proof.
  unfold notify, created_event.
  cbv beta iota zeta delta [try_except bind ret raise faulty get_world put_world].
  destruct fr as [w d]. cbn [world booking_dict].
  destruct out as [o|]; [destruct (publish_fault env)|]; reflexivity.
Qed.

Lemma reserve_published env ci co nights fr r fr' :
  reserve env ci co nights fr = (r, fr') ->
  published (world fr')
  = published (world fr)
    ++ match r, publish_fault env with
       | inr (Some b), None => [created_event b]
       | _, _ => []
       end.
Proof.
  rewrite reserve_select.
  destruct (select_path env nights fr) as [[e|[b|]] fr1] eqn:Hsel;
    apply select_path_effect in Hsel; destruct Hsel as ((_ & Hp) & _ & _).
  - intros [= <- <-]. now rewrite app_nil_r.
  - rewrite notify_published. intros [= <- <-]. cbn [world].
    destruct (publish_fault env); cbn [published Store.log_event]; rewrite Hp;
      [now rewrite app_nil_r|reflexivity].
  - rewrite fallback_lock.
    destruct (lock_guarded_path env ci co nights fr1) as [[e|created] fr2] eqn:Hlock.
    + intros [= <- <-]. apply lock_guarded_path_effect in Hlock.
      destruct Hlock as (Hq & _). now rewrite Hq, Hp, app_nil_r.
    + rewrite notify_published. intros [= <- <-]. cbn [world].
      pose proof (lock_guarded_path_success _ _ _ _ _ _ _ Hlock) as (i & -> & _).
      apply lock_guarded_path_effect in Hlock. destruct Hlock as (Hq & _).
      destruct (publish_fault env); cbn [published Store.log_event]; rewrite Hq, Hp;
        [now rewrite app_nil_r|reflexivity].
Qed.

End CreateBooking.

(** X7. Whatever its outcome, [create_booking] only appends: the
    documents of [occupancies] that were there stay, in place, and
    [bookings] is what it was or that with the one document of the
    request added under an identifier no booking had. *)
Theorem X7_create_booking_only_appends
        (env : Env) (booking : BookingCreateRequest.t) (w w' : World)
        (r : exn + option Booking.doc) :
  create_booking env booking w = (r, w') ->
  (exists l, occupancies w' = occupancies w ++ l)
  /\ appended_at_most (initial_dict env booking) w w'.
Proof.
  intros H. apply create_booking_appends in H. tauto.
Qed.

Lemma X7_witness :
  (exists l, occupancies Sample.world_after_first
             = occupancies Sample.empty_world ++ l)
  /\ appended_at_most (initial_dict Sample.lock_env Sample.first_request)
                      Sample.empty_world Sample.world_after_first.
Proof.
  apply (X7_create_booking_only_appends Sample.lock_env Sample.first_request
           Sample.empty_world Sample.world_after_first (inr (Some Sample.first_doc))).
  vm_compute. reflexivity.
Defined.


(** X8. When [create_booking] answers with an HTTP error, [bookings]
    is what the request found; the status is 400, and then nothing at
    all changed, or 409. *)
Theorem X8_http_error_leaves_no_booking
        (env : Env) (booking : BookingCreateRequest.t) (w w' : World)
        (c : Z) (dt : string) :
  create_booking env booking w = (inl (HTTPException c dt), w') ->
  bookings w' = bookings w /\ (c = 400 /\ w' = w \/ c = 409).
Proof.
  intros H. apply create_booking_appends in H. apply H.
Qed.

Lemma X8_witness :
  let w' := snd (create_booking Sample.busy_env Sample.first_request
                   Sample.world_after_first) in
  bookings w' = bookings Sample.world_after_first
  /\ (409 = 400 /\ w' = Sample.world_after_first \/ 409 = 409).
Proof.
  cbv zeta.
  apply (X8_http_error_leaves_no_booking Sample.busy_env Sample.first_request
           Sample.world_after_first _ 409 "Accommodation is busy; try again").
  vm_compute. reflexivity.
Defined.


(** X9. [create_booking] publishes one event, for the booking it
    returns, and only when it returns one: an error response publishes
    nothing, and when [publish_event] raises nothing is published,
    whatever the response. *)
Theorem X9_event_only_for_created_booking
        (env : Env) (booking : BookingCreateRequest.t) (w w' : World)
        (r : exn + option Booking.doc) :
  create_booking env booking w = (r, w') ->
  published w'
  = published w
    ++ match r, publish_fault env with
       | inr (Some b), None => [created_event b]
       | _, _ => []
       end.
Proof.
  unfold create_booking.
  destruct (pre_write_checks env (initial_dict env booking)) as [e|[ci co]].
  - intros [= <- <-]. now rewrite app_nil_r.
  - destruct (reserve env ci co (build_nights ci co) _) as [r0 fr] eqn:Hres.
    intros [= <- <-]. now apply reserve_published in Hres.
Qed.

Lemma X9_witness :
  published Sample.world_after_first
  = published Sample.empty_world ++ [created_event Sample.first_doc].
Proof.
  apply (X9_event_only_for_created_booking Sample.lock_env Sample.first_request
           Sample.empty_world Sample.world_after_first (inr (Some Sample.first_doc))).
  vm_compute. reflexivity.
Defined.


Section Success.

Lemma with_ids_nil n : Store.with_ids n [] = [].
Proof. reflexivity. Qed.

Lemma transaction_block_goes_through env nights fr :
  transaction_goes_through env ->
  Dict._id (booking_dict fr) = None ->
  next_oid_unused (world fr) ->
  let d := booking_dict fr in
  let i := next_oid (world fr) in
  exists fr',
    transaction_block env nights fr = (inr (Some (Store.to_doc d i)), fr')
    /\ booking_dict fr' = Dict.set_id d i
    /\ bookings (world fr') = bookings (world fr) ++ [Store.to_doc d i]
    /\ occupancies (world fr')
       = occupancies (world fr)
         ++ Store.with_ids (N.succ i) (occ_docs_of env d i nights)
    /\ quiet (world fr) (world fr').
Proof.
  intros (H1 & H2 & H3 & H4 & H5) Hid Hfresh. cbv zeta.
  unfold next_oid_unused in Hfresh.
  destruct (transaction_block env nights fr) as [r fr'] eqn:H.
  msimpl H. rewrite H1, H2, H4, H5, Hid in H. msimpl H. wsimpl.
  rewrite Hfresh in H. msimpl H.
  rewrite H3 in H. cbn [option_map] in H.
  rewrite occ_docs_of_set_id in H.
  destruct (occ_docs_of env (booking_dict fr) (next_oid (world fr)) nights) eqn:Hocc;
    msimpl H; wsimpl.
  all: rewrite find_fresh in H by auto using has_id_to_doc.
  all: injection H as <- <-; eexists; split; [reflexivity|]; wsimpl.
  all: unfold quiet; wsimpl; rewrite ?app_nil_r; auto.
Qed.


Lemma critical_section_goes_through env ci co nights fr :
  lock_path_goes_through env ->
  Dict._id (booking_dict fr) = None ->
  next_oid_unused (world fr) ->
  find (overlap_filter (Dict.accommodation_id (booking_dict fr)) ci co)
       (bookings (world fr)) = None ->
  let d := booking_dict fr in
  let i := next_oid (world fr) in
  exists fr',
    critical_section env ci co nights fr = (inr (Some (Store.to_doc d i)), fr')
    /\ booking_dict fr' = Dict.set_id d i
    /\ bookings (world fr') = bookings (world fr) ++ [Store.to_doc d i]
    /\ occupancies (world fr')
       = occupancies (world fr)
         ++ Store.with_ids (N.succ i) (occ_docs_of env d i nights)
    /\ quiet (world fr) (world fr').
Proof.
  intros (H1 & H2 & H3 & H4) Hid Hfresh Hnone. cbv zeta.
  unfold next_oid_unused in Hfresh.
  destruct (critical_section env ci co nights fr) as [r fr'] eqn:H.
  msimpl H. rewrite H1 in H. msimpl H. rewrite Hnone in H. msimpl H.
  rewrite H2, H4, Hid in H. msimpl H. wsimpl.
  rewrite Hfresh in H. msimpl H.
  rewrite H3 in H.
  rewrite occ_docs_of_set_id in H.
  destruct (occ_docs_of env (booking_dict fr) (next_oid (world fr)) nights) eqn:Hocc;
    msimpl H; wsimpl.
  all: rewrite find_fresh in H by auto using has_id_to_doc.
  all: injection H as <- <-; eexists; split; [reflexivity|]; wsimpl.
  all: unfold quiet; wsimpl; rewrite ?app_nil_r; auto.
Qed.

Lemma falsy_owner_token owner : owner <> "" -> falsy_owner (Some owner) = false.
Proof. intros H. cbn. now apply String.eqb_neq. Qed.

Lemma select_path_no_sessions env nights fr :
  no_sessions env = true -> select_path env nights fr = (inr None, fr).
Proof.
  unfold no_sessions, select_path.
  destruct (db_client env) as [client|]; [|reflexivity].
  destruct (has_start_session client); [discriminate|reflexivity].
Qed.

Lemma initial_dict_id env booking : Dict._id (initial_dict env booking) = None.
Proof. reflexivity. Qed.

End Success.

(** X10. With a client that has sessions and a driver that raises
    nowhere, a request that passes the checks is booked inside the
    transaction: the response is the stored document, the booking and
    one occupancy per night are appended, and the lock manager is not
    called. *)
Theorem X10_transaction_books_without_lock
        (env : Env) (booking : BookingCreateRequest.t) (w : World)
        (check_in_dt check_out_dt : Z) (client : Client) :
  db_client env = Some client ->
  has_start_session client = true ->
  transaction_goes_through env ->
  pre_write_checks env (initial_dict env booking) = inr (check_in_dt, check_out_dt) ->
  next_oid_unused w ->
  exists w',
    create_booking env booking w
    = (inr (Some (Store.to_doc (initial_dict env booking) (next_oid w))), w')
    /\ bookings w' = bookings w ++ [Store.to_doc (initial_dict env booking) (next_oid w)]
    /\ occupancies w'
       = occupancies w
         ++ Store.with_ids (N.succ (next_oid w))
              (occ_docs_of env (initial_dict env booking) (next_oid w)
                 (build_nights check_in_dt check_out_dt))
    /\ lock_calls w' = lock_calls w.
Proof.
  intros Hc Hs Htxn Hpre Hfresh.
  unfold create_booking. rewrite Hpre, reserve_select.
  unfold select_path. rewrite Hc, Hs. unfold transactional_path, try_except.
  destruct (transaction_block_goes_through env (build_nights check_in_dt check_out_dt)
              {| world := w; booking_dict := initial_dict env booking |}
              Htxn (initial_dict_id env booking) Hfresh)
    as (fr' & -> & _ & Hb & Ho & Hl & _).
  cbn [world booking_dict] in *.
  rewrite notify_published. eexists. split; [reflexivity|].
  cbn [world].
  destruct (publish_fault env); cbn [bookings occupancies lock_calls Store.log_event];
    auto.
Qed.

Lemma X10_witness :
  exists w',
    create_booking (Sample.txn_env None) Sample.first_request Sample.empty_world
    = (inr (Some Sample.first_doc), w')
    /\ lock_calls w' = lock_calls Sample.empty_world.
Proof.
  destruct (X10_transaction_books_without_lock (Sample.txn_env None)
              Sample.first_request Sample.empty_world 738946 738948
              {| has_start_session := true |})
    as (w' & Hrun & _ & _ & Hlocks).
  - reflexivity.
  - reflexivity.
  - repeat split; reflexivity.
  - vm_compute. reflexivity.
  - reflexivity.
  - exists w'. split; [exact Hrun|exact Hlocks].
Defined.


(** X11. Without sessions, with the lock granted, no overlap found and
    a driver that raises nowhere, a request that passes the checks is
    booked under the lock: the response is the stored document, the
    booking and one occupancy per night are appended, and the lock is
    acquired once and released once, under the owner it was granted
    to. *)
Theorem X11_lock_guarded_path_books
        (env : Env) (booking : BookingCreateRequest.t) (w : World)
        (check_in_dt check_out_dt : Z) (owner : string) :
  let d := initial_dict env booking in
  let key := lock_key_of d check_in_dt check_out_dt in
  no_sessions env = true ->
  lock_path_goes_through env ->
  pre_write_checks env d = inr (check_in_dt, check_out_dt) ->
  acquire_lock env key (uuid4_hex env) 30 5%float = inr (Some owner) ->
  owner <> "" ->
  find (overlap_filter (Dict.accommodation_id d) check_in_dt check_out_dt) (bookings w)
  = None ->
  next_oid_unused w ->
  exists w',
    create_booking env booking w = (inr (Some (Store.to_doc d (next_oid w))), w')
    /\ bookings w' = bookings w ++ [Store.to_doc d (next_oid w)]
    /\ occupancies w'
       = occupancies w
         ++ Store.with_ids (N.succ (next_oid w))
              (occ_docs_of env d (next_oid w) (build_nights check_in_dt check_out_dt))
    /\ lock_calls w'
       = lock_calls w ++ [AcquireLock key (uuid4_hex env) 30 5%float;
                          ReleaseLock key owner].
Proof.
  cbv zeta. intros Hns Hgo Hpre Hacq Howner Hnone Hfresh.
  unfold create_booking. rewrite Hpre, reserve_select.
  rewrite (select_path_no_sessions env _ _ Hns), fallback_lock.
  unfold lock_guarded_path, call_acquire_lock.
  change ttl_seconds with 30. change timeout with 5%float.
  cbv beta iota zeta delta [bind get_dict get_world put_world ret raise try_finally].
  cbn [world booking_dict fst snd]. rewrite Hacq.
  cbv beta iota zeta delta [bind get_dict get_world put_world ret raise try_finally].
  rewrite (falsy_owner_token owner Howner).
  destruct (critical_section_goes_through env check_in_dt check_out_dt
              (build_nights check_in_dt check_out_dt)
              {| world := Store.log_lock_call w
                            (AcquireLock (lock_key_of (initial_dict env booking)
                                            check_in_dt check_out_dt)
                                         (uuid4_hex env) 30 5%float);
                 booking_dict := initial_dict env booking |}
              Hgo (initial_dict_id env booking) Hfresh Hnone)
    as (fr' & Hcs & Hd & Hb & Ho & Hl & _).
  cbn [world booking_dict bookings occupancies lock_calls next_oid
       Store.log_lock_call] in Hcs, Hd, Hb, Ho, Hl.
  cbn [world booking_dict]. rewrite Hcs, release_quietly_effect, notify_published.
  eexists. split; [reflexivity|]. cbn [world owner_token].
  destruct (publish_fault env);
    cbn [bookings occupancies lock_calls Store.log_event Store.log_lock_call];
    rewrite Hl, <- app_assoc; auto.
Qed.

Lemma X11_witness :
  exists w',
    create_booking Sample.lock_env Sample.first_request Sample.empty_world
    = (inr (Some Sample.first_doc), w')
    /\ List.length (lock_calls w') = 2%nat.
Proof.
  destruct (X11_lock_guarded_path_books Sample.lock_env Sample.first_request
              Sample.empty_world 738946 738948 "0f8fad5bd9cb469fa16570867728950e")
    as (w' & Hrun & _ & _ & Hlocks).
  - reflexivity.
  - repeat split; reflexivity.
  - vm_compute. reflexivity.
  - reflexivity.
  - discriminate.
  - reflexivity.
  - reflexivity.
  - exists w'. split; [exact Hrun|]. rewrite Hlocks. reflexivity.
Defined.



(** X12. Against a booking whose dates are stored as dates, the
    re-check works: without sessions and with the lock granted, a
    request for the same accommodation list whose half-open interval
    meets that of a booking not cancelled is refused with the 409
    "already booked", nothing is written, and the lock is released. *)
Theorem X12_overlap_with_dated_booking_is_refused
        (env : Env) (booking : BookingCreateRequest.t) (w : World)
        (check_in_dt check_out_dt : Z) (owner : string)
        (b : Booking.doc) (existing_in existing_out : Z) :
  let d := initial_dict env booking in
  let key := lock_key_of d check_in_dt check_out_dt in
  no_sessions env = true ->
  overlap_find_one_fault env = None ->
  pre_write_checks env d = inr (check_in_dt, check_out_dt) ->
  acquire_lock env key (uuid4_hex env) 30 5%float = inr (Some owner) ->
  owner <> "" ->
  In b (bookings w) ->
  Booking.accommodation_id b = Dict.accommodation_id d ->
  Booking.status b <> Some "cancelled" ->
  Booking.check_in b = VDate existing_in ->
  Booking.check_out b = VDate existing_out ->
  existing_in < check_out_dt -> check_in_dt < existing_out ->
  create_booking env booking w
  = (inl already_booked,
     Store.log_lock_call
       (Store.log_lock_call w (AcquireLock key (uuid4_hex env) 30 5%float))
       (ReleaseLock key owner)).
Proof.
  cbv zeta. intros Hns Hfault Hpre Hacq Howner Hin Hacc Hst Hci Hco Hlt1 Hlt2.
  assert (Hfound : exists b',
             find (overlap_filter (Dict.accommodation_id (initial_dict env booking))
                     check_in_dt check_out_dt) (bookings w) = Some b').
  { destruct (find _ (bookings w)) as [b'|] eqn:Hfind; [eauto|].
    pose proof (find_none _ _ Hfind b Hin) as Hno.
    assert (Hyes : overlap_filter (Dict.accommodation_id (initial_dict env booking))
                     check_in_dt check_out_dt b = true).
    { apply (overlap_filter_on_dates _ _ _ _ _ _ Hci Hco). repeat split; auto; lia. }
    congruence. }
  destruct Hfound as [b' Hfound].
  unfold create_booking. rewrite Hpre, reserve_select.
  rewrite (select_path_no_sessions env _ _ Hns), fallback_lock.
  unfold lock_guarded_path, call_acquire_lock.
  change ttl_seconds with 30. change timeout with 5%float.
  cbv beta iota zeta delta [bind get_dict get_world put_world ret raise try_finally].
  cbn [world booking_dict fst snd]. rewrite Hacq.
  cbv beta iota zeta delta [bind get_dict get_world put_world ret raise try_finally].
  rewrite (falsy_owner_token owner Howner).
  rewrite (critical_section_overlap env check_in_dt check_out_dt
             (build_nights check_in_dt check_out_dt)
             {| world := Store.log_lock_call w
                           (AcquireLock (lock_key_of (initial_dict env booking)
                                           check_in_dt check_out_dt)
                                        (uuid4_hex env) 30 5%float);
                booking_dict := initial_dict env booking |} b' Hfault Hfound).
  rewrite release_quietly_effect. reflexivity.
Qed.

Lemma X12_witness :
  fst (create_booking Sample.lock_env Sample.second_request Fixtures.dated_world)
  = inl already_booked
  /\ bookings (snd (create_booking Sample.lock_env Sample.second_request
                      Fixtures.dated_world))
     = [Fixtures.dated_doc].
Proof.
  rewrite (X12_overlap_with_dated_booking_is_refused Sample.lock_env
             Sample.second_request Fixtures.dated_world 738947 738949
             "0f8fad5bd9cb469fa16570867728950e" Fixtures.dated_doc 738946 738948).
  - split; reflexivity.
  - reflexivity.
  - reflexivity.
  - vm_compute. reflexivity.
  - reflexivity.
  - discriminate.
  - simpl. auto.
  - reflexivity.
  - discriminate.
  - reflexivity.
  - reflexivity.
  - lia.
  - lia.
Defined.

(** ** From one endpoint to the next *)

Section RoundTrips.

Lemma ObjectId_of_str_nonempty s i : ObjectId_of_str s = Some i -> s <> "".
Proof. intros H ->. discriminate H. Qed.

Lemma created_is_stored env booking w b w' :
  create_booking env booking w = (inr (Some b), w') ->
  bookings w' = bookings w ++ [b]
  /\ existsb (Store.has_id (Booking._id b)) (bookings w) = false
  /\ find (Store.has_id (Booking._id b)) (bookings w') = Some b
  /\ b = Store.to_doc (initial_dict env booking) (Booking._id b).
Proof.
  intros H. apply create_booking_success in H.
  destruct H as (ci & co & i & _ & [= ->] & Hfresh & Hb & _).
  cbn [Booking._id Store.to_doc]. split; [exact Hb|]. split; [exact Hfresh|].
  split; [|reflexivity].
  rewrite Hb. apply find_fresh; [exact Hfresh|apply has_id_to_doc].
Qed.

Lemma with_ids_length n docs : List.length (Store.with_ids n docs) = List.length docs.
Proof. revert n. induction docs as [|f r IH]; intros n; simpl; auto. Qed.

Lemma occ_docs_from_length k acc i stamp nights :
  List.length (occ_docs_from k acc i stamp nights) = List.length nights.
Proof. revert k. induction nights as [|nd r IH]; intros k; simpl; auto. Qed.

Lemma filter_all {A} (p : A -> bool) l :
  Forall (fun x => p x = true) l -> filter p l = l.
Proof.
  induction 1 as [|x l Hx Hl IH]; simpl; [reflexivity|]. now rewrite Hx, IH.
Qed.

Lemma filter_nothing {A} (p : A -> bool) l :
  Forall (fun x => p x = false) l -> filter p l = [].
Proof.
  induction 1 as [|x l Hx Hl IH]; simpl; [reflexivity|]. now rewrite Hx.
Qed.

Lemma owns_nothing_filter i w :
  owns_nothing i w ->
  Forall (fun o => Store.owned_by i o = false) (occupancies w).
Proof.
  intros H. apply Forall_forall. intros o Ho.
  unfold Store.owned_by. apply N.eqb_neq. now apply H.
Qed.

Lemma with_ids_owned env d i nights n :
  Forall (fun o => Store.owned_by i o = true)
         (Store.with_ids n (occ_docs_of env d i nights)).
Proof.
  unfold occ_docs_of.
  eapply Forall_impl; [|apply with_ids_owner].
  intros o [Ho _]. unfold Store.owned_by. now apply N.eqb_eq.
Qed.

(** The occupancies of a world after the reservation of [i], split by
    owner. *)
Lemma reservation_occupancies env nights d w w' i :
  wrote_reservation env nights d w w' i -> owns_nothing i w ->
  List.length (filter (Store.owned_by i) (occupancies w')) = List.length nights
  /\ filter (fun o => negb (Store.owned_by i o)) (occupancies w') = occupancies w.
Proof.
  intros (_ & n & Ho) Hown. rewrite Ho, !filter_app.
  pose proof (owns_nothing_filter _ _ Hown) as Hnot.
  pose proof (with_ids_owned env d i nights n) as Hyes.
  rewrite (filter_nothing _ _ Hnot), (filter_all _ _ Hyes). cbn [app].
  split.
  - unfold occ_docs_of. now rewrite with_ids_length, occ_docs_from_length.
  - rewrite (filter_all (fun o => negb (Store.owned_by i o)) (occupancies w)).
    + rewrite filter_nothing; [apply app_nil_r|].
      eapply Forall_impl; [|exact Hyes]. cbn. intros o ->. reflexivity.
    + eapply Forall_impl; [|exact Hnot]. cbn. intros o ->. reflexivity.
Qed.

End RoundTrips.

(** X13. A booking that [create_booking] returned is found again under
    its identifier: [get_booking] and [get_booking_by_query] both return
    the document of the response. *)
Theorem X13_created_booking_is_found_by_its_id
        (env : Env) (booking : BookingCreateRequest.t) (w w' : World)
        (b : Booking.doc) (by_id_field : string -> pyexc + option Booking.doc)
        (booking_id : string) :
  create_booking env booking w = (inr (Some b), w') ->
  ObjectId_of_str booking_id = Some (Booking._id b) ->
  get_booking None by_id_field booking_id w' = inr b
  /\ get_booking_by_query None by_id_field booking_id w' = inr b.
Proof.
  intros Hcreate Hid. apply created_is_stored in Hcreate.
  destruct Hcreate as (_ & _ & Hfind & _).
  unfold get_booking, get_booking_by_query, find_by_object_id.
  rewrite Hid, Hfind.
  destruct (String.eqb_spec booking_id "") as [->|_]; [discriminate Hid|].
  split; reflexivity.
Qed.

Lemma X13_witness :
  get_booking None Fixtures.no_id_field Fixtures.first_id Sample.world_after_first
  = inr Sample.first_doc
  /\ get_booking_by_query None Fixtures.no_id_field Fixtures.first_id
                          Sample.world_after_first
     = inr Sample.first_doc.
Proof.
  apply (X13_created_booking_is_found_by_its_id Sample.lock_env Sample.first_request
           Sample.empty_world Sample.world_after_first Sample.first_doc
           Fixtures.no_id_field Fixtures.first_id).
  - vm_compute. reflexivity.
  - reflexivity.
Defined.


(** X14. A booking that [create_booking] returned comes last in the
    list of all bookings and in the list of its guest's bookings, and
    the list of any other guest is what it was. *)
Theorem X14_created_booking_is_listed
        (env : Env) (booking : BookingCreateRequest.t) (w w' : World)
        (b : Booking.doc) :
  create_booking env booking w = (inr (Some b), w') ->
  get_all_bookings w' = get_all_bookings w ++ [b]
  /\ get_guest_bookings (BookingCreateRequest.guest_email booking) w'
     = get_guest_bookings (BookingCreateRequest.guest_email booking) w ++ [b]
  /\ forall guest_email,
       guest_email <> BookingCreateRequest.guest_email booking ->
       get_guest_bookings guest_email w' = get_guest_bookings guest_email w.
Proof.
  intros Hcreate. apply created_is_stored in Hcreate.
  destruct Hcreate as (Hb & _ & _ & Hdoc).
  unfold get_all_bookings, get_guest_bookings. rewrite Hb, !filter_app.
  split; [reflexivity|].
  assert (Hmail : Booking.guest_email b = BookingCreateRequest.guest_email booking)
    by (rewrite Hdoc; reflexivity).
  split.
  - simpl.
    destruct (String.eqb_spec (Booking.guest_email b)
                (BookingCreateRequest.guest_email booking)); [reflexivity|contradiction].
  - intros guest_email Hne. rewrite filter_app. simpl.
    destruct (String.eqb_spec (Booking.guest_email b) guest_email);
      [congruence|apply app_nil_r].
Qed.

Lemma X14_witness :
  get_all_bookings Sample.world_after_first
  = get_all_bookings Sample.empty_world ++ [Sample.first_doc]
  /\ get_guest_bookings (BookingCreateRequest.guest_email Sample.first_request)
                        Sample.world_after_first
     = get_guest_bookings (BookingCreateRequest.guest_email Sample.first_request)
                          Sample.empty_world ++ [Sample.first_doc]
  /\ forall guest_email,
       guest_email <> BookingCreateRequest.guest_email Sample.first_request ->
       get_guest_bookings guest_email Sample.world_after_first
       = get_guest_bookings guest_email Sample.empty_world.
Proof.
  apply (X14_created_booking_is_listed Sample.lock_env Sample.first_request
           Sample.empty_world Sample.world_after_first Sample.first_doc).
  vm_compute. reflexivity.
Defined.


(** X15. Deleting a booking that [create_booking] just made undoes it:
    [delete_booking] answers the success message, and [bookings] and
    [occupancies] are what they were before the booking was made. *)
Theorem X15_delete_undoes_create
        (env : Env) (booking : BookingCreateRequest.t) (w w' : World)
        (b : Booking.doc) (booking_id : string) :
  create_booking env booking w = (inr (Some b), w') ->
  owns_nothing (Booking._id b) w ->
  ObjectId_of_str booking_id = Some (Booking._id b) ->
  exists w'',
    delete_booking None None None booking_id w' = (inr deleted_message, w'')
    /\ bookings w'' = bookings w
    /\ occupancies w'' = occupancies w.
Proof.
  intros Hcreate Hown Hid.
  pose proof (created_is_stored _ _ _ _ _ Hcreate) as (Hb & Hfresh & Hfind & _).
  apply create_booking_success in Hcreate.
  destruct Hcreate as (ci & co & i & _ & [= ->] & _ & Hw).
  cbn [Booking._id Store.to_doc] in *.
  destruct (reservation_occupancies _ _ _ _ _ _ Hw Hown) as (_ & Hrest).
  unfold delete_booking. rewrite Hid, Hfind.
  cbn [cleanup_occupancies Store.delete_many snd bookings Store.set_occupancies].
  assert (Hex : existsb (Store.has_id i) (bookings w') = true).
  { apply find_some in Hfind. apply existsb_exists. eauto. }
  rewrite Hex. eexists. split; [reflexivity|].
  cbn [bookings occupancies Store.set_bookings Store.set_occupancies].
  split; [|exact Hrest].
  rewrite Hb. apply remove_first_fresh; [exact Hfresh|apply has_id_to_doc].
Qed.

Lemma X15_witness :
  exists w'',
    delete_booking None None None Fixtures.first_id Sample.world_after_first
    = (inr deleted_message, w'')
    /\ bookings w'' = bookings Sample.empty_world
    /\ occupancies w'' = occupancies Sample.empty_world.
Proof.
  apply (X15_delete_undoes_create Sample.lock_env Sample.first_request
           Sample.empty_world Sample.world_after_first Sample.first_doc
           Fixtures.first_id).
  - vm_compute. reflexivity.
  - intros o [].
  - reflexivity.
Defined.


(** X16. Releasing the occupancies of a booking that [create_booking]
    just made reports one released document per night, check-out minus
    check-in days, and leaves [occupancies] as it was before the booking
    was made; the booking itself stays. *)
Theorem X16_release_counts_the_nights
        (env : Env) (booking : BookingCreateRequest.t) (w w' : World)
        (b : Booking.doc) (booking_id : string) :
  create_booking env booking w = (inr (Some b), w') ->
  owns_nothing (Booking._id b) w ->
  ObjectId_of_str booking_id = Some (Booking._id b) ->
  exists check_in_dt check_out_dt,
    Datetime.strptime (BookingCreateRequest.check_in booking) = Some check_in_dt
    /\ Datetime.strptime (BookingCreateRequest.check_out booking) = Some check_out_dt
    /\ release_occupancies_endpoint booking_id w'
       = (inr (check_out_dt - check_in_dt), Store.set_occupancies w' (occupancies w)).
Proof.
  intros Hcreate Hown Hid.
  apply create_booking_success in Hcreate.
  destruct Hcreate as (ci & co & i & Hpre & [= ->] & _ & Hw).
  cbn [Booking._id Store.to_doc] in *.
  apply pre_write_checks_ok in Hpre. destruct Hpre as (_ & _ & Hparse).
  apply parse_dates_ok in Hparse. destruct Hparse as (Hci & Hco & Hlt).
  exists ci, co. split; [exact Hci|]. split; [exact Hco|].
  destruct (reservation_occupancies _ _ _ _ _ _ Hw Hown) as (Hlen & Hrest).
  unfold release_occupancies_endpoint, Store.delete_many. rewrite Hid, Hlen, Hrest.
  rewrite build_nights_length. f_equal. f_equal. lia.
Qed.

Lemma X16_witness :
  exists check_in_dt check_out_dt,
    Datetime.strptime (BookingCreateRequest.check_in Sample.first_request)
    = Some check_in_dt
    /\ Datetime.strptime (BookingCreateRequest.check_out Sample.first_request)
       = Some check_out_dt
    /\ release_occupancies_endpoint Fixtures.first_id Sample.world_after_first
       = (inr (check_out_dt - check_in_dt),
          Store.set_occupancies Sample.world_after_first
            (occupancies Sample.empty_world)).
Proof.
  apply (X16_release_counts_the_nights Sample.lock_env Sample.first_request
           Sample.empty_world Sample.world_after_first Sample.first_doc
           Fixtures.first_id).
  - vm_compute. reflexivity.
  - intros o [].
  - reflexivity.
Defined.


Section UniqueIds.

Lemma map_id_update_first i u l :
  map Booking._id (update_first i u l) = map Booking._id l.
Proof.
  induction l as [|b l IH]; simpl; [reflexivity|].
  destruct (Store.has_id i b); simpl; [reflexivity|now rewrite IH].
Qed.

Lemma NoDup_remove_first (p : Booking.doc -> bool) l :
  NoDup (map Booking._id l) -> NoDup (map Booking._id (Store.remove_first p l)).
Proof.
  induction l as [|b l IH]; simpl; [auto|].
  intros Hnd. inversion Hnd as [|? ? Hnin Hrest]; subst.
  destruct (p b); [exact Hrest|]. simpl. constructor; [|auto].
  intros Hin. apply Hnin. apply in_map_iff in Hin. destruct Hin as (x & Hx & Hin).
  apply in_map_iff. exists x. split; [exact Hx|]. eapply remove_first_In; eauto.
Qed.

Lemma not_in_ids i l :
  existsb (Store.has_id i) l = false -> ~ In i (map Booking._id l).
Proof.
  intros Hf Hin. apply in_map_iff in Hin. destruct Hin as (x & Hx & Hin).
  assert (existsb (Store.has_id i) l = true).
  { apply existsb_exists. exists x. split; [exact Hin|].
    unfold Store.has_id. now apply N.eqb_eq. }
  congruence.
Qed.

Lemma NoDup_snoc (l : list ObjectId) x : NoDup l -> ~ In x l -> NoDup (l ++ [x]).
Proof.
  intros Hl Hx. apply NoDup_app; [exact Hl|repeat constructor; intros []|].
  intros y Hy [<-|[]]. contradiction.
Qed.

(** With unique identifiers, removing the first booking of an
    identifier removes the only one. *)
Lemma find_remove_first i l :
  NoDup (map Booking._id l) ->
  find (Store.has_id i) (Store.remove_first (Store.has_id i) l) = None.
Proof.
  induction l as [|b l IH]; simpl; [reflexivity|].
  intros Hnd. inversion Hnd as [|? ? Hnin Hrest]; subst.
  destruct (Store.has_id i b) eqn:Hb.
  - destruct (find (Store.has_id i) l) as [x|] eqn:Hfind; [|reflexivity].
    exfalso. apply find_some in Hfind. destruct Hfind as [Hin Hx].
    apply Hnin. apply in_map_iff. exists x. split; [|exact Hin].
    unfold Store.has_id in *. apply N.eqb_eq in Hb, Hx. congruence.
  - simpl. rewrite Hb. auto.
Qed.

End UniqueIds.

(** X17. The three endpoints that write to [bookings] keep its
    identifiers unique: when no two bookings share an [_id] before
    [create_booking], [update_booking] or [delete_booking] runs, none do
    after, whatever the outcome. *)
Theorem X17_identifiers_stay_unique (w : World) :
  unique_ids w ->
  (forall env booking, unique_ids (snd (create_booking env booking w)))
  /\ (forall update_fault booking_id booking,
        unique_ids (snd (update_booking update_fault booking_id booking w)))
  /\ (forall find_fault cleanup_fault delete_fault booking_id,
        unique_ids (snd (delete_booking find_fault cleanup_fault delete_fault
                           booking_id w))).
Proof.
  unfold unique_ids. intros Hu. split; [|split].
  - intros env booking.
    destruct (create_booking env booking w) as [r w'] eqn:H. cbn [snd].
    apply create_booking_appends in H. destruct H as (_ & [->|(i & Hf & ->)] & _).
    + exact Hu.
    + rewrite map_app. apply NoDup_snoc; [exact Hu|]. now apply not_in_ids.
  - intros fault booking_id booking. unfold update_booking.
    destruct (ObjectId_of_str booking_id) as [i|]; [|exact Hu].
    destruct fault; [exact Hu|].
    destruct (existsb (Store.has_id i) (bookings w)); [|exact Hu].
    cbn [snd bookings Store.set_bookings]. now rewrite map_id_update_first.
  - intros ff cf df booking_id. unfold delete_booking.
    destruct (ObjectId_of_str booking_id) as [i|]; [|exact Hu].
    destruct ff; [exact Hu|].
    destruct (find (Store.has_id i) (bookings w)); [|exact Hu].
    destruct df; cbn [snd]; rewrite ?cleanup_keeps_bookings; [exact Hu|].
    destruct (existsb (Store.has_id i) (bookings w)); cbn [snd bookings Store.set_bookings];
      rewrite ?cleanup_keeps_bookings; [|exact Hu].
    now apply NoDup_remove_first.
Qed.

Lemma X17_witness :
  (forall env booking,
     unique_ids (snd (create_booking env booking Sample.world_after_first)))
  /\ (forall update_fault booking_id booking,
        unique_ids (snd (update_booking update_fault booking_id booking
                           Sample.world_after_first)))
  /\ (forall find_fault cleanup_fault delete_fault booking_id,
        unique_ids (snd (delete_booking find_fault cleanup_fault delete_fault
                           booking_id Sample.world_after_first))).
Proof.
  apply (X17_identifiers_stay_unique Sample.world_after_first).
  unfold unique_ids. vm_compute.
  apply NoDup_cons; [intros []|apply NoDup_nil].
Defined.


(** X18. With unique identifiers a booking is deleted once: after a
    [delete_booking] that succeeded, a second one for the same
    identifier answers 404 and changes nothing, and [get_booking] no
    longer finds the booking by its identifier. *)
Theorem X18_deleted_booking_is_gone
        (find_fault : option pyexc) (cleanup_fault : option (nat * pyexc))
        (delete_fault : option pyexc) (booking_id : string) (w w' : World)
        (message : string) :
  unique_ids w ->
  delete_booking find_fault cleanup_fault delete_fault booking_id w
  = (inr message, w') ->
  (forall cleanup_fault' delete_fault',
     delete_booking None cleanup_fault' delete_fault' booking_id w'
     = (inl (HTTPException 404 "Booking not found"), w'))
  /\ find_by_object_id None booking_id w' = None
  /\ get_booking None (fun _ => inr None) booking_id w'
     = inl (HTTPException 404 "Booking not found").
Proof.
  unfold unique_ids, delete_booking, get_booking, find_by_object_id. intros Hu H.
  destruct (ObjectId_of_str booking_id) as [i|]; [|discriminate].
  destruct find_fault; [discriminate|].
  destruct (find (Store.has_id i) (bookings w)); [|discriminate].
  destruct delete_fault; [discriminate|].
  rewrite cleanup_keeps_bookings in H.
  destruct (existsb (Store.has_id i) (bookings w)); [|discriminate].
  injection H as _ <-. cbn [bookings Store.set_bookings].
  rewrite ?cleanup_keeps_bookings. rewrite (find_remove_first i _ Hu).
  repeat split.
Qed.

Lemma X18_witness :
  (forall cleanup_fault' delete_fault',
     delete_booking None cleanup_fault' delete_fault' Fixtures.first_id
                    Fixtures.world_after_delete
     = (inl (HTTPException 404 "Booking not found"), Fixtures.world_after_delete))
  /\ find_by_object_id None Fixtures.first_id Fixtures.world_after_delete = None
  /\ get_booking None (fun _ => inr None) Fixtures.first_id Fixtures.world_after_delete
     = inl (HTTPException 404 "Booking not found").
Proof.
  apply (X18_deleted_booking_is_gone None None None Fixtures.first_id
           Sample.world_after_first Fixtures.world_after_delete deleted_message).
  - unfold unique_ids. vm_compute.
    apply NoDup_cons; [intros []|apply NoDup_nil].
  - reflexivity.
Defined.

(** ** Dates as text and as dates *)

Section Calendar.
Import Datetime.

Lemma is_leap_cases y :
  (is_leap y = true /\ (y mod 4 = 0 /\ (y mod 100 <> 0 \/ y mod 400 = 0)))
  \/ (is_leap y = false /\ (y mod 4 <> 0 \/ (y mod 100 = 0 /\ y mod 400 <> 0))).
Proof.
  unfold is_leap.
  destruct (Z.eqb_spec (y mod 4) 0), (Z.eqb_spec (y mod 100) 0),
    (Z.eqb_spec (y mod 400) 0); simpl; intuition.
Qed.

Lemma days_before_year_step y :
  days_before_year (y + 1)
  = days_before_year y + 365 + (if is_leap y then 1 else 0).
Proof.
  unfold days_before_year.
  replace (y + 1 - 1) with y by lia.
  destruct (is_leap_cases y) as [[-> H]|[-> H]];
    Z.div_mod_to_equations; lia.
Qed.

Lemma days_before_year_mono y y' :
  y <= y' -> days_before_year y <= days_before_year y'.
Proof.
  intros Hle. replace y' with (y + Z.of_nat (Z.to_nat (y' - y))) by lia.
  induction (Z.to_nat (y' - y)) as [|n IH]; [now rewrite Z.add_0_r|].
  rewrite Nat2Z.inj_succ, <- Z.add_1_r, Z.add_assoc, days_before_year_step.
  destruct (is_leap _); lia.
Qed.

Lemma make_date_valid y m d a :
  make_date y m d = Some a <-> valid_date y m d /\ a = ymd_to_ordinal y m d.
Proof.
  unfold make_date, valid_date.
  destruct (Z.leb_spec 1 y), (Z.leb_spec y 9999), (Z.leb_spec 1 m),
    (Z.leb_spec m 12), (Z.leb_spec 1 d), (Z.leb_spec d (days_in_month y m)); simpl;
    split; try (intros [= <-]); try (intros [Hv ->]); auto; try discriminate; try lia.
Qed.

Lemma month_cases m :
  1 <= m <= 12 ->
  m = 1 \/ m = 2 \/ m = 3 \/ m = 4 \/ m = 5 \/ m = 6 \/ m = 7 \/ m = 8
  \/ m = 9 \/ m = 10 \/ m = 11 \/ m = 12.
Proof. lia. Qed.

(** Within a year: a month ends where the next one starts, and
    December ends with the year. *)
Lemma days_before_month_next y m :
  1 <= m <= 11 ->
  days_before_month y m + days_in_month y m = days_before_month y (m + 1).
Proof.
  intros Hm.
  assert (H : m = 1 \/ m = 2 \/ m = 3 \/ m = 4 \/ m = 5 \/ m = 6 \/ m = 7 \/ m = 8
              \/ m = 9 \/ m = 10 \/ m = 11) by lia.
  destruct H as [->|[->|[->|[->|[->|[->|[->|[->|[->|[->| ->]]]]]]]]]];
    unfold days_before_month, days_in_month; simpl; destruct (is_leap y); reflexivity.
Qed.

Lemma days_before_december y :
  days_before_month y 12 + 31 = 365 + (if is_leap y then 1 else 0).
Proof. unfold days_before_month; simpl; destruct (is_leap y); reflexivity. Qed.

Lemma days_in_month_bound y m : 1 <= m <= 12 -> 28 <= days_in_month y m <= 31.
Proof.
  intros Hm. unfold days_in_month.
  destruct (m =? 2); [destruct (is_leap y); lia|].
  destruct ((m =? 4) || (m =? 6) || (m =? 9) || (m =? 11)); lia.
Qed.

Lemma days_before_month_mono y m m' :
  1 <= m -> m <= m' -> m' <= 12 ->
  days_before_month y m <= days_before_month y m'.
Proof.
  intros H1 Hle H12.
  destruct (month_cases m ltac:(lia)) as [->|[->|[->|[->|[->|[->|[->|[->|[->|[->|[->| ->]]]]]]]]]]];
    destruct (month_cases m' ltac:(lia)) as [->|[->|[->|[->|[->|[->|[->|[->|[->|[->|[->| ->]]]]]]]]]]];
    try lia; unfold days_before_month; simpl; destruct (is_leap y); lia.
Qed.

Lemma days_before_month_nonneg y m : 1 <= m <= 12 -> 0 <= days_before_month y m.
Proof.
  intros Hm. pose proof (days_before_month_mono y 1 m). 
  assert (days_before_month y 1 = 0) by (unfold days_before_month; simpl; reflexivity).
  lia.
Qed.

(** The ordinal of a date orders dates as year, month, day do. *)
Lemma ordinal_lex y m d y' m' d' :
  valid_date y m d -> valid_date y' m' d' ->
  y < y' \/ (y = y' /\ (m < m' \/ (m = m' /\ d < d'))) ->
  ymd_to_ordinal y m d < ymd_to_ordinal y' m' d'.
Proof.
  intros (Hy & Hm & Hd) (Hy' & Hm' & Hd') Hlex. unfold ymd_to_ordinal.
  assert (Hin : forall yy mm dd, 1 <= mm <= 12 -> 1 <= dd <= days_in_month yy mm ->
             days_before_month yy mm + dd <= 365 + (if is_leap yy then 1 else 0)).
  { intros yy mm dd Hmm Hdd.
    pose proof (days_before_december yy).
    pose proof (days_in_month_bound yy mm Hmm).
    destruct (Z.eq_dec mm 12) as [->|Hne]; [lia|].
    pose proof (days_before_month_next yy mm ltac:(lia)).
    pose proof (days_before_month_mono yy (mm + 1) 12 ltac:(lia) ltac:(lia) ltac:(lia)).
    lia. }
  destruct Hlex as [Hlt|[<- [Hlt|[<- Hlt]]]].
  - pose proof (Hin y m d Hm Hd).
    pose proof (days_before_year_step y).
    pose proof (days_before_year_mono (y + 1) y' ltac:(lia)).
    pose proof (days_before_month_nonneg y' m' Hm').
    lia.
  - pose proof (days_before_month_next y m ltac:(lia)) as Hn.
    pose proof (days_before_month_mono y (m + 1) m' ltac:(lia) ltac:(lia) ltac:(lia)).
    lia.
  - lia.
Qed.

End Calendar.

Section PaddedDates.
Import Datetime.

Lemma ascii_compare_digit_val c c' :
  Ascii.compare c c' = (digit_val c ?= digit_val c').
Proof.
  unfold Ascii.compare, digit_val. rewrite <- N2Z.inj_compare.
  destruct (Z.compare_spec (Z.of_N (N_of_ascii c)) (Z.of_N (N_of_ascii c')));
    symmetry; [apply Z.compare_eq_iff|apply Z.compare_lt_iff|apply Z.compare_gt_iff]; lia.
Qed.

Lemma is_digit_val c : is_digit c = true -> 0 <= digit_val c <= 9.
Proof.
  unfold is_digit, digit_val. cbv zeta. intros H.
  apply andb_true_iff in H. destruct H as [H1 H2].
  apply Z.leb_le in H1, H2. lia.
Qed.

Lemma digit_val_inj c c' : digit_val c = digit_val c' -> c = c'.
Proof.
  unfold digit_val. intros H.
  assert (N_of_ascii c = N_of_ascii c') by lia.
  rewrite <- (ascii_N_embedding c), <- (ascii_N_embedding c'). congruence.
Qed.

Ltac every_byte c := destruct c as [[] [] [] [] [] [] [] []].

(** On a byte, that is on a character of ASCII or a piece of a longer
    one, [\d] is [[0-9]]: no decimal digit of another script lies below
    256. *)
Lemma decimal_byte c :
  Unicode.decimal (N_of_ascii c) = if is_digit c then Some (digit_val c) else None.
Proof. every_byte c; vm_compute; reflexivity. Qed.

Lemma ascii_digit_byte c :
  ascii_digit (N_of_ascii c) = if is_digit c then Some (digit_val c) else None.
Proof. every_byte c; vm_compute; reflexivity. Qed.

Lemma dash_byte c : (N_of_ascii c =? 45)%N = Ascii.eqb c "-".
Proof. every_byte c; vm_compute; reflexivity. Qed.

Lemma digit_or_dash_byte c :
  is_digit c || Ascii.eqb c "-" = true ->
  (N_of_ascii c <? 128)%N = true /\ (N_of_ascii c =? 32)%N = false.
Proof. every_byte c; vm_compute; intros H; (split; [reflexivity|reflexivity]) || discriminate H. Qed.

Lemma zero_padded_inv s a :
  zero_padded s = true -> strptime s = Some a ->
  exists y m d, padded s y m d /\ make_date y m d = Some a.
Proof.
  unfold zero_padded. intros Hz Hp. apply andb_true_iff in Hz. destruct Hz as [Hlen Hall].
  destruct s as [|c1 [|c2 [|c3 [|c4 [|c5 [|c6 [|c7 [|c8 [|c9 [|c10 [|c11 r]]]]]]]]]]];
    try discriminate Hlen.
  clear Hlen. cbn [list_ascii_of_string forallb] in Hall.
  repeat (apply andb_true_iff in Hall; let H := fresh "Hc" in destruct Hall as [H Hall]).
  clear Hall.
  unfold strptime in Hp. cbn [list_ascii_of_string Unicode.code_points] in Hp.
  repeat match goal with
         | H : is_digit ?c || Ascii.eqb ?c "-"%char = true |- _ =>
             let Ha := fresh "Ha" in
             let Hs := fresh "Hs" in
             destruct (digit_or_dash_byte c H) as [Ha Hs];
             rewrite Ha in Hp; clear H Ha
         end.
  cbn [option_map] in Hp.
  rewrite !decimal_byte, dash_byte in Hp.
  destruct (is_digit c1) eqn:D1; [|discriminate Hp].
  destruct (is_digit c2) eqn:D2; [|discriminate Hp].
  destruct (is_digit c3) eqn:D3; [|discriminate Hp].
  destruct (is_digit c4) eqn:D4; [|discriminate Hp].
  destruct (Ascii.eqb_spec c5 "-"%char) as [->|]; [|discriminate Hp].
  cbn [split_dash] in Hp. rewrite !dash_byte in Hp.
  destruct (Ascii.eqb_spec c6 "-"%char) as [->|N6]; [discriminate Hp|].
  destruct (Ascii.eqb_spec c7 "-"%char) as [->|N7].
  { cbn [parse_month parse_day] in Hp. rewrite ascii_digit_byte in Hp.
    destruct (nonzero _); discriminate Hp. }
  destruct (Ascii.eqb_spec c8 "-"%char) as [->|N8].
  2:{ destruct (Ascii.eqb_spec c9 "-"%char); [discriminate Hp|].
      destruct (Ascii.eqb_spec c10 "-"%char); discriminate Hp. }
  cbn [parse_month parse_day] in Hp. rewrite !ascii_digit_byte, !decimal_byte in Hp.
  match goal with H : (N_of_ascii c9 =? 32)%N = false |- _ => rewrite H in Hp end.
  destruct (is_digit c6) eqn:D6; [|discriminate Hp].
  destruct (is_digit c7) eqn:D7; [|discriminate Hp].
  cbv zeta in Hp.
  destruct ((1 <=? 10 * digit_val c6 + digit_val c7)
            && (10 * digit_val c6 + digit_val c7 <=? 12)); [|discriminate Hp].
  destruct (is_digit c9) eqn:D9; [|discriminate Hp].
  assert (Hd10 : is_digit c10 = true).
  { destruct (is_digit c10); [reflexivity|].
    destruct (digit_val c9 =? 3); [discriminate Hp|].
    destruct ((digit_val c9 =? 1) || (digit_val c9 =? 2)); [discriminate Hp|].
    destruct (digit_val c9 =? 0); discriminate Hp. }
  rewrite Hd10 in Hp.
  assert (Hmk : make_date (1000 * digit_val c1 + 100 * digit_val c2
                           + 10 * digit_val c3 + digit_val c4)
                          (10 * digit_val c6 + digit_val c7)
                          (10 * digit_val c9 + digit_val c10) = Some a).
  { destruct (Z.eqb_spec (digit_val c9) 3) as [E3|_].
    - destruct (digit_val c10 <=? 1); [|discriminate Hp].
      rewrite E3. exact Hp.
    - destruct ((digit_val c9 =? 1) || (digit_val c9 =? 2)); [exact Hp|].
      destruct (Z.eqb_spec (digit_val c9) 0) as [E0|_]; [|discriminate Hp].
      unfold nonzero in Hp. destruct (digit_val c10 =? 0); [discriminate Hp|].
      rewrite E0. exact Hp. }
  eexists _, _, _. split; [|exact Hmk].
  constructor. exists c1, c2, c3, c4, c6, c7, c9, c10.
  split; [reflexivity|]. split; [repeat constructor; assumption|].
  repeat split.
Qed.

Ltac order_step v v' :=
  destruct (Z.compare_spec v v');
  [ | symmetry; apply Z.compare_lt_iff; apply ordinal_lex; [assumption|assumption|lia]
    | symmetry; apply Z.compare_gt_iff; apply ordinal_lex; [assumption|assumption|lia] ].

(** On zero-padded dates the order of the texts is the order of the
    dates. *)
Lemma padded_compare s1 s2 a b :
  zero_padded s1 = true -> zero_padded s2 = true ->
  strptime s1 = Some a -> strptime s2 = Some b ->
  String.compare s1 s2 = (a ?= b).
Proof.
  intros Hz1 Hz2 Hp1 Hp2.
  destruct (zero_padded_inv s1 a Hz1 Hp1) as (y & m & d & [Ht] & Hd).
  destruct (zero_padded_inv s2 b Hz2 Hp2) as (y' & m' & d' & [Ht'] & Hd').
  apply make_date_valid in Hd, Hd'. destruct Hd as [Hv ->]. destruct Hd' as [Hv' ->].
  destruct Ht as (y1 & y2 & y3 & y4 & m1 & m2 & d1 & d2 & -> & Hdig & Hy & Hm & Hdd).
  destruct Ht' as (z1 & z2 & z3 & z4 & n1 & n2 & e1 & e2 & -> & Hdig' & Hy' & Hm' & Hdd').
  repeat match goal with
         | H : Forall _ (_ :: _) |- _ =>
             let Hc := fresh "Hc" in
             apply Forall_cons_iff in H; destruct H as [Hc H];
             apply is_digit_val in Hc
         end.
  cbn [String.compare]. rewrite !ascii_compare_digit_val, !Z.compare_refl.
  order_step (digit_val y1) (digit_val z1).
  order_step (digit_val y2) (digit_val z2).
  order_step (digit_val y3) (digit_val z3).
  order_step (digit_val y4) (digit_val z4).
  order_step (digit_val m1) (digit_val n1).
  order_step (digit_val m2) (digit_val n2).
  order_step (digit_val d1) (digit_val e1).
  order_step (digit_val d2) (digit_val e2).
  symmetry. apply Z.compare_eq_iff. f_equal; lia.
Qed.

End PaddedDates.

Lemma padded_order s1 s2 a b :
  zero_padded s1 = true -> zero_padded s2 = true ->
  Datetime.strptime s1 = Some a -> Datetime.strptime s2 = Some b ->
  str_ge s1 s2 = (b <=? a) /\ String.ltb s1 s2 = (a <? b).
Proof.
  intros Hz1 Hz2 Hp1 Hp2. unfold str_ge, String.leb, String.ltb, Z.leb, Z.ltb.
  rewrite (padded_compare s2 s1 b a), (padded_compare s1 s2 a b) by assumption.
  split; reflexivity.
Qed.

(** X19. On dates written YYYY-MM-DD with leading zeros, the order of
    the texts is the order of the dates: the comparison of the two
    strings in line 127 decides as the comparison of the parsed dates in
    line 191 does, and a [$lt] between two such strings is the [<] of
    their dates. *)
Theorem X19_text_order_is_date_order_when_padded (s1 s2 : string) (a b : Z) :
  zero_padded s1 = true -> zero_padded s2 = true ->
  Datetime.strptime s1 = Some a -> Datetime.strptime s2 = Some b ->
  str_ge s1 s2 = (b <=? a) /\ String.ltb s1 s2 = (a <? b).
Proof.
  intros Hz1 Hz2 Hp1 Hp2. now apply padded_order.
Qed.

Lemma X19_witness :
  str_ge "2024-03-01" "2024-03-03" = (738948 <=? 738946)
  /\ String.ltb "2024-03-01" "2024-03-03" = (738946 <? 738948).
Proof.
  apply (X19_text_order_is_date_order_when_padded "2024-03-01" "2024-03-03"
           738946 738948); reflexivity.
Defined.


(** Without the leading zeros the two orders part: 1 March written
    "2024-3-1" is refused as not before 5 March written "2024-03-05". *)
Example unpadded_dates_in_order_are_refused :
  dates_parse_in_order "2024-3-1" "2024-03-05" = true
  /\ create_booking Sample.lock_env
       (Sample.request (AccStr "R") "2024-3-1" "2024-03-05" None) Sample.empty_world
     = (inl (HTTPException 400 "check_in must be before check_out"),
        Sample.empty_world).
Proof. split; reflexivity. Qed.

(** ** Capacity *)

(** X20. When neither a room nor an accommodation is found, the
    capacity is 0: a request that names one guest or more is refused
    with status 400 and nothing changes. *)
Theorem X20_unknown_accommodation_takes_no_guest
        (env : Env) (booking : BookingCreateRequest.t) (w : World) (g : Z) :
  let d := initial_dict env booking in
  rooms_find_one env (Dict.accommodation_id d) = inr None ->
  lookup_accommodation env (Dict.accommodation_id d) = inr None ->
  guests_req d = Some g -> 0 < g ->
  resolve_capacity env d = inr 0
  /\ exists e, create_booking env booking w = (inl e, w) /\ ValidationError e.
Proof.
  cbv zeta. intros Hroom Hacc Hg Hpos.
  assert (Hcap : resolve_capacity env (initial_dict env booking) = inr 0).
  { unfold resolve_capacity. rewrite Hroom, Hacc. reflexivity. }
  split; [exact Hcap|].
  unfold create_booking, pre_write_checks.
  destruct (str_ge _ _).
  - eexists. split; reflexivity.
  - rewrite (capacity_validation_exceeded env _ g 0 Hg Hcap Hpos).
    eexists. split; reflexivity.
Qed.

Lemma X20_witness :
  let booking := Sample.request (AccStr "R") "2024-03-01" "2024-03-03" (Some 2) in
  resolve_capacity Sample.lock_env (initial_dict Sample.lock_env booking) = inr 0
  /\ exists e,
       create_booking Sample.lock_env booking Sample.world_after_first
       = (inl e, Sample.world_after_first)
       /\ ValidationError e.
Proof.
  cbv zeta.
  apply (X20_unknown_accommodation_takes_no_guest Sample.lock_env
           (Sample.request (AccStr "R") "2024-03-01" "2024-03-03" (Some 2))
           Sample.world_after_first 2).
  - reflexivity.
  - reflexivity.
  - reflexivity.
  - lia.
Defined.


(** X21. The extra beds of a room never raise the capacity for a
    request of this endpoint: the body has no [allow_extra_beds] field,
    so a room found directly counts for its [capacity] (or [sleeps])
    alone, and a guest count above it is refused with status 400 however
    many extra beds the room has. *)
Theorem X21_extra_beds_are_never_counted
        (env : Env) (booking : BookingCreateRequest.t) (w : World)
        (r : Room.doc) (g : Z) :
  let d := initial_dict env booking in
  rooms_find_one env (Dict.accommodation_id d) = inr (Some r) ->
  guests_req d = Some g ->
  capacity_of (Room.capacity r) (Room.sleeps r) < g ->
  resolve_capacity env d = inr (capacity_of (Room.capacity r) (Room.sleeps r))
  /\ exists e, create_booking env booking w = (inl e, w) /\ ValidationError e.
Proof.
  cbv zeta. intros Hroom Hg Hlt.
  assert (Hcap : resolve_capacity env (initial_dict env booking)
                 = inr (capacity_of (Room.capacity r) (Room.sleeps r))).
  { unfold resolve_capacity. rewrite Hroom. reflexivity. }
  split; [exact Hcap|].
  unfold create_booking, pre_write_checks.
  destruct (str_ge _ _).
  - eexists. split; reflexivity.
  - rewrite (capacity_validation_exceeded env _ g _ Hg Hcap Hlt).
    eexists. split; reflexivity.
Qed.

Lemma X21_witness :
  let env := Sample.env None (inr (Some Fixtures.room_with_extra_beds)) None None in
  let booking := Sample.request (AccStr "R") "2024-03-01" "2024-03-03" (Some 5) in
  resolve_capacity env (initial_dict env booking) = inr 4
  /\ exists e,
       create_booking env booking Sample.empty_world = (inl e, Sample.empty_world)
       /\ ValidationError e.
Proof.
  cbv zeta.
  apply (X21_extra_beds_are_never_counted
           (Sample.env None (inr (Some Fixtures.room_with_extra_beds)) None None)
           (Sample.request (AccStr "R") "2024-03-01" "2024-03-03" (Some 5))
           Sample.empty_world Fixtures.room_with_extra_beds 5).
  - reflexivity.
  - reflexivity.
  - vm_compute. reflexivity.
Defined.


(** ** Availability of cottages *)

Section Cottages.

Lemma zero_padded_not_missing s : zero_padded s = true -> missing (Some s) = false.
Proof.
  unfold zero_padded, missing. intros H. apply andb_true_iff in H.
  destruct H as [H _]. destruct s; [discriminate H|reflexivity].
Qed.

Lemma existsb_flat_map {A} (p : string -> bool) (f : A -> list string) l x :
  In x l -> existsb p (f x) = true -> existsb p (flat_map f l) = true.
Proof.
  intros Hin Hp. apply existsb_exists in Hp. destruct Hp as (y & Hy & Hpy).
  apply existsb_exists. exists y. split; [|exact Hpy].
  apply in_flat_map. eauto.
Qed.

Lemma lists_resource_normalize r a :
  lists_resource r a = true ->
  exists l, normalize_accommodation_id a = AccList l /\ existsb (String.eqb r) l = true.
Proof.
  destruct a as [s|l]; cbn; intros H; eexists; split; try reflexivity.
  - cbn. now rewrite H.
  - exact H.
Qed.

(** Whoever is named by a booking in [booked_ids] is listed by it. *)
Lemma booked_ids_named r qs qe w :
  existsb (String.eqb r) (booked_ids qs qe w) = true ->
  exists b, In b (bookings w)
            /\ lists_resource r (Booking.accommodation_id b) = true.
Proof.
  intros H. apply existsb_exists in H. destruct H as (y & Hy & Hr).
  apply String.eqb_eq in Hr. subst y.
  unfold booked_ids in Hy. apply in_flat_map in Hy. destruct Hy as (b & Hb & Hin).
  apply filter_In in Hb. destruct Hb as [Hb _]. exists b. split; [exact Hb|].
  unfold booked_ids_of in Hin. unfold lists_resource.
  destruct (Booking.accommodation_id b) as [s|l].
  - destruct (String.eqb_spec s ""); [destruct Hin|].
    destruct Hin as [<-|[]]. apply String.eqb_refl.
  - apply existsb_exists. exists r. split; [exact Hin|apply String.eqb_refl].
Qed.

End Cottages.

(** X22. A booking that [create_booking] made hides its cottages from
    the availability query: with all four dates zero-padded, when the
    half-open interval of the booking meets the range asked for, the
    query succeeds and no cottage it returns is listed by the
    booking. *)
Theorem X22_created_booking_hides_its_cottage
        (env : Env) (booking : BookingCreateRequest.t) (w w' : World)
        (b : Booking.doc) (cottages : list Cottage.doc)
        (availableStart availableEnd : string)
        (check_in_dt check_out_dt start_date end_date : Z) :
  create_booking env booking w = (inr (Some b), w') ->
  zero_padded (BookingCreateRequest.check_in booking) = true ->
  zero_padded (BookingCreateRequest.check_out booking) = true ->
  zero_padded availableStart = true ->
  zero_padded availableEnd = true ->
  Datetime.strptime (BookingCreateRequest.check_in booking) = Some check_in_dt ->
  Datetime.strptime (BookingCreateRequest.check_out booking) = Some check_out_dt ->
  Datetime.strptime availableStart = Some start_date ->
  Datetime.strptime availableEnd = Some end_date ->
  check_in_dt < end_date -> start_date < check_out_dt ->
  exists available,
    get_all_cottages (inr cottages) None (Some availableStart) (Some availableEnd) w'
    = inr available
    /\ forall c, In c available ->
                 lists_resource (Cottage.key c)
                                (BookingCreateRequest.accommodation_id booking) = false.
Proof.
  intros Hcreate Zi Zo Zs Ze Pi Po Ps Pe Hlt1 Hlt2.
  apply created_is_stored in Hcreate. destruct Hcreate as (Hb & _ & _ & Hdoc).
  unfold get_all_cottages.
  rewrite (zero_padded_not_missing _ Zs), (zero_padded_not_missing _ Ze), Ps, Pe.
  cbn [orb]. eexists. split; [reflexivity|].
  intros c Hin. apply in_map_iff in Hin. destruct Hin as (c0 & <- & Hin).
  apply filter_In in Hin. destruct Hin as [_ Hfree].
  apply negb_true_iff in Hfree. cbn [Cottage.set_available Cottage.key].
  destruct (lists_resource (Cottage.key c0)
              (BookingCreateRequest.accommodation_id booking)) eqn:Hkey; [|reflexivity].
  assert (Hbooked : existsb (String.eqb (Cottage.key c0))
                      (booked_ids availableStart availableEnd w') = true).
  { unfold booked_ids. apply existsb_flat_map with (x := b).
    - apply filter_In. split; [rewrite Hb; apply in_app_iff; right; now left|].
      rewrite Hdoc. unfold overlaps_range. cbn [Store.to_doc Booking.check_in
        Booking.check_out lt_str gt_str initial_dict Dict.check_in Dict.check_out].
      destruct (padded_order _ _ _ _ Zi Ze Pi Pe) as [_ ->].
      destruct (padded_order _ _ _ _ Zs Zo Ps Po) as [_ ->].
      apply andb_true_iff. split; apply Z.ltb_lt; assumption.
    - rewrite Hdoc. unfold booked_ids_of.
      cbn [Store.to_doc Booking.accommodation_id initial_dict Dict.accommodation_id].
      destruct (lists_resource_normalize _ _ Hkey) as (l & -> & Hl). exact Hl. }
  congruence.
Qed.

Lemma X22_witness :
  exists available,
    get_all_cottages (inr [Fixtures.river; Fixtures.hill]) None
                     (Some "2024-03-02") (Some "2024-03-05") Sample.world_after_first
    = inr available
    /\ forall c, In c available ->
                 lists_resource (Cottage.key c)
                   (BookingCreateRequest.accommodation_id Sample.first_request) = false.
Proof.
  apply (X22_created_booking_hides_its_cottage Sample.lock_env Sample.first_request
           Sample.empty_world Sample.world_after_first Sample.first_doc
           [Fixtures.river; Fixtures.hill] "2024-03-02" "2024-03-05"
           738946 738948 738947 738950).
  - vm_compute. reflexivity.
  - reflexivity.
  - reflexivity.
  - reflexivity.
  - reflexivity.
  - reflexivity.
  - reflexivity.
  - reflexivity.
  - reflexivity.
  - lia.
  - lia.
Defined.

(** X23. Every failure of [get_all_cottages] is the 500 "Failed to
    fetch cottages": a date that does not parse is answered 500 too, the
    400 of line 31 being raised inside the [try] whose handler catches
    every exception. *)
Theorem X23_cottage_errors_are_all_500
        (cottages : pyexc + list Cottage.doc) (bookings_fault : option pyexc)
        (availableStart availableEnd : option string) (w : World) :
  (forall e, get_all_cottages cottages bookings_fault availableStart availableEnd w
             = inl e ->
             e = HTTPException 500 "Failed to fetch cottages")
  /\ (forall out s e,
        cottages = inr out -> availableStart = Some s -> availableEnd = Some e ->
        s <> "" -> e <> "" ->
        Datetime.strptime s = None \/ Datetime.strptime e = None ->
        get_all_cottages cottages bookings_fault availableStart availableEnd w
        = inl (HTTPException 500 "Failed to fetch cottages")).
Proof.
  unfold get_all_cottages, failed_to_fetch. split.
  - intros e. destruct cottages as [p|out]; [now intros [= <-]|].
    destruct (missing availableStart || missing availableEnd); [discriminate|].
    destruct (Datetime.strptime _); [|now intros [= <-]].
    destruct (Datetime.strptime _); [|now intros [= <-]].
    destruct bookings_fault; [now intros [= <-]|discriminate].
  - intros out s e -> -> -> Hs He Hbad. cbn [missing].
    destruct (String.eqb_spec s ""); [contradiction|].
    destruct (String.eqb_spec e ""); [contradiction|]. cbn [orb].
    destruct Hbad as [-> | Hbad]; [reflexivity|].
    rewrite Hbad. now destruct (Datetime.strptime s).
Qed.

(** X24. The availability filter only removes.  Without both dates the
    whole collection is returned as it is.  With them, every cottage
    returned is a cottage of the collection marked available, and a
    cottage that no booking lists is always among them. *)
Theorem X24_availability_filter_only_removes
        (out : list Cottage.doc) (bookings_fault : option pyexc)
        (availableStart availableEnd : option string) (w : World)
        (available : list Cottage.doc) :
  get_all_cottages (inr out) bookings_fault availableStart availableEnd w
  = inr available ->
  (missing availableStart = true \/ missing availableEnd = true -> available = out)
  /\ (missing availableStart = false -> missing availableEnd = false ->
      (forall c, In c available ->
                 exists c0, In c0 out /\ c = Cottage.set_available c0)
      /\ (forall c0, In c0 out ->
            (forall b, In b (bookings w) ->
               lists_resource (Cottage.key c0) (Booking.accommodation_id b) = false) ->
            In (Cottage.set_available c0) available)).
Proof.
  unfold get_all_cottages.
  destruct (missing availableStart || missing availableEnd) eqn:Hmiss.
  - intros [= <-]. split; [reflexivity|].
    apply orb_true_iff in Hmiss. intros Hs He. destruct Hmiss; congruence.
  - apply orb_false_iff in Hmiss. destruct Hmiss as [Hs He].
    destruct (Datetime.strptime _); [|discriminate].
    destruct (Datetime.strptime _); [|discriminate].
    destruct bookings_fault; [discriminate|]. intros [= <-].
    split; [intros [H|H]; congruence|]. intros _ _. split.
    + intros c Hin. apply in_map_iff in Hin. destruct Hin as (c0 & <- & Hin).
      apply filter_In in Hin. exists c0. tauto.
    + intros c0 Hin Hfree. apply in_map. apply filter_In. split; [exact Hin|].
      apply negb_true_iff.
      destruct (existsb _ (booked_ids _ _ w)) eqn:Hbooked; [|reflexivity].
      apply booked_ids_named in Hbooked. destruct Hbooked as (b & Hb & Hl).
      rewrite (Hfree b Hb) in Hl. discriminate.
Qed.

Lemma X24_witness :
  let available := [Cottage.set_available Fixtures.hill] in
  let out := [Fixtures.river; Fixtures.hill] in
  (missing (Some "2024-03-02") = true \/ missing (Some "2024-03-05") = true ->
   available = out)
  /\ (missing (Some "2024-03-02") = false -> missing (Some "2024-03-05") = false ->
      (forall c, In c available ->
                 exists c0, In c0 out /\ c = Cottage.set_available c0)
      /\ (forall c0, In c0 out ->
            (forall b, In b (bookings Sample.world_after_first) ->
               lists_resource (Cottage.key c0) (Booking.accommodation_id b) = false) ->
            In (Cottage.set_available c0) available)).
Proof.
  cbv zeta.
  apply (X24_availability_filter_only_removes [Fixtures.river; Fixtures.hill] None
           (Some "2024-03-02") (Some "2024-03-05") Sample.world_after_first
           [Cottage.set_available Fixtures.hill]).
  vm_compute. reflexivity.
Defined.

(** ** The fallback after a failed transaction *)

Section Fallback.

(** A transaction block that raises leaves the collections alone; the
    identifier its [insert_one] generated, if it got that far, stays in
    [booking_dict]. *)
Lemma transaction_block_raises env nights fr e fr' :
  transaction_block env nights fr = (inl e, fr') ->
  Dict._id (booking_dict fr) = None ->
  wrote_nothing (world fr) (world fr')
  /\ lock_calls (world fr') = lock_calls (world fr)
  /\ same_fields (booking_dict fr) (booking_dict fr')
  /\ (Dict._id (booking_dict fr') = None /\ next_oid (world fr') = next_oid (world fr)
      \/ Dict._id (booking_dict fr') = Some (next_oid (world fr))).
Proof.
  intros H Hid. unfold wrote_nothing, same_fields. mrun H.
  all: injection H as <- <-; wsimpl.
  all: repeat split; auto.
  all: try congruence.
Qed.

Lemma to_doc_set_id d j i : Store.to_doc (Dict.set_id d j) i = Store.to_doc d i.
Proof. reflexivity. Qed.

(** The critical section with a driver that raises nowhere, for a
    [booking_dict] that has no identifier yet or has one that is not in
    use. *)
Lemma critical_section_books env ci co nights fr i :
  lock_path_goes_through env ->
  (Dict._id (booking_dict fr) = None /\ i = next_oid (world fr)
   \/ Dict._id (booking_dict fr) = Some i) ->
  existsb (Store.has_id i) (bookings (world fr)) = false ->
  find (overlap_filter (Dict.accommodation_id (booking_dict fr)) ci co)
       (bookings (world fr)) = None ->
  let d := booking_dict fr in
  exists fr',
    critical_section env ci co nights fr = (inr (Some (Store.to_doc d i)), fr')
    /\ bookings (world fr') = bookings (world fr) ++ [Store.to_doc d i]
    /\ (exists n, occupancies (world fr')
                  = occupancies (world fr)
                    ++ Store.with_ids n (occ_docs_of env d i nights))
    /\ quiet (world fr) (world fr').
Proof.
  intros (H1 & H2 & H3 & H4) Hid Hfresh Hnone. cbv zeta.
  destruct (critical_section env ci co nights fr) as [r fr'] eqn:H.
  msimpl H. rewrite H1 in H. msimpl H. rewrite Hnone in H. msimpl H.
  rewrite H2, H4 in H.
  destruct Hid as [[Hid ->]|Hid]; rewrite Hid in H; msimpl H; wsimpl;
    rewrite Hfresh in H; msimpl H; rewrite H3 in H;
    rewrite ?occ_docs_of_set_id in H.
  all: match type of H with
       | context [occ_docs_of ?e ?d ?j ?n] =>
           destruct (occ_docs_of e d j n) eqn:Hocc
       end; msimpl H; wsimpl.
  all: rewrite find_fresh in H by auto using has_id_to_doc.
  all: injection H as <- <-; eexists; split; [reflexivity|]; wsimpl.
  all: unfold quiet; wsimpl; split; [reflexivity|]; split; [|auto].
  all: first [ exists 0%N; cbn; now rewrite app_nil_r | eexists; reflexivity ].
Qed.

End Fallback.

(** X25. A transaction that fails with anything but a duplicate key
    leaves nothing behind, and the request is then booked under the
    lock: with the lock granted, no overlap found and a lock-guarded
    path on which the driver raises nowhere, the response is the stored
    document, under the identifier the driver generated first (inside
    the transaction, when it got that far: [booking_dict] keeps it), the
    booking and one occupancy per night are appended once, and the lock
    is acquired and released. *)
Theorem X25_failed_transaction_falls_back_and_books
        (env : Env) (booking : BookingCreateRequest.t) (w : World)
        (check_in_dt check_out_dt : Z) (client : Client) (owner : string)
        (p : pyexc) (fr1 : Frame) :
  let d := initial_dict env booking in
  let key := lock_key_of d check_in_dt check_out_dt in
  db_client env = Some client ->
  has_start_session client = true ->
  pre_write_checks env d = inr (check_in_dt, check_out_dt) ->
  transaction_block env (build_nights check_in_dt check_out_dt)
                    {| world := w; booking_dict := d |}
  = (inl (Raised p), fr1) ->
  p <> DuplicateKeyError ->
  lock_path_goes_through env ->
  acquire_lock env key (uuid4_hex env) 30 5%float = inr (Some owner) ->
  owner <> "" ->
  find (overlap_filter (Dict.accommodation_id d) check_in_dt check_out_dt) (bookings w)
  = None ->
  next_oid_unused w ->
  exists w',
    create_booking env booking w = (inr (Some (Store.to_doc d (next_oid w))), w')
    /\ bookings w' = bookings w ++ [Store.to_doc d (next_oid w)]
    /\ (exists n,
          occupancies w'
          = occupancies w
            ++ Store.with_ids n
                 (occ_docs_of env d (next_oid w) (build_nights check_in_dt check_out_dt)))
    /\ lock_calls w'
       = lock_calls w ++ [AcquireLock key (uuid4_hex env) 30 5%float;
                          ReleaseLock key owner].
Proof.
  cbv zeta. intros Hc Hs Hpre Hblock Hp Hgo Hacq Howner Hnone Hfresh.
  pose proof (transaction_block_raises _ _ _ _ _ Hblock (initial_dict_id env booking))
    as ((Hbk & Hoc) & Hlc & Hsame & Hid).
  cbn [world booking_dict] in Hbk, Hoc, Hlc, Hid.
  pose proof (same_fields_acc _ _ Hsame) as Hacc. cbn [booking_dict] in Hacc.
  unfold create_booking. rewrite Hpre, reserve_select.
  unfold select_path. rewrite Hc, Hs. unfold transactional_path, try_except.
  rewrite Hblock.
  destruct p; [contradiction| |];
    (cbv beta iota zeta delta [ret raise];
     rewrite fallback_lock;
     unfold lock_guarded_path, call_acquire_lock;
     change ttl_seconds with 30; change timeout with 5%float;
     cbv beta iota zeta delta [bind get_dict get_world put_world ret raise try_finally];
     cbn [world booking_dict fst snd];
     unfold lock_key_of; rewrite Hacc;
     change {| key_accommodation_id := Dict.accommodation_id (initial_dict env booking);
               key_start := check_in_dt; key_end := check_out_dt |}
       with (lock_key_of (initial_dict env booking) check_in_dt check_out_dt);
     rewrite Hacq;
     cbv beta iota zeta delta [bind get_dict get_world put_world ret raise try_finally];
     rewrite (falsy_owner_token owner Howner)).
  all: destruct (critical_section_books env check_in_dt check_out_dt
              (build_nights check_in_dt check_out_dt)
              {| world := Store.log_lock_call (world fr1)
                            (AcquireLock (lock_key_of (initial_dict env booking)
                                            check_in_dt check_out_dt)
                                         (uuid4_hex env) 30 5%float);
                 booking_dict := booking_dict fr1 |} (next_oid w) Hgo)
    as (fr' & Hcs & Hb & (n & Ho) & Hl & _);
    [ cbn [world booking_dict next_oid Store.log_lock_call];
      destruct Hid as [[Hid Hn]|Hid]; [left; split; [exact Hid|now rewrite Hn]|now right]
    | cbn [world booking_dict bookings Store.log_lock_call]; rewrite Hbk; exact Hfresh
    | cbn [world booking_dict bookings Store.log_lock_call]; rewrite Hbk, Hacc;
      exact Hnone
    | ].
  all: cbn [world booking_dict bookings occupancies lock_calls next_oid
            Store.log_lock_call] in Hcs, Hb, Ho, Hl.
  all: rewrite (Hsame (next_oid w)) in Hcs, Hb.
  all: rewrite (same_fields_occ_docs env _ _ (next_oid w) _ Hsame) in Ho.
  all: rewrite Hbk in Hb; rewrite Hoc in Ho; rewrite Hlc in Hl.
  all: cbn [world booking_dict]; rewrite Hcs, release_quietly_effect, notify_published.
  all: eexists; (split; [reflexivity|]); cbn [world owner_token].
  all: destruct (publish_fault env);
    cbn [bookings occupancies lock_calls Store.log_event Store.log_lock_call];
    rewrite Hl, <- app_assoc; eauto.
Qed.

Lemma X25_witness :
  exists w',
    create_booking (Sample.txn_env (Some PyMongoError)) Sample.first_request
                   Sample.empty_world
    = (inr (Some Sample.first_doc), w')
    /\ bookings w' = [Sample.first_doc]
    /\ List.length (lock_calls w') = 2%nat.
Proof.
  destruct (X25_failed_transaction_falls_back_and_books
              (Sample.txn_env (Some PyMongoError)) Sample.first_request
              Sample.empty_world 738946 738948 {| has_start_session := true |}
              "0f8fad5bd9cb469fa16570867728950e" PyMongoError
              (snd (transaction_block (Sample.txn_env (Some PyMongoError))
                      (build_nights 738946 738948)
                      {| world := Sample.empty_world;
                         booking_dict := initial_dict (Sample.txn_env (Some PyMongoError))
                                           Sample.first_request |})))
    as (w' & Hrun & Hb & _ & Hlocks).
  - reflexivity.
  - reflexivity.
  - vm_compute. reflexivity.
  - vm_compute. reflexivity.
  - discriminate.
  - repeat split; reflexivity.
  - reflexivity.
  - discriminate.
  - reflexivity.
  - reflexivity.
  - exists w'. split; [exact Hrun|]. split; [exact Hb|]. rewrite Hlocks. reflexivity.
Defined.
